(** * Universal identity backend: decision coordination core and digital twins

    A shallow embedding of the multi-agent coordinator, the explainable
    decision engine, the vehicle/pet/IoT digital twins and the twin manager
    of the backend server, with the properties of its specification.

    Numbers.  JavaScript numbers are IEEE doubles.  The counts of the source
    (array lengths, scores, milliseconds) are integers and are modelled by
    [Z]; the fractional quantities (confidence, ratios, sensor readings) are
    modelled by exact rationals [Q], with the non-finite results of a
    division kept apart ([jsnum]).  Sums and products of fractions are
    therefore exact here, where the source rounds them.  The ratio of
    approvals is a quotient of two array lengths and is compared with decimal
    literals (0.67, 0.7, 0.8): the rounded quotient lies on the same side of
    the rounded literal as the exact one, so these branches are those of the
    source.

    Time and randomness.  [Date.now()], [new Date().toISOString()] and
    [Math.random()] are inputs of the model: every operation receives the
    values it observes. *)

From Stdlib Require Import ZArith QArith Qminmax Qround Lqa Lia List String Ascii Bool.
From Stdlib Require Import DecimalString.
From stdpp Require Import base option gmap strings.
Import ListNotations.

Open Scope Z_scope.
Open Scope string_scope.
Open Scope list_scope.

(** ** JavaScript values used by the server *)

Module JS.

(** The result of a JavaScript division: a finite number, an infinity or
    NaN (signed zeros are not distinguished). *)
Inductive jsnum : Type :=
| JFin (q : Q)
| JPosInf
| JNegInf
| JNaN.

(** [a / b] on finite operands. *)
Definition jsdiv (a b : Q) : jsnum :=
  if Qeq_bool b 0 then
    if Qeq_bool a 0 then JNaN
    else if Qle_bool 0 a then JPosInf else JNegInf
  else JFin (a / b).

(** [x >= t] and [x < t] for a finite [t]: every comparison with NaN is
    false. *)
Definition js_ge (x : jsnum) (t : Q) : bool :=
  match x with
  | JFin q => Qle_bool t q
  | JPosInf => true
  | JNegInf | JNaN => false
  end.

Definition js_lt (x : jsnum) (t : Q) : bool :=
  match x with
  | JFin q => negb (Qle_bool t q)
  | JNegInf => true
  | JPosInf | JNaN => false
  end.

(** [a < b] on finite numbers. *)
Definition Qlt_bool (a b : Q) : bool := negb (Qle_bool b a).

(** Decimal rendering of an integer, as template literals print it. *)
Definition show (z : Z) : string := NilZero.string_of_int (Z.to_int z).

(** [s.includes(t)] *)
Fixpoint includes (s t : string) : bool :=
  if String.prefix t s then true
  else match s with
       | EmptyString => false
       | String _ s' => includes s' t
       end.

(** Settlement of a promise. *)
Inductive settled (A : Type) : Type :=
| Fulfilled (a : A)
| Rejected (message : string).
Arguments Fulfilled {A} a.
Arguments Rejected {A} message.

(** [await Promise.all(ps)]: the values in order when every promise
    fulfils; otherwise the call throws the error of a rejected promise (the
    leftmost one here: the source only reads its message). *)
Fixpoint promise_all {A : Type} (ps : list (settled A)) : settled (list A) :=
  match ps with
  | [] => Fulfilled []
  | Rejected m :: _ => Rejected m
  | Fulfilled a :: ps' =>
      match promise_all ps' with
      | Fulfilled l => Fulfilled (a :: l)
      | Rejected m => Rejected m
      end
  end.

(** [a.slice(-n)] for [n > 0]: the last [n] elements. *)
Definition slice_last {A : Type} (n : nat) (l : list A) : list A :=
  skipn (length l - n) l.

(** [a.slice(-limit)] for any integer [limit]: a negative start counts from
    the end, a start of zero or more from the front (so [slice(-0)] is the
    whole array). *)
Definition slice_neg {A : Type} (limit : Z) (l : list A) : list A :=
  let start := (- limit)%Z in
  let len := Z.of_nat (length l) in
  let k := if (start <? 0)%Z then Z.max (len + start) 0 else Z.min start len in
  skipn (Z.to_nat k) l.

End JS.
Import JS.

(** ** Identity agents *)

(** A JavaScript object with string values (request metadata). *)
Abbreviation Metadata := (gmap string string).

Record IdentityData : Type := {
  id : string;
  type : string;              (* an absent type behaves as the empty string *)
  metadata : option Metadata  (* [None]: absent, a falsy value *)
}.

Record Evaluation : Type := {
  agentId : string;
  specialization : string;
  timestamp : string;
  decision : string;
  confidence : Q;
  reasoning : list string;
  securityScore : Q;
  isByzantine : bool   (* the field is absent (falsy) on honest responses *)
}.

Record IdentityAgent : Type := {
  agent_agentId : string;
  agent_specialization : string;
  status : string;
  agent_isByzantine : bool
}.

(** The draws of [Math.random()] and the clock reading of one evaluation. *)
Record Draws : Type := {
  byzantineDraw : Q;
  confidenceDraw : Q;
  securityDraw : Q;
  duplicateDraw : Q;
  stamp : string
}.

Module Agent.

Definition new (agentId specialization : string) (byzantine : bool) : IdentityAgent :=
  {| agent_agentId := agentId;
     agent_specialization := specialization;
     status := "online";
     agent_isByzantine := byzantine |}.

Definition validateFormat (id type : string) : string :=
  if negb (String.eqb id "") && negb (String.eqb type "")
     && (5 <? Z.of_nat (String.length id))%Z
  then "PASSED" else "FAILED".

Definition checkDuplicates (r : Draws) : string :=
  if Qlt_bool 0.1 (duplicateDraw r) then "NO_DUPLICATES" else "POTENTIAL_DUPLICATE".

Definition analyzePatterns (type : string) : string :=
  if String.eqb type "vehicle" then "AUTOMOTIVE"
  else if String.eqb type "pet" then "BIOMETRIC"
  else if String.eqb type "iot-device" then "TELEMATIC"
  else "UNKNOWN".

Definition generateResponse (this : IdentityAgent) (identityData : IdentityData)
    (r : Draws) : Evaluation :=
  let securityScore := (securityDraw r * 0.3 + 0.7)%Q in
  {| agentId := agent_agentId this;
     specialization := agent_specialization this;
     timestamp := stamp r;
     decision := "APPROVED";
     confidence := (0.85 + confidenceDraw r * 0.10)%Q;
     reasoning :=
       if String.eqb (agent_specialization this) "validator" then
         [ "Identity format validation: "
             +:+ validateFormat (id identityData) (type identityData);
           "Metadata completeness: "
             +:+ (if metadata identityData is Some _ then "PASSED" else "MINIMAL");
           "Duplicate detection: " +:+ checkDuplicates r ]
       else if String.eqb (agent_specialization this) "consensus" then
         [ "Network consensus probability: HIGH";
           "Historical pattern match: " +:+ analyzePatterns (type identityData);
           "Cross-domain consistency: VERIFIED" ]
       else if String.eqb (agent_specialization this) "security" then
         [ "Cryptographic signature: VALID";
           "Authentication protocol: SECURE";
           "Risk assessment: "
             +:+ (if Qlt_bool 0.8 securityScore then "LOW" else "MEDIUM") ]
       else [];
     securityScore := securityScore;
     isByzantine := false |}.

Definition generateByzantineResponse (this : IdentityAgent) (identityData : IdentityData)
    (r : Draws) : Evaluation :=
  {| agentId := agent_agentId this;
     specialization := agent_specialization this;
     timestamp := stamp r;
     decision := "REJECTED";
     confidence := 0.2;
     reasoning := ["Byzantine fault simulation: MALICIOUS_REJECTION"];
     securityScore := 0.1;
     isByzantine := true |}.

(** The simulated latency and the agent's performance counters do not
    reach the evaluation and are left out. *)
Definition evaluateIdentity (this : IdentityAgent) (identityData : IdentityData)
    (r : Draws) : Evaluation :=
  if agent_isByzantine this && Qlt_bool (byzantineDraw r) 0.3
  then generateByzantineResponse this identityData r
  else generateResponse this identityData r.

End Agent.

(** ** Multi-agent coordinator *)

Record ConsensusResult : Type := {
  approvals : Z;
  rejections : Z;
  totalAgents : Z;
  consensusRatio : jsnum;
  consensusAchieved : bool;
  averageConfidence : jsnum;
  averageSecurityScore : jsnum;
  recommendedDecision : string
}.

(** The two shapes of [byzantineFaultHandling]: the fields set only when a
    Byzantine response was found are optional. *)
Record ByzantineFaultHandling : Type := {
  byzantineAgentsDetected : Z;
  byzantineAgentIds : option (list string);
  originalDecision : option string;
  correctedDecision : option string;
  faultTolerant : bool
}.

(** The object returned by [handleByzantineFaults]: the consensus spread
    into it, the fault record and the decision string. *)
Record FinalDecision : Type := {
  spread : ConsensusResult;
  byzantineFaultHandling : ByzantineFaultHandling;
  finalDecision : string
}.

(** The session recorded by a coordination that completed. *)
Record SessionRecord : Type := {
  coordinationId : string;
  identityId : string;
  sessionTimestamp : string;
  participatingAgents : Z;
  agentEvaluations : list Evaluation;
  consensus : ConsensusResult;
  session_finalDecision : FinalDecision;
  processingTime : Z;
  byzantineDetected : bool
}.

(** The object returned from the [catch] block. *)
Record FailureRecord : Type := {
  failure_coordinationId : string;
  error : string;
  failure_timestamp : string;
  failure_processingTime : Z
}.

Inductive CoordinationSession : Type :=
| Completed (s : SessionRecord)
| Failed (f : FailureRecord).

(** What reading a property that may hold the decision gives. *)
Inductive jsval : Type :=
| JUndefined
| JString (s : string)
| JObject (o : FinalDecision).

(** [v === lit] for a string literal [lit]: strict equality never coerces. *)
Definition strict_eq_string (v : jsval) (lit : string) : bool :=
  match v with
  | JString s => String.eqb s lit
  | JUndefined | JObject _ => false
  end.

(** [coordinationResult.finalDecision] *)
Definition prop_finalDecision (r : CoordinationSession) : jsval :=
  match r with
  | Completed s => JObject (session_finalDecision s)
  | Failed _ => JUndefined
  end.

(** [coordinationResult.error] and [coordinationResult.participatingAgents] *)
Definition prop_error (r : CoordinationSession) : option string :=
  match r with
  | Completed _ => None
  | Failed f => Some (error f)
  end.

Definition prop_participatingAgents (r : CoordinationSession) : option Z :=
  match r with
  | Completed s => Some (participatingAgents s)
  | Failed _ => None
  end.

Record MultiAgentCoordinator : Type := {
  agents : list IdentityAgent;
  consensusThreshold : Q;
  coordinationHistory : list SessionRecord
}.

(** The clock readings of one coordination. *)
Record Clock : Type := {
  startMs : Z;     (* [coordinationStart] *)
  idMs : Z;        (* the reading that names the coordination *)
  isoStamp : string;
  endMs : Z
}.

Module Coordinator.

Definition new : MultiAgentCoordinator :=
  {| agents :=
       [ Agent.new "agent-validator-001" "validator" false;
         Agent.new "agent-consensus-002" "consensus" false;
         Agent.new "agent-security-003" "security" false ];
     consensusThreshold := 0.67;
     coordinationHistory := [] |}.

Definition len {A : Type} (l : list A) : Z := Z.of_nat (length l).

Definition isApproved (e : Evaluation) : bool := String.eqb (decision e) "APPROVED".

Definition calculateConsensus (this : MultiAgentCoordinator)
    (evaluations : list Evaluation) : ConsensusResult :=
  let approvals := len (List.filter isApproved evaluations) in
  let totalAgents := len evaluations in
  let consensusRatio := jsdiv (inject_Z approvals) (inject_Z totalAgents) in
  let averageConfidence :=
    jsdiv (fold_left (fun sum e => (sum + confidence e)%Q) evaluations 0%Q)
          (inject_Z totalAgents) in
  let averageSecurityScore :=
    jsdiv (fold_left (fun sum e => (sum + securityScore e)%Q) evaluations 0%Q)
          (inject_Z totalAgents) in
  {| approvals := approvals;
     rejections := totalAgents - approvals;
     totalAgents := totalAgents;
     consensusRatio := consensusRatio;
     consensusAchieved := js_ge consensusRatio (consensusThreshold this);
     averageConfidence := averageConfidence;
     averageSecurityScore := averageSecurityScore;
     recommendedDecision :=
       if js_ge consensusRatio (consensusThreshold this) then "APPROVED" else "REJECTED" |}.

Definition handleByzantineFaults (this : MultiAgentCoordinator)
    (consensus : ConsensusResult) (evaluations : list Evaluation) : FinalDecision :=
  let byzantineAgents := List.filter isByzantine evaluations in
  if (0 <? len byzantineAgents)%Z then
    let honestEvaluations := List.filter (fun e => negb (isByzantine e)) evaluations in
    let honestConsensus := calculateConsensus this honestEvaluations in
    {| spread := consensus;
       byzantineFaultHandling :=
         {| byzantineAgentsDetected := len byzantineAgents;
            byzantineAgentIds := Some (List.map agentId byzantineAgents);
            originalDecision := Some (recommendedDecision consensus);
            correctedDecision := Some (recommendedDecision honestConsensus);
            faultTolerant := true |};
       finalDecision := recommendedDecision honestConsensus |}
  else
    {| spread := consensus;
       finalDecision := recommendedDecision consensus;
       byzantineFaultHandling :=
         {| byzantineAgentsDetected := 0;
            byzantineAgentIds := None;
            originalDecision := None;
            correctedDecision := None;
            faultTolerant := true |} |}.

Definition isOnline (a : IdentityAgent) : bool := String.eqb (status a) "online".

(** [evaluate a d] is the settlement of the promise [a.evaluateIdentity(d)].
    The body of the [try] block runs on the fulfilled evaluations; a rejected
    evaluation lands in the [catch] block, which leaves the history alone.
    [identityData] is an object, as every caller passes one: the statement
    before the [try] block reads its [id]. *)
Definition coordinateIdentityDecision (this : MultiAgentCoordinator)
    (identityData : IdentityData)
    (evaluate : IdentityAgent -> IdentityData -> settled Evaluation)
    (clock : Clock) : MultiAgentCoordinator * CoordinationSession :=
  let coordinationStart := startMs clock in
  let coordinationId := "coord-" +:+ show (idMs clock) in
  let agentPromises :=
    List.map (fun agent => evaluate agent identityData)
             (List.filter isOnline (agents this)) in
  match promise_all agentPromises with
  | Fulfilled agentEvaluations =>
      let consensus := calculateConsensus this agentEvaluations in
      let finalDecision := handleByzantineFaults this consensus agentEvaluations in
      let coordinationSession :=
        {| coordinationId := coordinationId;
           identityId := id identityData;
           sessionTimestamp := isoStamp clock;
           participatingAgents := len agentEvaluations;
           agentEvaluations := agentEvaluations;
           consensus := consensus;
           session_finalDecision := finalDecision;
           processingTime := endMs clock - coordinationStart;
           byzantineDetected := existsb isByzantine agentEvaluations |} in
      let pushed := coordinationHistory this ++ [coordinationSession] in
      let history :=
        if (50 <? len pushed)%Z then slice_last 50 pushed else pushed in
      ({| agents := agents this;
          consensusThreshold := consensusThreshold this;
          coordinationHistory := history |},
       Completed coordinationSession)
  | Rejected message =>
      (this,
       Failed {| failure_coordinationId := coordinationId;
                 error := message;
                 failure_timestamp := isoStamp clock;
                 failure_processingTime := endMs clock - coordinationStart |})
  end.

(** The agents of the source: [evaluateIdentity] always fulfils. *)
Definition sourceEvaluate (random : string -> Draws)
    (agent : IdentityAgent) (identityData : IdentityData) : settled Evaluation :=
  Fulfilled (Agent.evaluateIdentity agent identityData
               (random (agent_agentId agent))).

Definition updateStatus (a : IdentityAgent) (newStatus : string) : IdentityAgent :=
  {| agent_agentId := agent_agentId a;
     agent_specialization := agent_specialization a;
     status := newStatus;
     agent_isByzantine := agent_isByzantine a |}.

Definition setByzantine (flag : bool) (a : IdentityAgent) : IdentityAgent :=
  {| agent_agentId := agent_agentId a;
     agent_specialization := agent_specialization a;
     status := status a;
     agent_isByzantine := flag |}.

(** [simulateByzantineAttack]: the agent at a random index is flagged; the
    timer it arms clears the flag again ([restoreAgent]). *)
Definition simulateByzantineAttack (this : MultiAgentCoordinator) (draw : Q)
    : MultiAgentCoordinator * nat :=
  let randomIndex := Z.to_nat (Qfloor (draw * inject_Z (len (agents this)))) in
  ({| agents := alter (setByzantine true) randomIndex (agents this);
      consensusThreshold := consensusThreshold this;
      coordinationHistory := coordinationHistory this |},
   randomIndex).

Definition restoreAgent (this : MultiAgentCoordinator) (randomIndex : nat)
    : MultiAgentCoordinator :=
  {| agents := alter (setByzantine false) randomIndex (agents this);
     consensusThreshold := consensusThreshold this;
     coordinationHistory := coordinationHistory this |}.

(** The operations that change a coordinator, and a run of them. *)
Inductive Operation : Type :=
| Decide (identityData : IdentityData)
         (evaluate : IdentityAgent -> IdentityData -> settled Evaluation) (clock : Clock)
| Attack (draw : Q)
| EndAttack (randomIndex : nat)
| SetStatus (index : nat) (newStatus : string).

Definition apply (this : MultiAgentCoordinator) (op : Operation) : MultiAgentCoordinator :=
  match op with
  | Decide identityData evaluate clock =>
      fst (coordinateIdentityDecision this identityData evaluate clock)
  | Attack draw => fst (simulateByzantineAttack this draw)
  | EndAttack randomIndex => restoreAgent this randomIndex
  | SetStatus index newStatus =>
      {| agents := alter (fun a => updateStatus a newStatus) index (agents this);
         consensusThreshold := consensusThreshold this;
         coordinationHistory := coordinationHistory this |}
  end.

Definition run (ops : list Operation) (this : MultiAgentCoordinator) : MultiAgentCoordinator :=
  fold_left apply ops this.

(** [getCoordinationHistory(limit)]: most recent first. *)
Definition getCoordinationHistory (this : MultiAgentCoordinator) (limit : Z)
    : list SessionRecord :=
  rev (slice_neg limit (coordinationHistory this)).

(** The [systemHealth] of the multi-agent system in the [/health] route. *)
Definition systemHealth (this : MultiAgentCoordinator) : string :=
  let onlineAgents := len (List.filter isOnline (agents this)) in
  if (2 <=? onlineAgents)%Z then "healthy" else "degraded".

End Coordinator.

(** ** Explainable decision engine *)

Record AgentAnalysis : Type := {
  analysis_agentId : string;
  analysis_specialization : string;
  analysis_decision : string;
  analysis_confidence : Q;
  analysis_reasoning : list string;
  analysis_processingTime : string;
  analysis_isByzantine : bool;
  influence : Q
}.

Record AgentConfidence : Type := {
  agent : string;
  agent_confidence : Q;
  weight : Q
}.

Record ConfidenceBreakdown : Type := {
  overall : Q;
  byAgent : list AgentConfidence;
  methodology : string
}.

Record RiskFactor : Type := {
  riskType : string;
  severity : string;
  description : string;
  mitigation : string
}.

Record ReasoningStep : Type := {
  step : Z;
  action : string;
  result : jsval;
  details : string
}.

Record Features : Type := {
  agent_count : Z;
  consensus_ratio : jsnum;
  avg_confidence : jsnum;
  processing_time_ms : Z;
  byzantine_detected : Z;
  security_score : jsnum;
  identity_type : Z
}.

Record MLFeatures : Type := {
  features : Features;
  target : Z;
  ml_timestamp : string
}.

Record Explanation : Type := {
  explanation_coordinationId : string;
  explanation_timestamp : string;
  summary : string;
  agentAnalysis : list AgentAnalysis;
  confidenceBreakdown : ConfidenceBreakdown;
  riskFactors : list RiskFactor;
  explanation_reasoning : list ReasoningStep;
  mlFeatures : MLFeatures;
  anomalyScore : Q
}.

Record ExplainableDecisionEngine : Type := {
  decisionHistory : list Explanation;
  confidenceWeights : gmap string Q
}.

(** A row of the exported dataset and the dataset's metadata. *)
Record DatasetRow : Type := {
  row_coordinationId : string;
  row_features : Features;
  row_target : Z;
  row_explanation : string;
  row_confidence : Q;
  row_anomaly_score : Q;
  row_timestamp : string
}.

Record TargetDistribution : Type := {
  approved : Z;
  rejected : Z;
  total : Z
}.

Record DatasetMetadata : Type := {
  total_samples : Z;
  feature_names : list string;
  target_distribution : TargetDistribution;
  export_timestamp : string
}.

Record MLDataset : Type := {
  dataset : list DatasetRow;
  dataset_metadata : DatasetMetadata
}.

Module Engine.

Definition new : ExplainableDecisionEngine :=
  {| decisionHistory := [];
     confidenceWeights :=
       <["validator" := 0.4%Q]> (<["consensus" := 0.35%Q]> (<["security" := 0.25%Q]> ∅)) |}.

(** [this.confidenceWeights[specialization] || 0.33]: the table's own
    entries (names inherited from [Object.prototype] are no specialization
    of an agent). *)
Definition weightOf (this : ExplainableDecisionEngine) (specialization : string) : Q :=
  match confidenceWeights this !! specialization with
  | Some w => if Qeq_bool w 0 then 0.33%Q else w
  | None => 0.33%Q
  end.

(** [finalDecision.finalDecision || finalDecision] on a completed session. *)
Definition decisionOf (o : FinalDecision) : jsval :=
  if String.eqb (finalDecision o) "" then JObject o else JString (finalDecision o).

(** A value inside a template literal. *)
Definition render (v : jsval) : string :=
  match v with
  | JUndefined => "undefined"
  | JString s => s
  | JObject _ => "[object Object]"
  end.

(** [x * 100] *)
Definition percent (x : jsnum) : jsnum :=
  match x with
  | JFin q => JFin (q * 100)
  | other => other
  end.

Section Rendering.

(** [Number.prototype.toFixed(1)]: the digits it prints are a parameter. *)
Variable toFixed1 : jsnum -> string.

Definition generateSummary (this : ExplainableDecisionEngine) (s : SessionRecord) : string :=
  let decision := decisionOf (session_finalDecision s) in
  let summary := "Decision: " +:+ render decision +:+ " " in
  let summary := summary +:+ "(" +:+ show (approvals (consensus s)) +:+ "/"
                   +:+ show (totalAgents (consensus s)) +:+ " agents approved). " in
  let summary := if byzantineDetected s
                 then summary +:+ "Byzantine fault detected and handled. "
                 else summary in
  summary +:+ "Confidence: "
    +:+ toFixed1 (percent (averageConfidence (consensus s))) +:+ "%".

Definition analyzeAgentDecisions (this : ExplainableDecisionEngine) (s : SessionRecord)
    : list AgentAnalysis :=
  List.map (fun evaluation =>
              {| analysis_agentId := agentId evaluation;
                 analysis_specialization := specialization evaluation;
                 analysis_decision := decision evaluation;
                 analysis_confidence := confidence evaluation;
                 analysis_reasoning := reasoning evaluation;
                 analysis_processingTime := timestamp evaluation;
                 analysis_isByzantine := isByzantine evaluation || false;
                 influence := weightOf this (specialization evaluation) |})
           (agentEvaluations s).

(** The [forEach] loop over the evaluations, with its two accumulators. *)
Definition accumulate (this : ExplainableDecisionEngine)
    (acc : Q * Q) (evaluation : Evaluation) : Q * Q :=
  let '(weightedConfidence, totalWeight) := acc in
  if negb (isByzantine evaluation) then
    let weight := weightOf this (specialization evaluation) in
    ((weightedConfidence + confidence evaluation * weight)%Q, (totalWeight + weight)%Q)
  else (weightedConfidence, totalWeight).

Definition calculateDetailedConfidence (this : ExplainableDecisionEngine)
    (s : SessionRecord) : ConfidenceBreakdown :=
  let '(weightedConfidence, totalWeight) :=
    fold_left (accumulate this) (agentEvaluations s) (0%Q, 0%Q) in
  {| overall := if Qlt_bool 0 totalWeight
                then (weightedConfidence / totalWeight)%Q else 0%Q;
     byAgent :=
       List.map (fun evaluation =>
                   {| agent := agentId evaluation;
                      agent_confidence := confidence evaluation;
                      weight := weightOf this (specialization evaluation) |})
                (agentEvaluations s);
     methodology := "Weighted average by agent specialization" |}.

Definition identifyRiskFactors (this : ExplainableDecisionEngine) (s : SessionRecord)
    : list RiskFactor :=
  let risks := [] in
  let risks :=
    if byzantineDetected s then
      risks ++ [ {| riskType := "Byzantine Attack";
                    severity := "HIGH";
                    description := "Malicious agent behavior detected";
                    mitigation := "Byzantine fault tolerance activated" |} ]
    else risks in
  let risks :=
    if js_lt (consensusRatio (consensus s)) 0.8 then
      risks ++ [ {| riskType := "Low Consensus";
                    severity := "MEDIUM";
                    description :=
                      "Only " +:+ toFixed1 (percent (consensusRatio (consensus s)))
                        +:+ "% agreement";
                    mitigation := "Additional validation recommended" |} ]
    else risks in
  let risks :=
    if (5000 <? processingTime s)%Z then
      risks ++ [ {| riskType := "High Latency";
                    severity := "LOW";
                    description := "Processing took " +:+ show (processingTime s) +:+ "ms";
                    mitigation := "Monitor agent performance" |} ]
    else risks in
  risks.

Definition generateReasoningSteps (this : ExplainableDecisionEngine) (s : SessionRecord)
    : list ReasoningStep :=
  let steps :=
    [ {| step := 1;
         action := "Identity Data Validation";
         result := JString "PASSED";
         details := "Format, structure, and required fields validated" |};
      {| step := 2;
         action := "Multi-Agent Coordination";
         result := JObject (session_finalDecision s);
         details := show (participatingAgents s)
                      +:+ " agents participated in consensus" |} ] in
  let steps :=
    if byzantineDetected s then
      steps ++ [ {| step := 3;
                    action := "Byzantine Fault Handling";
                    result := JString "MITIGATED";
                    details := "Malicious agents excluded from final decision" |} ]
    else steps in
  steps ++ [ {| step := Coordinator.len steps + 1;
                action := "Final Decision";
                result := JObject (session_finalDecision s);
                details := "Based on " +:+ show (approvals (consensus s)) +:+ "/"
                             +:+ show (totalAgents (consensus s)) +:+ " approval rate" |} ].

Definition encodeIdentityType (identityId : string) : Z :=
  if includes identityId "VEH" then 1
  else if includes identityId "PET" then 2
  else if includes identityId "IOT" then 3
  else 0.

Definition generateMLFeatures (this : ExplainableDecisionEngine) (s : SessionRecord)
    : MLFeatures :=
  {| features :=
       {| agent_count := participatingAgents s;
          consensus_ratio := consensusRatio (consensus s);
          avg_confidence := averageConfidence (consensus s);
          processing_time_ms := processingTime s;
          byzantine_detected := if byzantineDetected s then 1 else 0;
          security_score := averageSecurityScore (consensus s);
          identity_type := encodeIdentityType (identityId s) |};
     target :=
       if strict_eq_string (decisionOf (session_finalDecision s)) "APPROVED"
       then 1 else 0;
     ml_timestamp := sessionTimestamp s |}.

Definition calculateAnomalyScore (this : ExplainableDecisionEngine) (s : SessionRecord) : Q :=
  let anomalyScore := 0%Q in
  let anomalyScore :=
    if (3000 <? processingTime s)%Z then (anomalyScore + 0.3)%Q else anomalyScore in
  let anomalyScore :=
    if js_lt (consensusRatio (consensus s)) 0.7 then (anomalyScore + 0.4)%Q
    else anomalyScore in
  let anomalyScore :=
    if byzantineDetected s then (anomalyScore + 0.5)%Q else anomalyScore in
  let anomalyScore :=
    if js_lt (averageConfidence (consensus s)) 0.5 then (anomalyScore + 0.6)%Q
    else anomalyScore in
  Qmin 1.0 anomalyScore.

(** [explainCoordination]: on the object of a failed coordination the first
    helper reads [finalDecision.finalDecision] of [undefined] and throws; the
    history is then left as it was. [now] is the explanation's timestamp. *)
Definition explainCoordination (this : ExplainableDecisionEngine)
    (coordinationResult : CoordinationSession) (now : string)
    : ExplainableDecisionEngine * (Explanation + string) :=
  match coordinationResult with
  | Failed _ =>
      (this, inr "TypeError: Cannot read properties of undefined (reading 'finalDecision')")
  | Completed s =>
      let explanation :=
        {| explanation_coordinationId := coordinationId s;
           explanation_timestamp := now;
           summary := generateSummary this s;
           agentAnalysis := analyzeAgentDecisions this s;
           confidenceBreakdown := calculateDetailedConfidence this s;
           riskFactors := identifyRiskFactors this s;
           explanation_reasoning := generateReasoningSteps this s;
           mlFeatures := generateMLFeatures this s;
           anomalyScore := calculateAnomalyScore this s |} in
      let pushed := decisionHistory this ++ [explanation] in
      let history :=
        if (100 <? Coordinator.len pushed)%Z then slice_last 100 pushed else pushed in
      ({| decisionHistory := history;
          confidenceWeights := confidenceWeights this |},
       inl explanation)
  end.

(** A run of explanations, each with its timestamp. *)
Definition run (requests : list (CoordinationSession * string))
    (this : ExplainableDecisionEngine) : ExplainableDecisionEngine :=
  fold_left (fun engine request =>
               fst (explainCoordination engine (fst request) (snd request)))
            requests this.

End Rendering.

Definition calculateTargetDistribution (dataset : list DatasetRow) : TargetDistribution :=
  {| approved := Coordinator.len (List.filter (fun d => (row_target d =? 1)%Z) dataset);
     rejected := Coordinator.len (List.filter (fun d => (row_target d =? 0)%Z) dataset);
     total := Coordinator.len dataset |}.

(** The keys of a [features] object, in the order they are written. *)
Definition featureKeys : list string :=
  [ "agent_count"; "consensus_ratio"; "avg_confidence"; "processing_time_ms";
    "byzantine_detected"; "security_score"; "identity_type" ].

Definition exportMLDataset (this : ExplainableDecisionEngine) (limit : Z) (now : string)
    : MLDataset :=
  let dataset :=
    List.map (fun explanation =>
                {| row_coordinationId := explanation_coordinationId explanation;
                   row_features := features (mlFeatures explanation);
                   row_target := target (mlFeatures explanation);
                   row_explanation := summary explanation;
                   row_confidence := overall (confidenceBreakdown explanation);
                   row_anomaly_score := anomalyScore explanation;
                   row_timestamp := explanation_timestamp explanation |})
             (slice_neg limit (decisionHistory this)) in
  {| dataset := dataset;
     dataset_metadata :=
       {| total_samples := Coordinator.len dataset;
          feature_names := match dataset with
                           | [] => []
                           | _ :: _ => featureKeys
                           end;
          target_distribution := calculateTargetDistribution dataset;
          export_timestamp := now |} |}.

Definition getDecisionHistory (this : ExplainableDecisionEngine) (limit : Z)
    : list Explanation :=
  rev (slice_neg limit (decisionHistory this)).

End Engine.

(** ** Vehicle digital twin *)

Record GpsLocation : Type := { lat : Q; lng : Q }.

Record VehicleState : Type := {
  engineTemp : Q;
  oilPressure : Q;
  batteryVoltage : Q;
  fuelLevel : Q;
  mileage : Q;
  rpm : Q;
  speed : Q;
  gpsLocation : GpsLocation;
  diagnosticCodes : list string;
  lastPing : string
}.

Record TelemetryPoint : Type := {
  point_timestamp : string;
  data : VehicleState
}.

Record VehicleDigitalTwin : Type := {
  twinId : string;
  vin : string;
  vehicle_metadata : Metadata;
  createdAt : string;
  lastUpdate : string;
  telemetryData : list TelemetryPoint;
  healthScore : Z;
  alertCount : Z;
  maintenanceHistory : list Metadata;
  currentState : VehicleState
}.

(** The [Math.random()] draws and the clock reading of one telemetry tick. *)
Record VehicleDraws : Type := {
  drawEngineTemp : Q;
  drawOilPressure : Q;
  drawBatteryVoltage : Q;
  drawFuelLevel : Q;
  drawMileage : Q;
  drawRpm : Q;
  drawStationary : Q;
  drawSpeed : Q;
  drawLat : Q;
  drawLng : Q;
  drawHasCode : Q;
  drawCode : Q;
  tickTime : string
}.

Record PredictedFailure : Type := {
  component : string;
  probability : Q;
  timeframe : string
}.

Record Alert : Type := {
  alertType : string;
  alertMessage : string;
  alertTimestamp : string
}.

Record TelemetryStats : Type := {
  totalDataPoints : Z;
  avgEngineTemp : Q;
  avgOilPressure : Q
}.

Module Vehicle.

(** [x || d] on a number: zero is falsy. *)
Definition orDefault (x d : Q) : Q := if Qeq_bool x 0 then d else x.

Definition generateInitialState (r : VehicleDraws) : VehicleState :=
  {| engineTemp := 60 + drawEngineTemp r * 30;
     oilPressure := 30 + drawOilPressure r * 25;
     batteryVoltage := 12.2 + drawBatteryVoltage r * 0.6;
     fuelLevel := 20 + drawFuelLevel r * 60;
     mileage := 30000 + drawMileage r * 50000;
     rpm := drawRpm r * 1000;
     speed := 0;
     gpsLocation := {| lat := 44.4949 + (drawLat r - 0.5) * 0.01;
                       lng := 11.3426 + (drawLng r - 0.5) * 0.01 |};
     diagnosticCodes := [];
     lastPing := tickTime r |}%Q.

(** The constructor; the interval timer it starts is the caller's tick. *)
Definition new (vin : string) (metadata : Metadata) (r : VehicleDraws) : VehicleDigitalTwin :=
  {| twinId := "TWIN-" +:+ vin;
     vin := vin;
     vehicle_metadata := metadata;
     createdAt := tickTime r;
     lastUpdate := tickTime r;
     telemetryData := [];
     healthScore := 100;
     alertCount := 0;
     maintenanceHistory := [];
     currentState := generateInitialState r |}.

Definition simulateEngineTemp (this : VehicleDigitalTwin) (r : VehicleDraws) : Q :=
  let current := orDefault (engineTemp (currentState this)) 75 in
  Qmax 50 (Qmin 120 (current + (drawEngineTemp r - 0.5) * 10)).

Definition simulateOilPressure (this : VehicleDigitalTwin) (r : VehicleDraws) : Q :=
  let current := orDefault (oilPressure (currentState this)) 40 in
  Qmax 20 (Qmin 60 (current + (drawOilPressure r - 0.5) * 5)).

Definition simulateBatteryVoltage (this : VehicleDigitalTwin) (r : VehicleDraws) : Q :=
  let current := orDefault (batteryVoltage (currentState this)) 12.5 in
  Qmax 11.8 (Qmin 14.2 (current + (drawBatteryVoltage r - 0.5) * 0.3)).

Definition simulateFuelLevel (this : VehicleDigitalTwin) (r : VehicleDraws) : Q :=
  let current := orDefault (fuelLevel (currentState this)) 50 in
  Qmax 0 (current - drawFuelLevel r * 0.1).

Definition simulateMileage (this : VehicleDigitalTwin) (r : VehicleDraws) : Q :=
  let current := orDefault (mileage (currentState this)) 45000 in
  (current + drawMileage r * 0.1)%Q.

Definition simulateRPM (r : VehicleDraws) : Q := (drawRpm r * 3000)%Q.

Definition simulateSpeed (r : VehicleDraws) : Q :=
  if Qlt_bool (drawStationary r) 0.7 then 0%Q else (drawSpeed r * 80)%Q.

Definition simulateGPS (this : VehicleDigitalTwin) (r : VehicleDraws) : GpsLocation :=
  let current := gpsLocation (currentState this) in
  {| lat := lat current + (drawLat r - 0.5) * 0.001;
     lng := lng current + (drawLng r - 0.5) * 0.001 |}%Q.

Definition codes : list string := ["P0300"; "P0420"; "P0171"; "P0301"; "P0441"].

Definition generateDiagnosticCodes (r : VehicleDraws) : list string :=
  if Qlt_bool (drawHasCode r) 0.95 then []
  else match nth_error codes (Z.to_nat (Qfloor (drawCode r * inject_Z (Coordinator.len codes))))
       with
       | Some c => [c]
       | None => ["undefined"]   (* not reached: the draw is below 1 *)
       end.

Definition updateHealthScore (this : VehicleDigitalTwin) : VehicleDigitalTwin :=
  let score := 100 in
  (* Engine temperature penalty *)
  let score :=
    if Qlt_bool 100 (engineTemp (currentState this)) then score - 20
    else if Qlt_bool 90 (engineTemp (currentState this)) then score - 10
    else score in
  (* Oil pressure penalty *)
  let score :=
    if Qlt_bool (oilPressure (currentState this)) 25 then score - 15 else score in
  (* Battery voltage penalty *)
  let score :=
    if Qlt_bool (batteryVoltage (currentState this)) 12.0 then score - 10 else score in
  (* Diagnostic codes penalty *)
  let score := score - Coordinator.len (diagnosticCodes (currentState this)) * 5 in
  let healthScore := Z.max 0 score in
  {| twinId := twinId this;
     vin := vin this;
     vehicle_metadata := vehicle_metadata this;
     createdAt := createdAt this;
     lastUpdate := lastUpdate this;
     telemetryData := telemetryData this;
     healthScore := healthScore;
     alertCount :=
       if (healthScore <? 80)%Z && (alertCount this =? 0)%Z
       then alertCount this + 1 else alertCount this;
     maintenanceHistory := maintenanceHistory this;
     currentState := currentState this |}.

Definition updateTelemetryData (this : VehicleDigitalTwin) (r : VehicleDraws)
    : VehicleDigitalTwin :=
  let newData :=
    {| point_timestamp := tickTime r;
       data := {| engineTemp := simulateEngineTemp this r;
                  oilPressure := simulateOilPressure this r;
                  batteryVoltage := simulateBatteryVoltage this r;
                  fuelLevel := simulateFuelLevel this r;
                  mileage := simulateMileage this r;
                  rpm := simulateRPM r;
                  speed := simulateSpeed r;
                  gpsLocation := simulateGPS this r;
                  diagnosticCodes := generateDiagnosticCodes r;
                  lastPing := tickTime r |} |} in
  let pushed := telemetryData this ++ [newData] in
  updateHealthScore
    {| twinId := twinId this;
       vin := vin this;
       vehicle_metadata := vehicle_metadata this;
       createdAt := createdAt this;
       lastUpdate := point_timestamp newData;
       telemetryData :=
         if (20 <? Coordinator.len pushed)%Z then slice_last 20 pushed else pushed;
       healthScore := healthScore this;
       alertCount := alertCount this;
       maintenanceHistory := maintenanceHistory this;
       currentState := data newData |}.

(** The deduction table as the specification words it: the engine
    temperature deducts 20 above 100 and nothing otherwise. *)
Definition spec_healthScore (s : VehicleState) : Z :=
  Z.max 0
    (100
     - (if Qlt_bool 100 (engineTemp s) then 20 else 0)
     - (if Qlt_bool (oilPressure s) 25 then 15 else 0)
     - (if Qlt_bool (batteryVoltage s) 12.0 then 10 else 0)
     - 5 * Coordinator.len (diagnosticCodes s)).

(** The deduction table of the source as a function of a reading. *)
Definition healthOfReading (s : VehicleState) : Z :=
  Z.max 0
    (100
     - (if Qlt_bool 100 (engineTemp s) then 20
        else if Qlt_bool 90 (engineTemp s) then 10 else 0)
     - (if Qlt_bool (oilPressure s) 25 then 15 else 0)
     - (if Qlt_bool (batteryVoltage s) 12.0 then 10 else 0)
     - 5 * Coordinator.len (diagnosticCodes s)).

(** A run of telemetry ticks. *)
Definition run (ticks : list VehicleDraws) (this : VehicleDigitalTwin) : VehicleDigitalTwin :=
  fold_left updateTelemetryData ticks this.

Definition predictFailures (this : VehicleDigitalTwin) : list PredictedFailure :=
  let failures := [] in
  let failures :=
    if Qlt_bool (batteryVoltage (currentState this)) 12.2
    then failures ++ [ {| component := "Battery"; probability := 0.75;
                          timeframe := "2 months" |} ]
    else failures in
  let failures :=
    if Qlt_bool 95 (engineTemp (currentState this))
    then failures ++ [ {| component := "Cooling System"; probability := 0.60;
                          timeframe := "4 months" |} ]
    else failures in
  failures.

Definition generateActiveAlerts (this : VehicleDigitalTwin) (now : string) : list Alert :=
  let alerts := [] in
  let alerts :=
    if Qlt_bool 100 (engineTemp (currentState this))
    then alerts ++ [ {| alertType := "critical";
                        alertMessage := "Engine overheating detected";
                        alertTimestamp := now |} ]
    else alerts in
  let alerts :=
    if Qlt_bool (oilPressure (currentState this)) 25
    then alerts ++ [ {| alertType := "warning";
                        alertMessage := "Low oil pressure";
                        alertTimestamp := now |} ]
    else alerts in
  alerts.

Definition generateRecommendations (this : VehicleDigitalTwin) : list string :=
  let recommendations := [] in
  let recommendations :=
    if (healthScore this <? 80)%Z
    then recommendations ++ ["Schedule maintenance inspection"]
    else recommendations in
  let recommendations :=
    if Qlt_bool (fuelLevel (currentState this)) 20
    then recommendations ++ ["Refuel soon"]
    else recommendations in
  recommendations.

(** [nextServiceKm] and [estimatedBatteryLife] of [generatePredictions]. *)
Definition nextServiceKm (this : VehicleDigitalTwin) : Z :=
  Qceiling (mileage (currentState this) / 10000) * 10000 + 10000.

Definition estimatedBatteryLife (this : VehicleDigitalTwin) : string :=
  if Qlt_bool 12.5 (batteryVoltage (currentState this)) then "12 months" else "6 months".

(** [calculateTelemetryStats]: [None] is the empty object of an empty
    window. *)
Definition calculateTelemetryStats (this : VehicleDigitalTwin) : option TelemetryStats :=
  if (Coordinator.len (telemetryData this) =? 0)%Z then None
  else
    let temps := List.map (fun d => engineTemp (data d)) (telemetryData this) in
    let oilPressures := List.map (fun d => oilPressure (data d)) (telemetryData this) in
    Some {| totalDataPoints := Coordinator.len (telemetryData this);
            avgEngineTemp :=
              (fold_left Qplus temps 0 / inject_Z (Coordinator.len temps))%Q;
            avgOilPressure :=
              (fold_left Qplus oilPressures 0 / inject_Z (Coordinator.len oilPressures))%Q |}.

Definition addMaintenanceRecord (this : VehicleDigitalTwin) (record : Metadata)
    (now : string) : VehicleDigitalTwin :=
  {| twinId := twinId this;
     vin := vin this;
     vehicle_metadata := vehicle_metadata this;
     createdAt := createdAt this;
     lastUpdate := lastUpdate this;
     telemetryData := telemetryData this;
     healthScore := healthScore this;
     alertCount := alertCount this;
     maintenanceHistory := maintenanceHistory this ++ [<["timestamp" := now]> record];
     currentState := currentState this |}.

End Vehicle.

(** ** Pet and IoT device twins *)

Record PetState : Type := {
  heartRate : Q;
  bodyTemp : Q;
  activityLevel : Q;
  stepsToday : Z;
  sleepQuality : Q;
  location : GpsLocation;
  pet_batteryLevel : Q;
  lastSync : string
}.

Record PetDigitalTwin : Type := {
  pet_twinId : string;
  petId : string;
  pet_metadata : Metadata;
  pet_createdAt : string;
  pet_lastUpdate : string;
  vitalData : list (string * PetState);
  pet_healthScore : Z;
  pet_alertCount : Z;
  pet_currentState : PetState
}.

Record PetDraws : Type := {
  drawHeartRate : Q;
  drawBodyTemp : Q;
  drawActivity : Q;
  drawSteps : Q;
  drawSleep : Q;
  drawPetLat : Q;
  drawPetLng : Q;
  drawPetBattery : Q;
  petTime : string
}.

(** The draws and the clock readings of one vital-sign tick. *)
Record PetTick : Type := {
  tickHeartRate : Q;
  tickBodyTemp : Q;
  tickActivity : Q;
  tickSteps : Q;
  tickSleep : Q;
  tickPetLat : Q;
  tickPetLng : Q;
  tickPetBattery : Q;
  tickHour : Z;
  tickPetTime : string
}.

Module Pet.

Definition generateInitialState (r : PetDraws) : PetState :=
  {| heartRate := 80 + drawHeartRate r * 40;
     bodyTemp := 38 + drawBodyTemp r * 1.5;
     activityLevel := drawActivity r * 100;
     stepsToday := Qfloor (drawSteps r * 5000);
     sleepQuality := 70 + drawSleep r * 30;
     location := {| lat := 44.4949 + (drawPetLat r - 0.5) * 0.005;
                    lng := 11.3426 + (drawPetLng r - 0.5) * 0.005 |};
     pet_batteryLevel := 80 + drawPetBattery r * 20;
     lastSync := petTime r |}%Q.

Definition new (petId : string) (metadata : Metadata) (r : PetDraws) : PetDigitalTwin :=
  {| pet_twinId := "PET-TWIN-" +:+ petId;
     petId := petId;
     pet_metadata := metadata;
     pet_createdAt := petTime r;
     pet_lastUpdate := petTime r;
     vitalData := [];
     pet_healthScore := 100;
     pet_alertCount := 0;
     pet_currentState := generateInitialState r |}.

Definition updateHealthScore (this : PetDigitalTwin) : PetDigitalTwin :=
  let score := 100 in
  let score := if Qlt_bool 140 (heartRate (pet_currentState this)) then score - 15 else score in
  let score := if Qlt_bool 39.5 (bodyTemp (pet_currentState this)) then score - 20 else score in
  let score := if Qlt_bool (activityLevel (pet_currentState this)) 20 then score - 10 else score in
  let score := if Qlt_bool (pet_batteryLevel (pet_currentState this)) 20 then score - 5 else score in
  {| pet_twinId := pet_twinId this;
     petId := petId this;
     pet_metadata := pet_metadata this;
     pet_createdAt := pet_createdAt this;
     pet_lastUpdate := pet_lastUpdate this;
     vitalData := vitalData this;
     pet_healthScore := Z.max 0 score;
     pet_alertCount := pet_alertCount this;
     pet_currentState := pet_currentState this |}.

Definition simulateHeartRate (this : PetDigitalTwin) (r : PetTick) : Q :=
  let current := Vehicle.orDefault (heartRate (pet_currentState this)) 100 in
  let activityMultiplier :=
    if Qlt_bool 70 (activityLevel (pet_currentState this)) then 1.3%Q else 1.0%Q in
  (Qmax 60 (Qmin 160 (current + (tickHeartRate r - 0.5) * 10)) * activityMultiplier)%Q.

Definition simulateBodyTemp (this : PetDigitalTwin) (r : PetTick) : Q :=
  let current := Vehicle.orDefault (bodyTemp (pet_currentState this)) 38.5 in
  Qmax 37.5 (Qmin 40.0 (current + (tickBodyTemp r - 0.5) * 0.3)).

Definition simulateActivity (r : PetTick) : Q :=
  let isActiveTime := (6 <=? tickHour r)%Z && (tickHour r <=? 22)%Z in
  let baseActivity :=
    if isActiveTime then (30 + tickActivity r * 50)%Q else (tickActivity r * 20)%Q in
  Qmin 100 baseActivity.

Definition simulateSteps (this : PetDigitalTwin) (r : PetTick) : Z :=
  let current := stepsToday (pet_currentState this) in
  current + Qfloor (tickSteps r * 50).

Definition simulateSleepQuality (r : PetTick) : Q :=
  let isSleepTime := (22 <=? tickHour r)%Z || (tickHour r <=? 6)%Z in
  if isSleepTime then (80 + tickSleep r * 20)%Q else (60 + tickSleep r * 30)%Q.

Definition simulateLocation (this : PetDigitalTwin) (r : PetTick) : GpsLocation :=
  let current := location (pet_currentState this) in
  {| lat := lat current + (tickPetLat r - 0.5) * 0.0005;
     lng := lng current + (tickPetLng r - 0.5) * 0.0005 |}%Q.

Definition simulateBatteryLevel (this : PetDigitalTwin) (r : PetTick) : Q :=
  let current := Vehicle.orDefault (pet_batteryLevel (pet_currentState this)) 90 in
  Qmax 0 (current - tickPetBattery r * 0.5).

Definition updateVitalData (this : PetDigitalTwin) (r : PetTick) : PetDigitalTwin :=
  let newData :=
    (tickPetTime r,
     {| heartRate := simulateHeartRate this r;
        bodyTemp := simulateBodyTemp this r;
        activityLevel := simulateActivity r;
        stepsToday := simulateSteps this r;
        sleepQuality := simulateSleepQuality r;
        location := simulateLocation this r;
        pet_batteryLevel := simulateBatteryLevel this r;
        lastSync := tickPetTime r |}) in
  let pushed := vitalData this ++ [newData] in
  updateHealthScore
    {| pet_twinId := pet_twinId this;
       petId := petId this;
       pet_metadata := pet_metadata this;
       pet_createdAt := pet_createdAt this;
       pet_lastUpdate := fst newData;
       vitalData :=
         if (15 <? Coordinator.len pushed)%Z then slice_last 15 pushed else pushed;
       pet_healthScore := pet_healthScore this;
       pet_alertCount := pet_alertCount this;
       pet_currentState := snd newData |}.

Definition run (ticks : list PetTick) (this : PetDigitalTwin) : PetDigitalTwin :=
  fold_left updateVitalData ticks this.

End Pet.

Record IoTState : Type := {
  iot_status : string;
  cpuUsage : Q;
  memoryUsage : Q;
  temperature : Q;
  networkLatency : Q;
  iot_batteryLevel : Q;
  signalStrength : Q;
  uptime : Z;
  lastHeartbeat : string
}.

Record IoTDeviceDigitalTwin : Type := {
  iot_twinId : string;
  deviceId : string;
  iot_metadata : Metadata;
  iot_createdAt : string;
  iot_lastUpdate : string;
  statusData : list (string * IoTState);
  iot_healthScore : Z;
  iot_currentState : IoTState
}.

Record IoTDraws : Type := {
  drawCpu : Q;
  drawMemory : Q;
  drawTemperature : Q;
  drawLatency : Q;
  drawIoTBattery : Q;
  drawSignal : Q;
  drawUptime : Q;
  iotTime : string
}.

(** The draws and the clock reading of one status tick. *)
Record IoTTick : Type := {
  tickStatus : Q;
  tickCpu : Q;
  tickMemory : Q;
  tickTemperature : Q;
  tickLatency : Q;
  tickIoTBattery : Q;
  tickSignal : Q;
  tickIoTTime : string
}.

Module IoT.

Definition generateInitialState (r : IoTDraws) : IoTState :=
  {| iot_status := "online";
     cpuUsage := 20 + drawCpu r * 30;
     memoryUsage := 30 + drawMemory r * 40;
     temperature := 35 + drawTemperature r * 15;
     networkLatency := 10 + drawLatency r * 40;
     iot_batteryLevel := 80 + drawIoTBattery r * 20;
     signalStrength := -60 + drawSignal r * 30;
     uptime := Qfloor (drawUptime r * 2592000);
     lastHeartbeat := iotTime r |}%Q.

Definition new (deviceId : string) (metadata : Metadata) (r : IoTDraws)
    : IoTDeviceDigitalTwin :=
  {| iot_twinId := "IOT-TWIN-" +:+ deviceId;
     deviceId := deviceId;
     iot_metadata := metadata;
     iot_createdAt := iotTime r;
     iot_lastUpdate := iotTime r;
     statusData := [];
     iot_healthScore := 100;
     iot_currentState := generateInitialState r |}.

Definition updateHealthScore (this : IoTDeviceDigitalTwin) : IoTDeviceDigitalTwin :=
  let score := 100 in
  let score :=
    if String.eqb (iot_status (iot_currentState this)) "offline" then score - 50
    else if String.eqb (iot_status (iot_currentState this)) "warning" then score - 20
    else score in
  let score := if Qlt_bool 80 (cpuUsage (iot_currentState this)) then score - 15 else score in
  let score := if Qlt_bool 80 (memoryUsage (iot_currentState this)) then score - 15 else score in
  let score := if Qlt_bool 60 (temperature (iot_currentState this)) then score - 20 else score in
  let score := if Qlt_bool (iot_batteryLevel (iot_currentState this)) 20 then score - 10 else score in
  {| iot_twinId := iot_twinId this;
     deviceId := deviceId this;
     iot_metadata := iot_metadata this;
     iot_createdAt := iot_createdAt this;
     iot_lastUpdate := iot_lastUpdate this;
     statusData := statusData this;
     iot_healthScore := Z.max 0 score;
     iot_currentState := iot_currentState this |}.

Definition statuses : list string := ["online"; "online"; "online"; "warning"; "offline"].

Definition simulateStatus (r : IoTTick) : string :=
  nth (Z.to_nat (Qfloor (tickStatus r * inject_Z (Coordinator.len statuses))))
      statuses "undefined".

Definition simulateCpuUsage (this : IoTDeviceDigitalTwin) (r : IoTTick) : Q :=
  let current := Vehicle.orDefault (cpuUsage (iot_currentState this)) 25 in
  Qmax 5 (Qmin 95 (current + (tickCpu r - 0.5) * 10)).

Definition simulateMemoryUsage (this : IoTDeviceDigitalTwin) (r : IoTTick) : Q :=
  let current := Vehicle.orDefault (memoryUsage (iot_currentState this)) 50 in
  Qmax 10 (Qmin 90 (current + (tickMemory r - 0.5) * 8)).

Definition simulateTemperature (this : IoTDeviceDigitalTwin) (r : IoTTick) : Q :=
  let current := Vehicle.orDefault (temperature (iot_currentState this)) 40 in
  Qmax 20 (Qmin 70 (current + (tickTemperature r - 0.5) * 5)).

Definition simulateNetworkLatency (this : IoTDeviceDigitalTwin) (r : IoTTick) : Q :=
  let current := Vehicle.orDefault (networkLatency (iot_currentState this)) 25 in
  Qmax 5 (Qmin 200 (current + (tickLatency r - 0.5) * 15)).

Definition simulateBatteryLevel (this : IoTDeviceDigitalTwin) (r : IoTTick) : Q :=
  let current := Vehicle.orDefault (iot_batteryLevel (iot_currentState this)) 90 in
  Qmax 0 (current - tickIoTBattery r * 0.3).

Definition simulateSignalStrength (this : IoTDeviceDigitalTwin) (r : IoTTick) : Q :=
  let current := Vehicle.orDefault (signalStrength (iot_currentState this)) (-45) in
  Qmax (-90) (Qmin (-20) (current + (tickSignal r - 0.5) * 5)).

Definition simulateUptime (this : IoTDeviceDigitalTwin) : Z :=
  let current := uptime (iot_currentState this) in
  current + 8.

Definition updateStatusData (this : IoTDeviceDigitalTwin) (r : IoTTick)
    : IoTDeviceDigitalTwin :=
  let newData :=
    (tickIoTTime r,
     {| iot_status := simulateStatus r;
        cpuUsage := simulateCpuUsage this r;
        memoryUsage := simulateMemoryUsage this r;
        temperature := simulateTemperature this r;
        networkLatency := simulateNetworkLatency this r;
        iot_batteryLevel := simulateBatteryLevel this r;
        signalStrength := simulateSignalStrength this r;
        uptime := simulateUptime this;
        lastHeartbeat := tickIoTTime r |}) in
  let pushed := statusData this ++ [newData] in
  updateHealthScore
    {| iot_twinId := iot_twinId this;
       deviceId := deviceId this;
       iot_metadata := iot_metadata this;
       iot_createdAt := iot_createdAt this;
       iot_lastUpdate := fst newData;
       statusData :=
         if (12 <? Coordinator.len pushed)%Z then slice_last 12 pushed else pushed;
       iot_healthScore := iot_healthScore this;
       iot_currentState := snd newData |}.

Definition run (ticks : list IoTTick) (this : IoTDeviceDigitalTwin) : IoTDeviceDigitalTwin :=
  fold_left updateStatusData ticks this.

End IoT.

(** ** VIN authenticator *)

Inductive VinValidation : Type :=
| VinInvalid (reason : string) (digits : option (string * string))
| VinValid (manufacturer year region : string).

Module VINAuthenticator.

(** The characters of the class [[A-HJ-NPR-Z0-9]]. *)
Definition vinAlphabet : string := "ABCDEFGHJKLMNPRSTUVWXYZ0123456789".

Definition inClass (c : ascii) : bool :=
  existsb (Ascii.eqb c) (list_ascii_of_string vinAlphabet).

(** [/^[A-HJ-NPR-Z0-9]{17}$/.test(vin)] *)
Definition vinRegex (vin : string) : bool :=
  (String.length vin =? 17)%nat && forallb inClass (list_ascii_of_string vin).

Definition weights : list Z := [8; 7; 6; 5; 4; 3; 2; 10; 0; 9; 8; 7; 6; 5; 4; 3; 2].

Definition transliteration : list (ascii * Z) :=
  [ ("A", 1); ("B", 2); ("C", 3); ("D", 4); ("E", 5); ("F", 6); ("G", 7); ("H", 8);
    ("J", 1); ("K", 2); ("L", 3); ("M", 4); ("N", 5); ("P", 7); ("R", 9); ("S", 2);
    ("T", 3); ("U", 4); ("V", 5); ("W", 6); ("X", 7); ("Y", 8); ("Z", 9) ]%char.

Definition digitValue (c : ascii) : option Z :=
  let n := Z.of_nat (nat_of_ascii c) in
  if (48 <=? n)%Z && (n <=? 57)%Z then Some (n - 48) else None.

Fixpoint assoc (c : ascii) (table : list (ascii * Z)) : option Z :=
  match table with
  | [] => None
  | (k, v) :: rest => if Ascii.eqb c k then Some v else assoc c rest
  end.

(** [isNaN(char) ? transliteration[char] : parseInt(char)]; [None] is NaN. *)
Definition charValue (c : option ascii) : option Z :=
  match c with
  | None => None
  | Some c => match digitValue c with
              | Some d => Some d
              | None => assoc c transliteration
              end
  end.

(** The loop [for (i = 0; i < 17; i++) sum += value * weights[i]]. *)
Fixpoint weightedSum (vin : string) (ws : list Z) (i : nat) (sum : option Z) : option Z :=
  match ws with
  | [] => sum
  | w :: ws' =>
      let value := charValue (String.get i vin) in
      let sum := match sum, value with
                 | Some s, Some v => Some (s + v * w)
                 | _, _ => None
                 end in
      weightedSum vin ws' (S i) sum
  end.

Definition calculateCheckDigit (vin : string) : string :=
  match weightedSum vin weights 0 (Some 0) with
  | None => "NaN"
  | Some sum =>
      let remainder := sum mod 11 in
      if (remainder =? 10)%Z then "X" else show remainder
  end.

Definition charAt (s : string) (i : nat) : string :=
  match String.get i s with
  | Some c => String c EmptyString
  | None => "undefined"
  end.

Definition getManufacturer (vin : string) : string :=
  let wmi := String.substring 0 3 vin in
  if existsb (String.eqb wmi) ["1HG"; "2HG"; "3HG"] then "Honda"
  else if existsb (String.eqb wmi) ["5YJ"; "7SA"] then "Tesla"
  else if existsb (String.eqb wmi) ["WBA"; "WBS"; "WBY"] then "BMW"
  else if existsb (String.eqb wmi) ["1FA"; "1FB"; "1FC"] then "Ford"
  else if existsb (String.eqb wmi) ["1G1"; "1G2"] then "Chevrolet"
  else "Unknown".

Definition yearMap : list (string * Z) :=
  [ ("A", 2010); ("B", 2011); ("C", 2012); ("D", 2013); ("E", 2014);
    ("F", 2015); ("G", 2016); ("H", 2017); ("J", 2018); ("K", 2019);
    ("L", 2020); ("M", 2021); ("N", 2022); ("P", 2023); ("R", 2024);
    ("S", 2025); ("T", 2026); ("V", 2027); ("W", 2028); ("X", 2029) ].

Definition getYear (vin : string) : string :=
  let yearCode := charAt vin 9 in
  match List.find (fun kv => String.eqb (fst kv) yearCode) yearMap with
  | Some (_, y) => show y
  | None => "Unknown"
  end.

Definition getRegion (vin : string) : string :=
  let firstChar := charAt vin 0 in
  if existsb (String.eqb firstChar) ["1"; "2"; "3"; "4"; "5"] then "North America"
  else if existsb (String.eqb firstChar) ["S"; "Z"] then "Europe"
  else if existsb (String.eqb firstChar) ["J"] then "Asia"
  else "Unknown".

Definition validateVIN (vin : string) : VinValidation :=
  if negb (vinRegex vin) then VinInvalid "Invalid VIN format" None
  else
    let checkDigit := calculateCheckDigit vin in
    let providedCheckDigit := charAt vin 8 in
    if negb (String.eqb checkDigit providedCheckDigit)
    then VinInvalid "Invalid check digit" (Some (checkDigit, providedCheckDigit))
    else VinValid (getManufacturer vin) (getYear vin) (getRegion vin).

(** The own properties of a successful validation, as [{...vinValidation}]
    spreads them (values rendered as text). *)
Definition validProperties (manufacturer year region : string) : Metadata :=
  <["valid" := "true"]> (<["manufacturer" := manufacturer]>
    (<["year" := year]> (<["region" := region]> ∅))).

End VINAuthenticator.

(** ** MQTT simulator *)

Record MqttClient : Type := {
  client_clientId : string;
  clientType : string;
  connected : bool;
  subscribedTopics : list string;
  publishedMessages : Z;
  lastActivity : string
}.

Record MqttMessage : Type := {
  messageId : string;
  message_clientId : string;
  topic : string;
  payload : Metadata;
  message_timestamp : string;
  qos : Z
}.

Record MQTTSimulator : Type := {
  clients : gmap string MqttClient;
  topics : gmap string (list string);
  messageQueue : list MqttMessage
}.

Record TopicStat : Type := {
  stat_topic : string;
  subscriberCount : Z;
  messageCount : Z;
  lastMessage : option string   (* [None]: null *)
}.

(** [msg.topic] *)
Definition message_topic (msg : MqttMessage) : string := topic msg.

Module MQTT.

Definition new : MQTTSimulator :=
  {| clients := ∅; topics := ∅; messageQueue := [] |}.

Definition createClient (this : MQTTSimulator) (clientId clientType now : string)
    : MQTTSimulator :=
  {| clients := <[clientId := {| client_clientId := clientId;
                                 clientType := clientType;
                                 connected := true;
                                 subscribedTopics := [];
                                 publishedMessages := 0;
                                 lastActivity := now |}]> (clients this);
     topics := topics this;
     messageQueue := messageQueue this |}.

Definition subscribe (this : MQTTSimulator) (clientId topic now : string) : MQTTSimulator :=
  match clients this !! clientId with
  | Some client =>
      {| clients := <[clientId := {| client_clientId := client_clientId client;
                                     clientType := clientType client;
                                     connected := connected client;
                                     subscribedTopics := subscribedTopics client ++ [topic];
                                     publishedMessages := publishedMessages client;
                                     lastActivity := now |}]> (clients this);
         topics := <[topic := default [] (topics this !! topic) ++ [clientId]]> (topics this);
         messageQueue := messageQueue this |}
  | None => this
  end.

Definition publish (this : MQTTSimulator) (clientId topic : string) (message : Metadata)
    (nowMs : Z) (now : string) : MQTTSimulator :=
  match clients this !! clientId with
  | Some client =>
      let mqttMessage :=
        {| messageId := "msg-" +:+ show nowMs;
           message_clientId := clientId;
           topic := topic;
           payload := message;
           message_timestamp := now;
           qos := 1 |} in
      {| clients := <[clientId := {| client_clientId := client_clientId client;
                                     clientType := clientType client;
                                     connected := connected client;
                                     subscribedTopics := subscribedTopics client;
                                     publishedMessages := publishedMessages client + 1;
                                     lastActivity := now |}]> (clients this);
         topics := topics this;
         messageQueue := messageQueue this ++ [mqttMessage] |}
  | None => this
  end.

(** The entry [getTopicStats] pushes for one topic of the map. *)
Definition topicStat (this : MQTTSimulator) (topic : string) (subscribers : list string)
    : TopicStat :=
  let messages :=
    List.filter (fun msg => String.eqb (message_topic msg) topic) (messageQueue this) in
  {| stat_topic := topic;
     subscriberCount := Coordinator.len subscribers;
     messageCount := Coordinator.len messages;
     lastMessage := if (0 <? Coordinator.len messages)%Z
                    then option_map message_timestamp (last messages)
                    else None |}.

(** [getTopicStats] as a map from the topic to its entry (the array of the
    source lists the entries in the order the topics were first subscribed). *)
Definition getTopicStats (this : MQTTSimulator) : gmap string TopicStat :=
  map_imap (fun topic subscribers => Some (topicStat this topic subscribers)) (topics this).

Definition getRecentMessages (this : MQTTSimulator) (limit : Z) : list MqttMessage :=
  rev (slice_neg limit (messageQueue this)).

(** The calls that change a simulator after its clients are created, and a
    run of them. *)
Inductive Operation : Type :=
| Publish (clientId topic : string) (message : Metadata) (nowMs : Z) (now : string)
| Subscribe (clientId topic now : string).

Definition apply (this : MQTTSimulator) (op : Operation) : MQTTSimulator :=
  match op with
  | Publish clientId topic message nowMs now => publish this clientId topic message nowMs now
  | Subscribe clientId topic now => subscribe this clientId topic now
  end.

Definition run (ops : list Operation) (this : MQTTSimulator) : MQTTSimulator :=
  fold_left apply ops this.

End MQTT.

(** ** Digital twin manager *)

Record DigitalTwinManager : Type := {
  vehicleTwins : gmap string VehicleDigitalTwin;
  petTwins : gmap string PetDigitalTwin;
  iotTwins : gmap string IoTDeviceDigitalTwin;
  mqttSimulator : MQTTSimulator
}.

(** What a creation call observes of its environment: the settlement of
    every agent evaluation and the clock readings. *)
Record World : Type := {
  evaluate : IdentityAgent -> IdentityData -> settled Evaluation;
  clock : Clock;
  publishMs : Z;
  publishStamp : string
}.

Module Manager.

Definition initializeMQTTDemo (mqtt : MQTTSimulator) (now : string) : MQTTSimulator :=
  let mqtt := MQTT.createClient mqtt "vehicle-gateway-001" "vehicle-gateway" now in
  let mqtt := MQTT.createClient mqtt "pet-collar-hub" "pet-hub" now in
  let mqtt := MQTT.createClient mqtt "iot-device-manager" "iot-manager" now in
  let mqtt := MQTT.createClient mqtt "cloud-analytics" "analytics" now in
  let mqtt := MQTT.subscribe mqtt "cloud-analytics" "vehicle/telemetry/+" now in
  let mqtt := MQTT.subscribe mqtt "cloud-analytics" "pet/vitals/+" now in
  let mqtt := MQTT.subscribe mqtt "cloud-analytics" "iot/status/+" now in
  let mqtt := MQTT.subscribe mqtt "pet-collar-hub" "pet/commands/+" now in
  MQTT.subscribe mqtt "vehicle-gateway-001" "vehicle/commands/+" now.

Definition new (now : string) : DigitalTwinManager :=
  {| vehicleTwins := ∅;
     petTwins := ∅;
     iotTwins := ∅;
     mqttSimulator := initializeMQTTDemo MQTT.new now |}.

(** The creation calls run against the process-wide coordinator, which is
    threaded through; they return the twin or the message of the [Error]
    they throw. *)
Definition createDigitalTwin (this : DigitalTwinManager)
    (multiAgentCoordinator : MultiAgentCoordinator)
    (vin : string) (metadata : Metadata) (w : World) (r : VehicleDraws)
    : DigitalTwinManager * MultiAgentCoordinator * (VehicleDigitalTwin + string) :=
  match VINAuthenticator.validateVIN vin with
  | VinInvalid reason _ =>
      (this, multiAgentCoordinator, inr ("Invalid VIN: " +:+ reason))
  | VinValid manufacturer year region =>
      let '(coordinator, coordinationResult) :=
        Coordinator.coordinateIdentityDecision multiAgentCoordinator
          {| id := "TWIN-" +:+ vin;
             type := "vehicle-twin";
             metadata := Some (metadata ∪ {["vin" := vin]}) |}
          (evaluate w) (clock w) in
      if negb (strict_eq_string (prop_finalDecision coordinationResult) "APPROVED") then
        (this, coordinator,
         inr "Digital twin creation rejected by multi-agent consensus")
      else
        let enhancedMetadata :=
          VINAuthenticator.validProperties manufacturer year region ∪ metadata in
        let digitalTwin := Vehicle.new vin enhancedMetadata r in
        ({| vehicleTwins := <[vin := digitalTwin]> (vehicleTwins this);
            petTwins := petTwins this;
            iotTwins := iotTwins this;
            mqttSimulator :=
              MQTT.publish (mqttSimulator this) "vehicle-gateway-001" "vehicle/twin/created"
                (<["vin" := vin]> (<["twinId" := twinId digitalTwin]>
                   (<["timestamp" := publishStamp w]> ∅)))
                (publishMs w) (publishStamp w) |},
         coordinator, inl digitalTwin)
  end.

Definition createPetTwin (this : DigitalTwinManager)
    (multiAgentCoordinator : MultiAgentCoordinator)
    (petId : string) (metadata : Metadata) (w : World) (r : PetDraws)
    : DigitalTwinManager * MultiAgentCoordinator * (PetDigitalTwin + string) :=
  let '(coordinator, coordinationResult) :=
    Coordinator.coordinateIdentityDecision multiAgentCoordinator
      {| id := "PET-TWIN-" +:+ petId;
         type := "pet-twin";
         metadata := Some (metadata ∪ {["petId" := petId]}) |}
      (evaluate w) (clock w) in
  if negb (strict_eq_string (prop_finalDecision coordinationResult) "APPROVED") then
    (this, coordinator, inr "Pet twin creation rejected by multi-agent consensus")
  else
    let petTwin := Pet.new petId metadata r in
    ({| vehicleTwins := vehicleTwins this;
        petTwins := <[petId := petTwin]> (petTwins this);
        iotTwins := iotTwins this;
        mqttSimulator :=
          MQTT.publish (mqttSimulator this) "pet-collar-hub" "pet/twin/created"
            (<["petId" := petId]> (<["twinId" := pet_twinId petTwin]>
               (<["timestamp" := publishStamp w]> ∅)))
            (publishMs w) (publishStamp w) |},
     coordinator, inl petTwin).

Definition createIoTTwin (this : DigitalTwinManager)
    (multiAgentCoordinator : MultiAgentCoordinator)
    (deviceId : string) (metadata : Metadata) (w : World) (r : IoTDraws)
    : DigitalTwinManager * MultiAgentCoordinator * (IoTDeviceDigitalTwin + string) :=
  let '(coordinator, coordinationResult) :=
    Coordinator.coordinateIdentityDecision multiAgentCoordinator
      {| id := "IOT-TWIN-" +:+ deviceId;
         type := "iot-twin";
         metadata := Some (metadata ∪ {["deviceId" := deviceId]}) |}
      (evaluate w) (clock w) in
  if negb (strict_eq_string (prop_finalDecision coordinationResult) "APPROVED") then
    (this, coordinator, inr "IoT twin creation rejected by multi-agent consensus")
  else
    let iotTwin := IoT.new deviceId metadata r in
    ({| vehicleTwins := vehicleTwins this;
        petTwins := petTwins this;
        iotTwins := <[deviceId := iotTwin]> (iotTwins this);
        mqttSimulator :=
          MQTT.publish (mqttSimulator this) "iot-device-manager" "iot/twin/created"
            (<["deviceId" := deviceId]> (<["twinId" := iot_twinId iotTwin]>
               (<["timestamp" := publishStamp w]> ∅)))
            (publishMs w) (publishStamp w) |},
     coordinator, inl iotTwin).

(** The three demo messages of [simulateMQTTTraffic], payloads rendered as
    text; the three publishes share one clock reading here. *)
Definition demoTraffic : list (string * string * Metadata) :=
  [ ("vehicle-gateway-001", "vehicle/telemetry/VIN123",
     <["speed" := "65"]> (<["rpm" := "2500"]> ∅));
    ("pet-collar-hub", "pet/vitals/PET456",
     <["heartRate" := "95"]> (<["activity" := "75"]> ∅));
    ("iot-device-manager", "iot/status/DEV789",
     <["status" := "online"]> (<["cpu" := "45"]> ∅)) ].

Definition simulateMQTTTraffic (this : DigitalTwinManager) (nowMs : Z) (now : string)
    : DigitalTwinManager * Z :=
  ({| vehicleTwins := vehicleTwins this;
      petTwins := petTwins this;
      iotTwins := iotTwins this;
      mqttSimulator :=
        fold_left (fun mqtt msg =>
                     MQTT.publish mqtt (fst (fst msg)) (snd (fst msg)) (snd msg) nowMs now)
                  demoTraffic (mqttSimulator this) |},
   Coordinator.len demoTraffic).

Definition getTotalTwinsCount (this : DigitalTwinManager) : Z :=
  Z.of_nat (size (vehicleTwins this)) + Z.of_nat (size (petTwins this))
  + Z.of_nat (size (iotTwins this)).

(** The creation calls, and a run of them against the manager and the
    coordinator of the process. *)
Inductive Creation : Type :=
| CreateVehicle (vin : string) (metadata : Metadata) (w : World) (r : VehicleDraws)
| CreatePet (petId : string) (metadata : Metadata) (w : World) (r : PetDraws)
| CreateIoT (deviceId : string) (metadata : Metadata) (w : World) (r : IoTDraws).

Definition create (state : DigitalTwinManager * MultiAgentCoordinator) (call : Creation)
    : DigitalTwinManager * MultiAgentCoordinator :=
  match call with
  | CreateVehicle vin metadata w r =>
      fst (createDigitalTwin (fst state) (snd state) vin metadata w r)
  | CreatePet petId metadata w r =>
      fst (createPetTwin (fst state) (snd state) petId metadata w r)
  | CreateIoT deviceId metadata w r =>
      fst (createIoTTwin (fst state) (snd state) deviceId metadata w r)
  end.

Definition run (calls : list Creation)
    (state : DigitalTwinManager * MultiAgentCoordinator)
    : DigitalTwinManager * MultiAgentCoordinator :=
  fold_left create calls state.

Definition getDigitalTwin (this : DigitalTwinManager) (vin : string) :=
  vehicleTwins this !! vin.

Definition getPetTwin (this : DigitalTwinManager) (petId : string) :=
  petTwins this !! petId.

Definition getIoTTwin (this : DigitalTwinManager) (deviceId : string) :=
  iotTwins this !! deviceId.

(** The coordinated decision of a session: the decision string nested in
    the object of its [finalDecision] field. *)
Definition coordinatedDecision (r : CoordinationSession) : option string :=
  match r with
  | Completed s => Some (finalDecision (session_finalDecision s))
  | Failed _ => None
  end.

End Manager.

(** ** Route handlers and their helpers *)

Record RiskCounts : Type := {
  HIGH : Z;
  MEDIUM : Z;
  LOW : Z;
  NONE : Z
}.

(** The answer of a route: the body of a success, or the status and the
    message of an error. *)
Inductive Response (A : Type) : Type :=
| Success (body : A)
| NotFound (message : string)
| ServerError (message : string).
Arguments Success {A} body.
Arguments NotFound {A} message.
Arguments ServerError {A} message.

Module Routes.

(** One step of the [forEach] of [calculateRiskDistribution]. *)
Definition countRisk (riskCounts : RiskCounts) (decision : Explanation) : RiskCounts :=
  let highRisks :=
    Coordinator.len (List.filter (fun r => String.eqb (severity r) "HIGH")
                                 (riskFactors decision)) in
  let mediumRisks :=
    Coordinator.len (List.filter (fun r => String.eqb (severity r) "MEDIUM")
                                 (riskFactors decision)) in
  if (0 <? highRisks)%Z then
    {| HIGH := HIGH riskCounts + 1; MEDIUM := MEDIUM riskCounts;
       LOW := LOW riskCounts; NONE := NONE riskCounts |}
  else if (0 <? mediumRisks)%Z then
    {| HIGH := HIGH riskCounts; MEDIUM := MEDIUM riskCounts + 1;
       LOW := LOW riskCounts; NONE := NONE riskCounts |}
  else if Qlt_bool 0.3 (anomalyScore decision) then
    {| HIGH := HIGH riskCounts; MEDIUM := MEDIUM riskCounts;
       LOW := LOW riskCounts + 1; NONE := NONE riskCounts |}
  else
    {| HIGH := HIGH riskCounts; MEDIUM := MEDIUM riskCounts;
       LOW := LOW riskCounts; NONE := NONE riskCounts + 1 |}.

Definition calculateRiskDistribution (decisions : list Explanation) : RiskCounts :=
  fold_left countRisk decisions {| HIGH := 0; MEDIUM := 0; LOW := 0; NONE := 0 |}.

Section Rendering.

Variable toFixed1 : jsnum -> string.

(** [GET /api/decisions/explain/:coordinationId]: the session is looked up
    among the 50 most recent ones, newest first, and explained. *)
Definition explainDecision (coordinator : MultiAgentCoordinator)
    (engine : ExplainableDecisionEngine) (wanted : string) (now : string)
    : ExplainableDecisionEngine * Response Explanation :=
  match List.find (fun session => String.eqb (coordinationId session) wanted)
                  (Coordinator.getCoordinationHistory coordinator 50) with
  | None => (engine, NotFound "Coordination session not found")
  | Some coordination =>
      match Engine.explainCoordination toFixed1 engine (Completed coordination) now with
      | (engine, inl explanation) => (engine, Success explanation)
      | (engine, inr message) => (engine, ServerError message)
      end
  end.

(** [POST /api/agents/coordinate/:identityId] on a request body that is an
    object with (possibly empty) [id]: the coordination, then its
    explanation; an exception of the explanation is answered with status
    500. *)
Definition coordinate (coordinator : MultiAgentCoordinator)
    (engine : ExplainableDecisionEngine) (identityId : string) (body : IdentityData)
    (evaluate : IdentityAgent -> IdentityData -> settled Evaluation) (clock : Clock)
    (now : string)
    : MultiAgentCoordinator * ExplainableDecisionEngine
      * Response (CoordinationSession * Explanation) :=
  let identityData :=
    if String.eqb (id body) ""
    then {| id := identityId; type := type body; metadata := metadata body |}
    else body in
  let '(coordinator, coordinationResult) :=
    Coordinator.coordinateIdentityDecision coordinator identityData evaluate clock in
  match Engine.explainCoordination toFixed1 engine coordinationResult now with
  | (engine, inl explanation) =>
      (coordinator, engine, Success (coordinationResult, explanation))
  | (engine, inr message) => (coordinator, engine, ServerError message)
  end.

End Rendering.

End Routes.

(** ** Sample data *)

Module Samples.

Definition draws : Draws :=
  {| byzantineDraw := 0.1; confidenceDraw := 0.5; securityDraw := 0.5;
     duplicateDraw := 0.5; stamp := "2025-01-01T00:00:00.000Z" |}.

Definition validator : IdentityAgent :=
  Agent.new "agent-validator-001" "validator" false.
Definition consensusAgent : IdentityAgent :=
  Agent.new "agent-consensus-002" "consensus" false.
Definition security : IdentityAgent :=
  Agent.new "agent-security-003" "security" false.

Definition vehicle : IdentityData :=
  {| id := "VEH-1"; type := "vehicle"; metadata := Some ∅ |}.

Definition approve (a : IdentityAgent) : Evaluation :=
  Agent.generateResponse a vehicle draws.
Definition malicious (a : IdentityAgent) : Evaluation :=
  Agent.generateByzantineResponse a vehicle draws.

Definition noon : Clock :=
  {| startMs := 1700000000000; idMs := 1700000000000;
     isoStamp := "2025-01-01T00:00:00.100Z"; endMs := 1700000000120 |}.

Definition honest : IdentityAgent -> IdentityData -> settled Evaluation :=
  Coordinator.sourceEvaluate (fun _ => draws).

(** A dispatch in which the evaluation of the security agent is rejected
    (the others are the source's). *)
Definition failingSecurity (a : IdentityAgent) (d : IdentityData) : settled Evaluation :=
  if String.eqb (agent_specialization a) "security"
  then Rejected "agent unreachable" else honest a d.

(** The clock of the coordination started at millisecond [i]. *)
Definition clockAt (i : nat) : Clock :=
  {| startMs := Z.of_nat i; idMs := Z.of_nat i;
     isoStamp := "2025-01-01T00:00:00.100Z"; endMs := Z.of_nat i + 120 |}.

(** [n] coordinations in a row, started at milliseconds 0, 1, ..., n-1. *)
Definition decisions (n : nat) : list Coordinator.Operation :=
  List.map (fun i => Coordinator.Decide vehicle honest (clockAt i)) (seq 0 n).

Definition offline : MultiAgentCoordinator :=
  Coordinator.run [ Coordinator.SetStatus 0 "offline";
                    Coordinator.SetStatus 1 "offline";
                    Coordinator.SetStatus 2 "offline" ] Coordinator.new.

(** The coordinator after an attack simulation that picked the security
    agent (index 2 of 3). *)
Definition attacked : MultiAgentCoordinator :=
  Coordinator.run [Coordinator.Attack 0.9] Coordinator.new.

(** The coordinator after attack simulations that picked every agent. *)
Definition allAttacked : MultiAgentCoordinator :=
  Coordinator.run [Coordinator.Attack 0.1; Coordinator.Attack 0.5; Coordinator.Attack 0.9]
    Coordinator.new.

(** The session a coordination started at [noon] records over [evs]. *)
Definition sessionOver (this : MultiAgentCoordinator) (evs : list Evaluation)
    : SessionRecord :=
  {| coordinationId := "coord-1700000000000";
     identityId := id vehicle;
     sessionTimestamp := isoStamp noon;
     participatingAgents := Coordinator.len evs;
     agentEvaluations := evs;
     consensus := Coordinator.calculateConsensus this evs;
     session_finalDecision :=
       Coordinator.handleByzantineFaults this (Coordinator.calculateConsensus this evs) evs;
     processingTime := 120;
     byzantineDetected := existsb isByzantine evs |}.

Definition allMalicious : SessionRecord :=
  sessionOver allAttacked [malicious validator; malicious consensusAgent; malicious security].

Definition allApproved : SessionRecord :=
  sessionOver Coordinator.new [approve validator; approve consensusAgent; approve security].

(** Validator approves, the two other agents answer maliciously. *)
Definition contested : SessionRecord :=
  sessionOver allAttacked [approve validator; malicious consensusAgent; malicious security].

(** Explanation requests for the sessions started at milliseconds
    0, 1, ..., n-1. *)
Definition explanations (n : nat) : list (CoordinationSession * string) :=
  List.map (fun i => (snd (Coordinator.coordinateIdentityDecision Coordinator.new vehicle
                             honest (clockAt i)),
                      "2025-01-01T00:00:01.000Z"))
           (seq 0 n).

(** A rendering of [toFixed(1)] that prints nothing. *)
Definition noDigits (x : jsnum) : string := "".

Definition world : World :=
  {| evaluate := honest; clock := noon;
     publishMs := 1700000000130; publishStamp := "2025-01-01T00:00:00.130Z" |}.

Definition vehicleDraws : VehicleDraws :=
  {| drawEngineTemp := 0.5; drawOilPressure := 0.5; drawBatteryVoltage := 0.5;
     drawFuelLevel := 0.5; drawMileage := 0.5; drawRpm := 0.5; drawStationary := 0.5;
     drawSpeed := 0.5; drawLat := 0.5; drawLng := 0.5; drawHasCode := 0.5;
     drawCode := 0.5; tickTime := "2025-01-01T00:00:05.000Z" |}.

Definition petDraws : PetDraws :=
  {| drawHeartRate := 0.5; drawBodyTemp := 0.5; drawActivity := 0.5; drawSteps := 0.5;
     drawSleep := 0.5; drawPetLat := 0.5; drawPetLng := 0.5; drawPetBattery := 0.5;
     petTime := "2025-01-01T00:00:10.000Z" |}.

Definition iotDraws : IoTDraws :=
  {| drawCpu := 0.5; drawMemory := 0.5; drawTemperature := 0.5; drawLatency := 0.5;
     drawIoTBattery := 0.5; drawSignal := 0.5; drawUptime := 0.5;
     iotTime := "2025-01-01T00:00:08.000Z" |}.

(** A VIN whose ninth character is its check digit. *)
Definition hondaVin : string := "1HGCM82633A004352".

(** A reading with a warm engine and nothing else wrong. *)
Definition warmEngine : VehicleState :=
  {| engineTemp := 95; oilPressure := 40; batteryVoltage := 12.5; fuelLevel := 50;
     mileage := 45000; rpm := 800; speed := 0;
     gpsLocation := {| lat := 44.4949; lng := 11.3426 |};
     diagnosticCodes := []; lastPing := "2025-01-01T00:00:05.000Z" |}.

Definition warmTwin : VehicleDigitalTwin :=
  {| twinId := "TWIN-" +:+ hondaVin; vin := hondaVin; vehicle_metadata := ∅;
     createdAt := "2025-01-01T00:00:00.000Z"; lastUpdate := "2025-01-01T00:00:05.000Z";
     telemetryData := []; healthScore := 100; alertCount := 0;
     maintenanceHistory := []; currentState := warmEngine |}.

(** The same reading behind a full telemetry window and a raised alert. *)
Definition warmTwinWithHistory : VehicleDigitalTwin :=
  {| twinId := twinId warmTwin; vin := vin warmTwin; vehicle_metadata := ∅;
     createdAt := createdAt warmTwin; lastUpdate := lastUpdate warmTwin;
     telemetryData :=
       repeat {| point_timestamp := "2025-01-01T00:00:05.000Z";
                 data := Vehicle.generateInitialState vehicleDraws |} 20;
     healthScore := 35; alertCount := 1;
     maintenanceHistory := []; currentState := warmEngine |}.

(** The warm twin with an empty tank. *)
Definition emptyTank : VehicleDigitalTwin :=
  {| twinId := twinId warmTwin; vin := vin warmTwin; vehicle_metadata := ∅;
     createdAt := createdAt warmTwin; lastUpdate := lastUpdate warmTwin;
     telemetryData := []; healthScore := 90; alertCount := 0;
     maintenanceHistory := [];
     currentState :=
       {| engineTemp := 95; oilPressure := 40; batteryVoltage := 12.5; fuelLevel := 0;
          mileage := 45000; rpm := 800; speed := 0;
          gpsLocation := {| lat := 44.4949; lng := 11.3426 |};
          diagnosticCodes := []; lastPing := "2025-01-01T00:00:05.000Z" |} |}.

(** A twin whose only problem is an engine at 105 degrees. *)
Definition hotTwin : VehicleDigitalTwin :=
  {| twinId := twinId warmTwin; vin := vin warmTwin; vehicle_metadata := ∅;
     createdAt := createdAt warmTwin; lastUpdate := lastUpdate warmTwin;
     telemetryData := []; healthScore := 100; alertCount := 0;
     maintenanceHistory := [];
     currentState :=
       {| engineTemp := 105; oilPressure := 40; batteryVoltage := 12.5; fuelLevel := 50;
          mileage := 45000; rpm := 800; speed := 0;
          gpsLocation := {| lat := 44.4949; lng := 11.3426 |};
          diagnosticCodes := []; lastPing := "2025-01-01T00:00:05.000Z" |} |}.

End Samples.

(** ** Vocabulary of the properties *)

(** The ratio lies in the unit interval (a NaN ratio does not). *)
Definition ratio_in_unit (r : jsnum) : Prop :=
  match r with
  | JFin q => (0 <= q /\ q <= 1)%Q
  | JPosInf | JNegInf | JNaN => False
  end.

(** The outcomes of the evaluations a coordination dispatches. *)
Definition dispatched (this : MultiAgentCoordinator) (identityData : IdentityData)
    (evaluate : IdentityAgent -> IdentityData -> settled Evaluation)
    : list (settled Evaluation) :=
  List.map (fun agent => evaluate agent identityData)
           (List.filter Coordinator.isOnline (agents this)).

(** The object a caller receives is that of the [catch] block. *)
Definition carries_error (r : CoordinationSession) : Prop :=
  exists message, prop_error r = Some message.

(** The push-then-trim of both histories, with capacity [n]. *)
Definition pushTrim {A : Type} (n : nat) (l : list A) (x : A) : list A :=
  let pushed := l ++ [x] in
  if (Z.of_nat n <? Coordinator.len pushed)%Z then slice_last n pushed else pushed.

(** Sum of a list of rationals. *)
Definition Qsum (l : list Q) : Q := fold_right Qplus 0%Q l.

(** The weight table as the specification words it. *)
Definition spec_weight (specialization : string) : Q :=
  if String.eqb specialization "validator" then 0.4%Q
  else if String.eqb specialization "consensus" then 0.35%Q
  else if String.eqb specialization "security" then 0.25%Q
  else 0.33%Q.

(** The weighted confidence as the specification words it: over the
    non-Byzantine evaluations, the sum of confidence times weight divided by
    the sum of the weights; 0 when there is none. *)
Definition spec_weightedConfidence (evaluations : list Evaluation) : Q :=
  let honest := List.filter (fun e => negb (isByzantine e)) evaluations in
  match honest with
  | [] => 0%Q
  | _ => (Qsum (List.map (fun e => confidence e * spec_weight (specialization e))%Q honest)
          / Qsum (List.map (fun e => spec_weight (specialization e)) honest))%Q
  end.

(** The non-Byzantine evaluations. *)
Definition honestOf (evaluations : list Evaluation) : list Evaluation :=
  List.filter (fun e => negb (isByzantine e)) evaluations.

(** The four triggers of the anomaly score of a session. *)
Record Triggers : Type := {
  slow : bool;
  lowRatio : bool;
  byzantine : bool;
  lowConfidence : bool
}.

Definition triggers (s : SessionRecord) : Triggers :=
  {| slow := (3000 <? processingTime s)%Z;
     lowRatio := js_lt (consensusRatio (consensus s)) 0.7;
     byzantine := byzantineDetected s;
     lowConfidence := js_lt (averageConfidence (consensus s)) 0.5 |}.

(** The anomaly score as the specification words it: sum, then clamp. *)
Definition spec_anomalyScore (t : Triggers) : Q :=
  Qmin 1 ((if slow t then 0.3 else 0) + (if lowRatio t then 0.4 else 0)
          + (if byzantine t then 0.5 else 0) + (if lowConfidence t then 0.6 else 0))%Q.

(** [t'] fires every trigger that [t] fires. *)
Definition triggers_le (t t' : Triggers) : Prop :=
  (slow t = true -> slow t' = true)
  /\ (lowRatio t = true -> lowRatio t' = true)
  /\ (byzantine t = true -> byzantine t' = true)
  /\ (lowConfidence t = true -> lowConfidence t' = true).

(** The evaluations the source's agents return. *)
Definition sourceEvaluations (random : string -> Draws) (this : MultiAgentCoordinator)
    (identityData : IdentityData) : list Evaluation :=
  List.map (fun a => Agent.evaluateIdentity a identityData (random (agent_agentId a)))
           (List.filter Coordinator.isOnline (agents this)).

(** [session.identityId] *)
Definition identityId_of (s : SessionRecord) : string := identityId s.

(** The value of the character at position [i] of a VIN (0 where the source
    has NaN), and the weighted sum of the check digit from position [i] on. *)
Definition valueAt (vin : string) (i : nat) : Z :=
  default 0%Z (VINAuthenticator.charValue (String.get i vin)).

Fixpoint dot (vin : string) (ws : list Z) (i : nat) : Z :=
  match ws with
  | [] => 0
  | w :: ws' => valueAt vin i * w + dot vin ws' (S i)
  end.

(** A VIN with its ninth character replaced by its computed check digit. *)
Definition withCheckDigit (vin : string) : string :=
  String.substring 0 8 vin +:+ VINAuthenticator.calculateCheckDigit vin
    +:+ String.substring 9 8 vin.

(** What every telemetry tick re-establishes on a vehicle twin. *)
Definition alertInvariant (this : VehicleDigitalTwin) : Prop :=
  (alertCount this = 0 \/ alertCount this = 1)%Z
  /\ (50 <= healthScore this <= 100)%Z
  /\ ((healthScore this < 80)%Z -> alertCount this = 1%Z).

(** The readings of a telemetry window are within the simulated ranges. *)
Definition pointInRange (p : TelemetryPoint) : Prop :=
  (50 <= engineTemp (data p) <= 120)%Q /\ (20 <= oilPressure (data p) <= 60)%Q.

(** The messages of the queue that a client published. *)
Definition publishedBy (this : MQTTSimulator) (clientId : string) : list MqttMessage :=
  List.filter (fun msg => String.eqb (message_clientId msg) clientId) (messageQueue this).

(** Every client's counter is the number of its messages in the queue. *)
Definition countersAgree (this : MQTTSimulator) : Prop :=
  forall clientId client,
    clients this !! clientId = Some client ->
    publishedMessages client = Coordinator.len (publishedBy this clientId).

(** What every round of demo traffic keeps true of the manager's simulator:
    the subscriptions are the five of the constructor, the three publishing
    clients exist, and every queued message has one of the three demo
    topics. *)
Definition demoInvariant (this : MQTTSimulator) : Prop :=
  topics this
  = <["vehicle/telemetry/+" := ["cloud-analytics"]]>
      (<["pet/vitals/+" := ["cloud-analytics"]]>
         (<["iot/status/+" := ["cloud-analytics"]]>
            (<["pet/commands/+" := ["pet-collar-hub"]]>
               (<["vehicle/commands/+" := ["vehicle-gateway-001"]]> ∅))))
  /\ (forall c, In c ["vehicle-gateway-001"; "pet-collar-hub"; "iot-device-manager"] ->
                clients this !! c <> None)
  /\ Forall (fun msg => In (message_topic msg)
                          ["vehicle/telemetry/VIN123"; "pet/vitals/PET456";
                           "iot/status/DEV789"])
            (messageQueue this).

(** Rounds of demo traffic, each with its clock readings. *)
Definition traffic (rounds : list (Z * string)) (this : DigitalTwinManager)
    : DigitalTwinManager :=
  fold_left (fun manager round =>
               fst (Manager.simulateMQTTTraffic manager (fst round) (snd round)))
            rounds this.

(** The number of decisions counted by a risk distribution. *)
Definition riskTotal (c : RiskCounts) : Z := HIGH c + MEDIUM c + LOW c + NONE c.

(** The ML target of an explanation is 0 or 1. *)
Definition binaryTarget (e : Explanation) : Prop :=
  target (mlFeatures e) = 0%Z \/ target (mlFeatures e) = 1%Z.


(** * Properties *)

(** ** Helper lemmas *)

Lemma len_nonneg {A : Type} (l : list A) : (0 <= Coordinator.len l)%Z.
Proof. unfold Coordinator.len. lia. Qed.

Lemma len_filter_le {A : Type} (f : A -> bool) (l : list A) :
  (Coordinator.len (List.filter f l) <= Coordinator.len l)%Z.
Proof.
  unfold Coordinator.len. induction l as [|x l IH]; simpl; [lia|].
  destruct (f x); simpl; lia.
Qed.

Lemma len_zero_nil {A : Type} (l : list A) : Coordinator.len l = 0%Z -> l = [].
Proof. destruct l; [reflexivity|]. unfold Coordinator.len. simpl. lia. Qed.

Lemma jsdiv_finite (a b : Q) : ~ (b == 0)%Q -> jsdiv a b = JFin (a / b).
Proof.
  intros Hb. unfold jsdiv. destruct (Qeq_bool b 0) eqn:E; [|reflexivity].
  apply Qeq_bool_iff in E. contradiction.
Qed.

Lemma jsdiv_zero_zero : jsdiv 0 0 = JNaN.
Proof. reflexivity. Qed.

Lemma inject_Z_nonzero (z : Z) : z <> 0%Z -> ~ (inject_Z z == 0)%Q.
Proof. intros Hz H. apply Hz. unfold Qeq in H. simpl in H. lia. Qed.

Lemma consensusRatio_nonempty (this : MultiAgentCoordinator) (evs : list Evaluation) :
  evs <> [] ->
  consensusRatio (Coordinator.calculateConsensus this evs)
  = JFin (inject_Z (Coordinator.len (List.filter Coordinator.isApproved evs))
          / inject_Z (Coordinator.len evs)).
Proof.
  intros Hne. unfold Coordinator.calculateConsensus. cbn [consensusRatio].
  apply jsdiv_finite, inject_Z_nonzero. intros H. apply len_zero_nil in H. contradiction.
Qed.

Lemma recommended_iff_achieved (this : MultiAgentCoordinator) (evs : list Evaluation) :
  recommendedDecision (Coordinator.calculateConsensus this evs) = "APPROVED"
  <-> consensusAchieved (Coordinator.calculateConsensus this evs) = true.
Proof.
  unfold Coordinator.calculateConsensus. cbn [recommendedDecision consensusAchieved].
  destruct (js_ge _ _); split; intros H; try reflexivity; discriminate.
Qed.

Lemma achieved_iff_threshold (this : MultiAgentCoordinator) (evs : list Evaluation) :
  consensusAchieved (Coordinator.calculateConsensus this evs)
  = js_ge (consensusRatio (Coordinator.calculateConsensus this evs)) (consensusThreshold this).
Proof. reflexivity. Qed.

(** ** Consensus *)

Lemma two_of_three_general (evs : list Evaluation) :
  Coordinator.len evs = 3%Z ->
  Coordinator.len (List.filter Coordinator.isApproved evs) = 2%Z ->
  let c := Coordinator.calculateConsensus Coordinator.new evs in
  js_ge (consensusRatio c) (2 # 3) = true
  /\ consensusAchieved c = false
  /\ recommendedDecision c = "REJECTED".
Proof.
  intros Hlen Happ c. subst c.
  unfold Coordinator.calculateConsensus.
  cbn [consensusRatio consensusAchieved recommendedDecision].
  rewrite Happ, Hlen. repeat split; reflexivity.
Qed.

Lemma one_of_three_general (evs : list Evaluation) :
  Coordinator.len evs = 3%Z ->
  Coordinator.len (List.filter Coordinator.isApproved evs) = 1%Z ->
  consensusAchieved (Coordinator.calculateConsensus Coordinator.new evs) = false.
Proof.
  intros Hlen Happ. unfold Coordinator.calculateConsensus. cbn [consensusAchieved].
  rewrite Happ, Hlen. reflexivity.
Qed.

(** C1 (the code departs from the claim): the validator and the consensus
    agent approve and the security agent answers with the malicious
    rejection.  Two of three evaluations approve, the ratio is 2/3 and meets
    the 2/3 majority of the claim (and of the comment on the threshold), yet
    the coordinator, whose threshold is the constant 0.67, reports no
    consensus and recommends REJECTED. *)
Theorem two_of_three_is_no_consensus :
  let evs := [Samples.approve Samples.validator; Samples.approve Samples.consensusAgent;
              Samples.malicious Samples.security] in
  let c := Coordinator.calculateConsensus Coordinator.new evs in
  approvals c = 2%Z /\ totalAgents c = 3%Z
  /\ js_ge (consensusRatio c) (2 # 3) = true
  /\ consensusAchieved c = false
  /\ recommendedDecision c = "REJECTED".
Proof.
  intros evs c. split; [reflexivity|]. split; [reflexivity|].
  apply (two_of_three_general evs); reflexivity.
Qed.

(** C6 as stated fails: over no evaluations the ratio is 0/0, that is NaN,
    which is not between 0 and 1. *)
Lemma empty_consensus_ratio_is_nan :
  let c := Coordinator.calculateConsensus Coordinator.new [] in
  consensusRatio c = JNaN
  /\ ~ ((approvals c + rejections c = totalAgents c)%Z /\ ratio_in_unit (consensusRatio c)).
Proof.
  split; [reflexivity|]. intros [_ H]. exact H.
Qed.

(** The empty list does reach [calculateConsensus]: when every evaluation of
    a session is Byzantine the consensus is recomputed over none. *)
Example all_malicious_recomputes_over_nothing :
  honestOf (agentEvaluations Samples.allMalicious) = []
  /\ finalDecision (session_finalDecision Samples.allMalicious) = "REJECTED".
Proof. split; reflexivity. Qed.

(** C6 (amended): for every evaluation set approvals + rejections equals
    totalAgents, and for every non-empty evaluation set the consensus ratio is
    a number between 0 and 1. *)
Theorem consensus_counts_and_ratio (this : MultiAgentCoordinator) (evs : list Evaluation) :
  let c := Coordinator.calculateConsensus this evs in
  (approvals c + rejections c = totalAgents c)%Z
  /\ (evs <> [] -> ratio_in_unit (consensusRatio c)).
Proof.
  intros c. subst c. split.
  - unfold Coordinator.calculateConsensus. cbn [approvals rejections totalAgents]. lia.
  - intros Hne. rewrite consensusRatio_nonempty by assumption. simpl.
    pose proof (len_filter_le Coordinator.isApproved evs) as Hle.
    pose proof (len_nonneg (List.filter Coordinator.isApproved evs)) as H0.
    assert (Hpos : (0 < Coordinator.len evs)%Z).
    { destruct evs; [contradiction|]. unfold Coordinator.len. simpl. lia. }
    set (a := Coordinator.len (List.filter Coordinator.isApproved evs)) in *.
    set (n := Coordinator.len evs) in *.
    assert (Hn : (0 < inject_Z n)%Q) by (unfold Qlt; simpl; lia).
    split.
    + apply Qle_shift_div_l; [assumption|]. unfold Qle. simpl. lia.
    + apply Qle_shift_div_r; [assumption|]. unfold Qle. simpl. lia.
Qed.

Lemma consensus_counts_and_ratio_witness :
  ratio_in_unit
    (consensusRatio (Coordinator.calculateConsensus Coordinator.new
                       [Samples.approve Samples.validator; Samples.malicious Samples.security])).
Proof.
  apply (consensus_counts_and_ratio Coordinator.new
           [Samples.approve Samples.validator; Samples.malicious Samples.security]).
  discriminate.
Defined.

(** ** Coordination sessions *)

Lemma promise_all_rejected {A : Type} (ps : list (settled A)) (m : string) :
  promise_all ps = Rejected m -> In (Rejected m) ps.
Proof.
  induction ps as [|p ps IH]; simpl; [discriminate|].
  destruct p as [a|m'].
  - destruct (promise_all ps); [discriminate|].
    intros H. injection H as ->. right. apply IH. reflexivity.
  - intros H. injection H as ->. left. reflexivity.
Qed.

Lemma promise_all_fulfilled {A : Type} (ps : list (settled A)) (l : list A) :
  promise_all ps = Fulfilled l <-> ps = List.map Fulfilled l.
Proof.
  revert l. induction ps as [|p ps IH]; intros l; simpl.
  - split; intros H.
    + injection H as <-. reflexivity.
    + destruct l; [reflexivity|discriminate].
  - destruct p as [a|m].
    + destruct (promise_all ps) as [l'|m] eqn:E.
      * split; intros H.
        -- injection H as <-. simpl. f_equal. apply IH. reflexivity.
        -- destruct l as [|b l]; [discriminate|]. simpl in H. injection H as -> ->.
           f_equal. f_equal. assert (Fulfilled l' = Fulfilled l) as H by (apply IH; reflexivity).
           injection H as ->. reflexivity.
      * split; intros H; [discriminate|].
        destruct l as [|b l]; [discriminate|]. simpl in H. injection H as -> ->.
        assert (Rejected m = Fulfilled l) as H by (apply IH; reflexivity). discriminate.
    + split; intros H; [discriminate|]. destruct l; discriminate.
Qed.

Lemma promise_all_in_rejected {A : Type} (ps : list (settled A)) (m : string) :
  In (Rejected m) ps -> exists m', promise_all ps = Rejected m'.
Proof.
  induction ps as [|p ps IH]; simpl; [contradiction|].
  intros [->|Hin]; [eauto|].
  destruct p as [a|m0]; [|eauto].
  destruct (IH Hin) as [m' ->]. eauto.
Qed.

(** The fields of the session a completed coordination returns. *)
Lemma completed_session (this : MultiAgentCoordinator) (identityData : IdentityData)
    (evaluate : IdentityAgent -> IdentityData -> settled Evaluation) (clock : Clock)
    (s : SessionRecord) :
  snd (Coordinator.coordinateIdentityDecision this identityData evaluate clock) = Completed s ->
  promise_all (dispatched this identityData evaluate) = Fulfilled (agentEvaluations s)
  /\ consensus s = Coordinator.calculateConsensus this (agentEvaluations s)
  /\ session_finalDecision s
     = Coordinator.handleByzantineFaults this (consensus s) (agentEvaluations s)
  /\ participatingAgents s = Coordinator.len (agentEvaluations s)
  /\ byzantineDetected s = existsb isByzantine (agentEvaluations s)
  /\ coordinationHistory
       (fst (Coordinator.coordinateIdentityDecision this identityData evaluate clock))
     = (let pushed := coordinationHistory this ++ [s] in
        if (50 <? Coordinator.len pushed)%Z then slice_last 50 pushed else pushed).
Proof.
  unfold Coordinator.coordinateIdentityDecision, dispatched.
  destruct (promise_all _) as [evs|m]; simpl; [|discriminate].
  intros H. injection H as <-. simpl. repeat split; reflexivity.
Qed.

Lemma failed_session (this : MultiAgentCoordinator) (identityData : IdentityData)
    (evaluate : IdentityAgent -> IdentityData -> settled Evaluation) (clock : Clock)
    (f : FailureRecord) :
  snd (Coordinator.coordinateIdentityDecision this identityData evaluate clock) = Failed f ->
  promise_all (dispatched this identityData evaluate) = Rejected (error f)
  /\ fst (Coordinator.coordinateIdentityDecision this identityData evaluate clock) = this.
Proof.
  unfold Coordinator.coordinateIdentityDecision, dispatched.
  destruct (promise_all _) as [evs|m]; simpl; [discriminate|].
  intros H. injection H as <-. split; reflexivity.
Qed.

Lemma finalDecision_field_never_equals (r : CoordinationSession) (lit : string) :
  strict_eq_string (prop_finalDecision r) lit = false.
Proof. destruct r; reflexivity. Qed.

(** C3: whatever the input, the [finalDecision] field of a returned session
    is never the decision string: on the success path it is the object built by
    [handleByzantineFaults] from the consensus and the evaluations, so that
    comparing the field with the string 'APPROVED' is false for every
    input. *)
Theorem finalDecision_field_is_object (this : MultiAgentCoordinator)
    (identityData : IdentityData)
    (evaluate : IdentityAgent -> IdentityData -> settled Evaluation) (clock : Clock) :
  let r := snd (Coordinator.coordinateIdentityDecision this identityData evaluate clock) in
  strict_eq_string (prop_finalDecision r) "APPROVED" = false
  /\ (forall s, r = Completed s ->
        prop_finalDecision r
        = JObject (Coordinator.handleByzantineFaults this
                     (Coordinator.calculateConsensus this (agentEvaluations s))
                     (agentEvaluations s))
        /\ spread (session_finalDecision s) = consensus s
        /\ (forall d, prop_finalDecision r <> JString d)).
Proof.
  intros r. split.
  - apply finalDecision_field_never_equals.
  - intros s Hs. destruct (completed_session _ _ _ _ _ Hs) as (_ & Hc & Hf & _).
    rewrite Hs. simpl. rewrite Hf, Hc. repeat split.
    + unfold Coordinator.handleByzantineFaults. destruct (_ <? _)%Z; reflexivity.
    + discriminate.
Qed.

Lemma finalDecision_field_is_object_witness :
  exists s,
    snd (Coordinator.coordinateIdentityDecision Coordinator.new Samples.vehicle
           Samples.honest Samples.noon) = Completed s
    /\ finalDecision (session_finalDecision s) = "APPROVED"
    /\ forall d, JObject (session_finalDecision s) <> JString d.
Proof.
  eexists. split; [reflexivity|]. split; [reflexivity|].
  apply (proj2 (finalDecision_field_is_object Coordinator.new Samples.vehicle
                  Samples.honest Samples.noon) _ eq_refl).
Defined.

(** C4: in a session over any evaluation list (non-empty or not), if some evaluation is
    Byzantine-flagged the final decision is the recommendation of the consensus
    recomputed over the non-Byzantine evaluations, and the fault record holds
    the number of flagged evaluations, their agent ids, the original and the
    corrected decision and faultTolerant = true; if none is flagged the final
    decision is the original recommendation and the record counts 0. *)
Theorem byzantine_handling (this : MultiAgentCoordinator) (identityData : IdentityData)
    (evaluate : IdentityAgent -> IdentityData -> settled Evaluation) (clock : Clock)
    (s : SessionRecord) :
  snd (Coordinator.coordinateIdentityDecision this identityData evaluate clock) = Completed s ->
  let flagged := List.filter isByzantine (agentEvaluations s) in
  let honest := List.filter (fun e => negb (isByzantine e)) (agentEvaluations s) in
  let record := byzantineFaultHandling (session_finalDecision s) in
  (flagged <> [] ->
     finalDecision (session_finalDecision s)
     = recommendedDecision (Coordinator.calculateConsensus this honest)
     /\ byzantineAgentsDetected record = Coordinator.len flagged
     /\ byzantineAgentIds record = Some (List.map agentId flagged)
     /\ originalDecision record = Some (recommendedDecision (consensus s))
     /\ correctedDecision record
        = Some (recommendedDecision (Coordinator.calculateConsensus this honest))
     /\ faultTolerant record = true)
  /\ (flagged = [] ->
        finalDecision (session_finalDecision s) = recommendedDecision (consensus s)
        /\ byzantineAgentsDetected record = 0%Z).
Proof.
  intros Hs flagged honest record.
  destruct (completed_session _ _ _ _ _ Hs) as (_ & _ & Hf & _).
  subst record. rewrite Hf. unfold Coordinator.handleByzantineFaults.
  fold flagged. fold honest. split; intros Hflag.
  - assert (H : (0 <? Coordinator.len flagged)%Z = true).
    { destruct flagged; [contradiction|]. reflexivity. }
    rewrite H. simpl. repeat split; reflexivity.
  - rewrite Hflag. simpl. split; reflexivity.
Qed.

Lemma byzantine_handling_witness :
  exists s,
    snd (Coordinator.coordinateIdentityDecision Samples.attacked Samples.vehicle
           Samples.honest Samples.noon) = Completed s
    /\ finalDecision (session_finalDecision s) = "APPROVED"
    /\ byzantineAgentsDetected (byzantineFaultHandling (session_finalDecision s)) = 1%Z
    /\ byzantineAgentIds (byzantineFaultHandling (session_finalDecision s))
       = Some ["agent-security-003"].
Proof.
  eexists. split; [reflexivity|].
  destruct (byzantine_handling Samples.attacked Samples.vehicle Samples.honest Samples.noon
              _ eq_refl) as [Hflagged _].
  destruct Hflagged as (Hd & Hn & Hids & _); [discriminate|].
  rewrite Hd, Hn, Hids. repeat split; reflexivity.
Defined.

(** ** Failure of a coordination *)




(** ** Bounded histories *)

Section PushTrim.

Context {A : Type}.

Lemma pushTrim_fifo (n : nat) (l : list A) (x : A) :
  (0 < n)%nat -> (length l <= n)%nat ->
  pushTrim n l x = if (length l <? n)%nat then l ++ [x] else tl l ++ [x].
Proof.
  intros Hn Hl. unfold pushTrim, Coordinator.len, slice_last.
  rewrite length_app. simpl.
  destruct (Nat.ltb_spec (length l) n) as [Hlt|Hge].
  - destruct (Z.ltb_spec (Z.of_nat n) (Z.of_nat (length l + 1))) as [H|H]; [lia|reflexivity].
  - destruct (Z.ltb_spec (Z.of_nat n) (Z.of_nat (length l + 1))) as [H|H]; [|lia].
    replace (length l + 1 - n)%nat with 1%nat by lia.
    destruct l as [|y l]; [simpl in *; lia|]. reflexivity.
Qed.

Lemma pushTrim_length (n : nat) (l : list A) (x : A) :
  (0 < n)%nat -> (length l <= n)%nat -> (length (pushTrim n l x) <= n)%nat.
Proof.
  intros Hn Hl. rewrite pushTrim_fifo by assumption.
  destruct (Nat.ltb_spec (length l) n) as [Hlt|Hge]; rewrite length_app; simpl.
  - lia.
  - destruct l; simpl in *; lia.
Qed.

End PushTrim.

Lemma coordinate_history (this : MultiAgentCoordinator) (identityData : IdentityData)
    (evaluate : IdentityAgent -> IdentityData -> settled Evaluation) (clock : Clock) :
  let out := Coordinator.coordinateIdentityDecision this identityData evaluate clock in
  coordinationHistory (fst out)
  = match snd out with
    | Completed s => pushTrim 50 (coordinationHistory this) s
    | Failed _ => coordinationHistory this
    end.
Proof.
  unfold Coordinator.coordinateIdentityDecision.
  destruct (promise_all _); reflexivity.
Qed.

Lemma explain_history (toFixed1 : jsnum -> string) (this : ExplainableDecisionEngine)
    (r : CoordinationSession) (now : string) :
  let out := Engine.explainCoordination toFixed1 this r now in
  decisionHistory (fst out)
  = match snd out with
    | inl explanation => pushTrim 100 (decisionHistory this) explanation
    | inr _ => decisionHistory this
    end.
Proof. destruct r; reflexivity. Qed.

Lemma apply_history_bound (this : MultiAgentCoordinator) (op : Coordinator.Operation) :
  (length (coordinationHistory this) <= 50)%nat ->
  (length (coordinationHistory (Coordinator.apply this op)) <= 50)%nat.
Proof.
  intros H. destruct op as [d ev clk|draw|i|i st]; simpl; try assumption.
  rewrite coordinate_history. destruct (snd _); [|assumption].
  apply pushTrim_length; [lia|assumption].
Qed.

Lemma run_history_bound (ops : list Coordinator.Operation) (this : MultiAgentCoordinator) :
  (length (coordinationHistory this) <= 50)%nat ->
  (length (coordinationHistory (Coordinator.run ops this)) <= 50)%nat.
Proof.
  revert this. induction ops as [|op ops IH]; intros this H; simpl; [assumption|].
  apply IH, apply_history_bound, H.
Qed.

Lemma engine_run_history_bound (toFixed1 : jsnum -> string)
    (requests : list (CoordinationSession * string)) (this : ExplainableDecisionEngine) :
  (length (decisionHistory this) <= 100)%nat ->
  (length (decisionHistory (Engine.run toFixed1 requests this)) <= 100)%nat.
Proof.
  revert this. induction requests as [|[r now] requests IH]; intros this H; simpl; [assumption|].
  apply IH. rewrite explain_history. destruct (snd _); [|assumption].
  apply pushTrim_length; [lia|assumption].
Qed.



Example fifty_first_session_evicts_oldest :
  List.map coordinationId
    (coordinationHistory (Coordinator.run (Samples.decisions 51) Coordinator.new))
  = List.map (fun i => "coord-" +:+ show (Z.of_nat i)) (seq 1 50).
Proof. vm_compute. reflexivity. Qed.

Example hundred_and_first_explanation_evicts_oldest :
  List.map explanation_coordinationId
    (decisionHistory (Engine.run Samples.noDigits (Samples.explanations 101) Engine.new))
  = List.map (fun i => "coord-" +:+ show (Z.of_nat i)) (seq 1 100).
Proof. vm_compute. reflexivity. Qed.

Example allMalicious_is_a_session :
  snd (Coordinator.coordinateIdentityDecision Samples.allAttacked Samples.vehicle
         Samples.honest Samples.noon) = Completed Samples.allMalicious.
Proof. vm_compute. reflexivity. Qed.

Example allApproved_is_a_session :
  snd (Coordinator.coordinateIdentityDecision Coordinator.new Samples.vehicle
         Samples.honest Samples.noon) = Completed Samples.allApproved.
Proof. vm_compute. reflexivity. Qed.

(** ** Weighted confidence *)

Lemma Qlt_bool_iff (a b : Q) : Qlt_bool a b = true <-> (a < b)%Q.
Proof.
  unfold Qlt_bool. rewrite negb_true_iff. split; intros H.
  - apply Qnot_le_lt. intros Hle. apply Qle_bool_iff in Hle. congruence.
  - destruct (Qle_bool b a) eqn:E; [|reflexivity].
    apply Qle_bool_iff in E. exfalso. apply (Qlt_not_le _ _ H E).
Qed.

Lemma weightOf_table (specialization : string) :
  Engine.weightOf Engine.new specialization = spec_weight specialization.
Proof.
  unfold Engine.weightOf, spec_weight, Engine.new. cbn [confidenceWeights].
  destruct (String.eqb_spec specialization "validator") as [->|Hv].
  { rewrite lookup_insert_eq. reflexivity. }
  rewrite lookup_insert_ne by congruence.
  destruct (String.eqb_spec specialization "consensus") as [->|Hc].
  { rewrite lookup_insert_eq. reflexivity. }
  rewrite lookup_insert_ne by congruence.
  destruct (String.eqb_spec specialization "security") as [->|Hs].
  { rewrite lookup_insert_eq. reflexivity. }
  rewrite lookup_insert_ne by congruence.
  rewrite lookup_empty. reflexivity.
Qed.

Lemma spec_weight_pos (specialization : string) : (0 < spec_weight specialization)%Q.
Proof.
  unfold spec_weight.
  repeat match goal with |- context [String.eqb ?a ?b] => destruct (String.eqb a b) end;
    reflexivity.
Qed.

Lemma accumulate_sums (evaluations : list Evaluation) (a b : Q) :
  let honest := honestOf evaluations in
  let out := fold_left (Engine.accumulate Engine.new) evaluations (a, b) in
  (fst out == a + Qsum (List.map (fun e => confidence e * spec_weight (specialization e)) honest))%Q
  /\ (snd out == b + Qsum (List.map (fun e => spec_weight (specialization e)) honest))%Q.
Proof.
  revert a b. induction evaluations as [|e evaluations IH]; intros a b; simpl.
  - split; ring.
  - unfold honestOf in *. simpl. destruct (isByzantine e); simpl.
    + apply IH.
    + rewrite weightOf_table. destruct (IH (a + confidence e * spec_weight (specialization e))%Q
                                           (b + spec_weight (specialization e))%Q) as [H1 H2].
      simpl in H1, H2. split.
      * rewrite H1. ring.
      * rewrite H2. ring.
Qed.

Lemma Qsum_weights_pos (l : list Evaluation) :
  l <> [] -> (0 < Qsum (List.map (fun e => spec_weight (specialization e)) l))%Q.
Proof.
  destruct l as [|e l]; [contradiction|]. intros _. simpl.
  assert (H : (0 <= Qsum (List.map (fun e => spec_weight (specialization e)) l))%Q).
  { induction l as [|x l IH]; simpl; [apply Qle_refl|].
    pose proof (spec_weight_pos (specialization x)). lra. }
  pose proof (spec_weight_pos (specialization e)). lra.
Qed.

Lemma honestOf_nil_iff (evaluations : list Evaluation) :
  honestOf evaluations = [] <-> forallb isByzantine evaluations = true.
Proof.
  unfold honestOf. induction evaluations as [|e l IH]; simpl; [tauto|].
  destruct (isByzantine e); simpl; [exact IH|]. split; discriminate.
Qed.



(** ** Anomaly score *)

Lemma anomaly_is_spec (this : ExplainableDecisionEngine) (s : SessionRecord) :
  (Engine.calculateAnomalyScore this s == spec_anomalyScore (triggers s))%Q.
Proof.
  unfold Engine.calculateAnomalyScore, spec_anomalyScore, triggers.
  cbn [slow lowRatio byzantine lowConfidence].
  destruct (3000 <? processingTime s)%Z, (js_lt (consensusRatio (consensus s)) 0.7),
    (byzantineDetected s), (js_lt (averageConfidence (consensus s)) 0.5);
    vm_compute; reflexivity.
Qed.

Lemma spec_anomaly_monotone (t t' : Triggers) :
  triggers_le t t' -> (spec_anomalyScore t <= spec_anomalyScore t')%Q.
Proof.
  destruct t as [a b c d], t' as [a' b' c' d'].
  unfold triggers_le. cbn [slow lowRatio byzantine lowConfidence].
  intros (Ha & Hb & Hc & Hd).
  destruct a; [rewrite (Ha eq_refl)|clear Ha];
  destruct b; [rewrite (Hb eq_refl)| |rewrite (Hb eq_refl)|]; clear Hb;
  destruct c; try rewrite (Hc eq_refl); clear Hc;
  destruct d; try rewrite (Hd eq_refl); clear Hd;
  try destruct a'; try destruct b'; try destruct c'; try destruct d';
  vm_compute; discriminate.
Qed.

(** C9: the anomaly score of a session is the sum of 0.3 if the processing
    time exceeds 3000 ms, 0.4 if the consensus ratio is below 0.7, 0.5 if a
    Byzantine evaluation was detected and 0.6 if the mean confidence is below
    0.5, clamped to at most 1; a session that fires every trigger another one
    fires scores at least as much; and Byzantine detection with a low ratio and
    a low confidence scores exactly 1. *)
Theorem anomaly_score (this : ExplainableDecisionEngine) (s : SessionRecord) :
  (Engine.calculateAnomalyScore this s == spec_anomalyScore (triggers s))%Q
  /\ (forall s', triggers_le (triggers s) (triggers s') ->
        (Engine.calculateAnomalyScore this s <= Engine.calculateAnomalyScore this s')%Q)
  /\ (byzantineDetected s = true ->
      js_lt (consensusRatio (consensus s)) 0.7 = true ->
      js_lt (averageConfidence (consensus s)) 0.5 = true ->
      (Engine.calculateAnomalyScore this s == 1)%Q).
Proof.
  split; [apply anomaly_is_spec|split].
  - intros s' Hle. rewrite !anomaly_is_spec. apply spec_anomaly_monotone, Hle.
  - intros Hb Hr Hc. unfold Engine.calculateAnomalyScore. rewrite Hb, Hr, Hc.
    destruct (3000 <? processingTime s)%Z; vm_compute; reflexivity.
Qed.

Lemma anomaly_score_witness :
  (Engine.calculateAnomalyScore Engine.new Samples.allApproved
   <= Engine.calculateAnomalyScore Engine.new Samples.contested)%Q
  /\ (Engine.calculateAnomalyScore Engine.new Samples.contested == 1)%Q.
Proof.
  split.
  - apply (proj1 (proj2 (anomaly_score Engine.new Samples.allApproved))).
    vm_compute. repeat split; discriminate.
  - apply (proj2 (proj2 (anomaly_score Engine.new Samples.contested))); reflexivity.
Defined.

(** ** Vehicle health score *)

Lemma updateHealthScore_reading (this : VehicleDigitalTwin) :
  healthScore (Vehicle.updateHealthScore this) = Vehicle.healthOfReading (currentState this).
Proof.
  unfold Vehicle.updateHealthScore, Vehicle.healthOfReading. cbn [healthScore].
  destruct (Qlt_bool 100 (engineTemp (currentState this))),
    (Qlt_bool 90 (engineTemp (currentState this))),
    (Qlt_bool (oilPressure (currentState this)) 25),
    (Qlt_bool (batteryVoltage (currentState this)) 12.0);
    f_equal; lia.
Qed.

(** C10 as stated fails: an engine temperature of 95 (above 90, not above
    100) costs 10 points, which the deduction table of the claim lacks. *)
Lemma warm_engine_deducts_ten :
  healthScore (Vehicle.updateHealthScore Samples.warmTwin) = 90%Z
  /\ Vehicle.spec_healthScore (currentState Samples.warmTwin) = 100%Z
  /\ healthScore (Vehicle.updateHealthScore Samples.warmTwin)
     <> Vehicle.spec_healthScore (currentState Samples.warmTwin).
Proof. repeat split. vm_compute. discriminate. Qed.

(** C10 (amended): the recomputed health score of a vehicle twin is a
    function of the current reading only: from 100, deduct 20 if the engine
    temperature is above 100 and otherwise 10 if it is above 90, 15 if the oil
    pressure is below 25, 10 if the battery voltage is below 12.0 and 5 per
    active diagnostic code, floored at 0; two twins with the same current
    reading get the same score whatever their telemetry history, and the score
    after a telemetry tick is that of the new reading. *)
Theorem health_score_of_current_reading (this : VehicleDigitalTwin) :
  healthScore (Vehicle.updateHealthScore this) = Vehicle.healthOfReading (currentState this)
  /\ (0 <= healthScore (Vehicle.updateHealthScore this) <= 100)%Z
  /\ (forall other,
        currentState other = currentState this ->
        healthScore (Vehicle.updateHealthScore other)
        = healthScore (Vehicle.updateHealthScore this))
  /\ (forall r,
        healthScore (Vehicle.updateTelemetryData this r)
        = Vehicle.healthOfReading (currentState (Vehicle.updateTelemetryData this r))).
Proof.
  split; [apply updateHealthScore_reading|split; [|split]].
  - rewrite updateHealthScore_reading. unfold Vehicle.healthOfReading.
    pose proof (len_nonneg (diagnosticCodes (currentState this))).
    destruct (Qlt_bool 100 (engineTemp (currentState this))),
      (Qlt_bool 90 (engineTemp (currentState this))),
      (Qlt_bool (oilPressure (currentState this)) 25),
      (Qlt_bool (batteryVoltage (currentState this)) 12.0); lia.
  - intros other Hsame. rewrite !updateHealthScore_reading, Hsame. reflexivity.
  - intros r. unfold Vehicle.updateTelemetryData.
    rewrite updateHealthScore_reading. reflexivity.
Qed.

Lemma health_score_of_current_reading_witness :
  healthScore (Vehicle.updateHealthScore Samples.warmTwinWithHistory)
  = healthScore (Vehicle.updateHealthScore Samples.warmTwin).
Proof.
  apply (proj1 (proj2 (proj2 (health_score_of_current_reading Samples.warmTwin)))).
  reflexivity.
Defined.

(** ** Twin creation *)

Lemma createPetTwin_rejects (this : DigitalTwinManager) (coordinator : MultiAgentCoordinator)
    (petId : string) (metadata : Metadata) (w : World) (r : PetDraws) :
  Manager.createPetTwin this coordinator petId metadata w r
  = (this,
     fst (Coordinator.coordinateIdentityDecision coordinator
            {| id := "PET-TWIN-" +:+ petId; type := "pet-twin";
               metadata := Some (metadata ∪ {["petId" := petId]}) |}
            (evaluate w) (clock w)),
     inr "Pet twin creation rejected by multi-agent consensus").
Proof.
  unfold Manager.createPetTwin.
  destruct (Coordinator.coordinateIdentityDecision _ _ _ _) as [c res].
  rewrite finalDecision_field_never_equals. reflexivity.
Qed.

Lemma createIoTTwin_rejects (this : DigitalTwinManager) (coordinator : MultiAgentCoordinator)
    (deviceId : string) (metadata : Metadata) (w : World) (r : IoTDraws) :
  Manager.createIoTTwin this coordinator deviceId metadata w r
  = (this,
     fst (Coordinator.coordinateIdentityDecision coordinator
            {| id := "IOT-TWIN-" +:+ deviceId; type := "iot-twin";
               metadata := Some (metadata ∪ {["deviceId" := deviceId]}) |}
            (evaluate w) (clock w)),
     inr "IoT twin creation rejected by multi-agent consensus").
Proof.
  unfold Manager.createIoTTwin.
  destruct (Coordinator.coordinateIdentityDecision _ _ _ _) as [c res].
  rewrite finalDecision_field_never_equals. reflexivity.
Qed.

Lemma createDigitalTwin_rejects (this : DigitalTwinManager)
    (coordinator : MultiAgentCoordinator)
    (vin : string) (metadata : Metadata) (w : World) (r : VehicleDraws) :
  Manager.createDigitalTwin this coordinator vin metadata w r
  = match VINAuthenticator.validateVIN vin with
    | VinInvalid reason _ => (this, coordinator, inr ("Invalid VIN: " +:+ reason))
    | VinValid _ _ _ =>
        (this,
         fst (Coordinator.coordinateIdentityDecision coordinator
                {| id := "TWIN-" +:+ vin; type := "vehicle-twin";
                   metadata := Some (metadata ∪ {["vin" := vin]}) |}
                (evaluate w) (clock w)),
         inr "Digital twin creation rejected by multi-agent consensus")
    end.
Proof.
  unfold Manager.createDigitalTwin.
  destruct (VINAuthenticator.validateVIN vin); [reflexivity|].
  destruct (Coordinator.coordinateIdentityDecision _ _ _ _) as [c res].
  rewrite finalDecision_field_never_equals. reflexivity.
Qed.

Example hondaVin_is_valid :
  VINAuthenticator.validateVIN Samples.hondaVin = VinValid "Honda" "Unknown" "North America".
Proof. vm_compute. reflexivity. Qed.

(** C2 (the code departs from the claim): with three online honest agents
    that all approve, the coordinated decision of the session is APPROVED, yet
    createPetTwin, createIoTTwin and createDigitalTwin each fail with the
    rejection error and store no twin under the subject id: the guard compares
    the session's [finalDecision] object with the string 'APPROVED'.  The
    first half of the claim holds: a creation that fails stores nothing. *)
Theorem approved_creation_is_rejected :
  let manager := Manager.new "2025-01-01T00:00:00.000Z" in
  Manager.coordinatedDecision
    (snd (Coordinator.coordinateIdentityDecision Coordinator.new
            {| id := "PET-TWIN-PET-1"; type := "pet-twin";
               metadata := Some (∅ ∪ {["petId" := "PET-1"]}) |}
            (evaluate Samples.world) (clock Samples.world))) = Some "APPROVED"
  /\ (let out := Manager.createPetTwin manager Coordinator.new "PET-1" ∅
                   Samples.world Samples.petDraws in
      snd out = inr "Pet twin creation rejected by multi-agent consensus"
      /\ Manager.getPetTwin (fst (fst out)) "PET-1" = None)
  /\ (let out := Manager.createIoTTwin manager Coordinator.new "IOT-1" ∅
                   Samples.world Samples.iotDraws in
      snd out = inr "IoT twin creation rejected by multi-agent consensus"
      /\ Manager.getIoTTwin (fst (fst out)) "IOT-1" = None)
  /\ (let out := Manager.createDigitalTwin manager Coordinator.new Samples.hondaVin ∅
                   Samples.world Samples.vehicleDraws in
      snd out = inr "Digital twin creation rejected by multi-agent consensus"
      /\ Manager.getDigitalTwin (fst (fst out)) Samples.hondaVin = None)
  /\ (forall this coordinator subject metadata w rp ri rv,
        fst (fst (Manager.createPetTwin this coordinator subject metadata w rp)) = this
        /\ fst (fst (Manager.createIoTTwin this coordinator subject metadata w ri)) = this
        /\ fst (fst (Manager.createDigitalTwin this coordinator subject metadata w rv)) = this).
Proof.
  intros manager. split; [vm_compute; reflexivity|].
  split; [|split; [|split]].
  - rewrite createPetTwin_rejects. split; reflexivity.
  - rewrite createIoTTwin_rejects. split; reflexivity.
  - rewrite createDigitalTwin_rejects, hondaVin_is_valid. split; reflexivity.
  - intros. rewrite createPetTwin_rejects, createIoTTwin_rejects, createDigitalTwin_rejects.
    destruct (VINAuthenticator.validateVIN subject); repeat split; reflexivity.
Qed.

(** * Further properties of the code *)

(** ** Agents *)

Lemma evaluateIdentity_cases (this : IdentityAgent) (identityData : IdentityData)
    (r : Draws) :
  let e := Agent.evaluateIdentity this identityData r in
  (e = Agent.generateResponse this identityData r
   /\ decision e = "APPROVED" /\ isByzantine e = false)
  \/ (e = Agent.generateByzantineResponse this identityData r
      /\ decision e = "REJECTED" /\ isByzantine e = true
      /\ agent_isByzantine this = true).
Proof.
  unfold Agent.evaluateIdentity.
  destruct (agent_isByzantine this) eqn:Hb; simpl.
  - destruct (Qlt_bool (byzantineDraw r) 0.3); [right|left]; repeat split; reflexivity.
  - left. repeat split; reflexivity.
Qed.



(** ** Decisions of the source's agents *)

Lemma apply_threshold (this : MultiAgentCoordinator) (op : Coordinator.Operation) :
  consensusThreshold (Coordinator.apply this op) = consensusThreshold this.
Proof.
  destruct op as [d ev clk|draw|i|i st]; simpl; try reflexivity.
  unfold Coordinator.coordinateIdentityDecision. destruct (promise_all _); reflexivity.
Qed.

Lemma run_threshold (ops : list Coordinator.Operation) (this : MultiAgentCoordinator) :
  consensusThreshold (Coordinator.run ops this) = consensusThreshold this.
Proof.
  revert this. induction ops as [|op ops IH]; intros this; simpl; [reflexivity|].
  unfold Coordinator.run in IH. rewrite IH. apply apply_threshold.
Qed.

Lemma filter_all {A : Type} (f : A -> bool) (l : list A) :
  forallb f l = true -> List.filter f l = l.
Proof.
  induction l as [|x l IH]; simpl; [reflexivity|].
  destruct (f x); simpl; [|discriminate]. intros H. f_equal. apply IH, H.
Qed.

Lemma filter_none {A : Type} (f : A -> bool) (l : list A) :
  forallb (fun x => negb (f x)) l = true -> List.filter f l = [].
Proof.
  induction l as [|x l IH]; simpl; [reflexivity|].
  destruct (f x); simpl; [discriminate|]. exact IH.
Qed.

Lemma forallb_filter {A : Type} (f : A -> bool) (l : list A) :
  forallb f (List.filter f l) = true.
Proof.
  induction l as [|x l IH]; simpl; [reflexivity|].
  destruct (f x) eqn:E; simpl; [rewrite E|]; exact IH.
Qed.

(** Unanimous approval: the ratio is 1, or NaN over no evaluation. *)
Lemma unanimous_recommendation (this : MultiAgentCoordinator) (evs : list Evaluation) :
  (consensusThreshold this <= 1)%Q ->
  forallb Coordinator.isApproved evs = true ->
  recommendedDecision (Coordinator.calculateConsensus this evs)
  = match evs with [] => "REJECTED" | _ :: _ => "APPROVED" end.
Proof.
  intros Hth Hall. unfold Coordinator.calculateConsensus. cbn [recommendedDecision].
  rewrite (filter_all _ _ Hall).
  destruct evs as [|e evs]; [reflexivity|].
  rewrite jsdiv_finite.
  - simpl. assert (H : Qle_bool (consensusThreshold this)
                         (inject_Z (Coordinator.len (e :: evs))
                          / inject_Z (Coordinator.len (e :: evs))) = true).
    { apply Qle_bool_iff.
      assert (Heq : (inject_Z (Coordinator.len (e :: evs))
                     / inject_Z (Coordinator.len (e :: evs)) == 1)%Q).
      { unfold Qdiv. apply Qmult_inv_r, inject_Z_nonzero.
        unfold Coordinator.len. simpl. lia. }
      rewrite Heq. assumption. }
    rewrite H. reflexivity.
  - apply inject_Z_nonzero. unfold Coordinator.len. simpl. lia.
Qed.

Lemma source_dispatch (random : string -> Draws) (this : MultiAgentCoordinator)
    (identityData : IdentityData) :
  promise_all (dispatched this identityData (Coordinator.sourceEvaluate random))
  = Fulfilled (sourceEvaluations random this identityData).
Proof.
  apply promise_all_fulfilled. unfold dispatched, sourceEvaluations.
  rewrite List.map_map. reflexivity.
Qed.

Lemma source_evaluations_honest_approve (random : string -> Draws)
    (this : MultiAgentCoordinator) (identityData : IdentityData) :
  Forall (fun e => Coordinator.isApproved e = negb (isByzantine e))
         (sourceEvaluations random this identityData).
Proof.
  unfold sourceEvaluations. apply List.Forall_forall. intros e He.
  apply in_map_iff in He. destruct He as (a & <- & _).
  destruct (evaluateIdentity_cases a identityData (random (agent_agentId a)))
    as [(_ & Hd & Hb)|(_ & Hd & Hb & _)];
    unfold Coordinator.isApproved; rewrite Hd, Hb; reflexivity.
Qed.

Lemma honest_all_approved (evs : list Evaluation) :
  Forall (fun e => Coordinator.isApproved e = negb (isByzantine e)) evs ->
  forallb Coordinator.isApproved (honestOf evs) = true.
Proof.
  unfold honestOf. induction 1 as [|e evs He _ IH]; simpl; [reflexivity|].
  destruct (isByzantine e) eqn:Hb; simpl; [exact IH|].
  rewrite He, IH. reflexivity.
Qed.

Lemma no_flag_honest (evs : list Evaluation) :
  List.filter isByzantine evs = [] -> honestOf evs = evs.
Proof.
  unfold honestOf. induction evs as [|e evs IH]; simpl; [reflexivity|].
  destruct (isByzantine e); simpl; [discriminate|]. intros H. f_equal. apply IH, H.
Qed.

(** The nested decision of [handleByzantineFaults] is the recommendation over
    the non-Byzantine evaluations, flagged or not. *)
Lemma final_decision_over_honest (this : MultiAgentCoordinator) (evs : list Evaluation) :
  finalDecision (Coordinator.handleByzantineFaults this
                   (Coordinator.calculateConsensus this evs) evs)
  = recommendedDecision (Coordinator.calculateConsensus this (honestOf evs)).
Proof.
  unfold Coordinator.handleByzantineFaults.
  destruct (List.filter isByzantine evs) as [|b l] eqn:E.
  - simpl. rewrite (no_flag_honest _ E). reflexivity.
  - reflexivity.
Qed.



(** ** The consensus threshold in whole numbers *)

(** X3: over a non-empty evaluation list the constructor's coordinator
    reports consensus exactly when 100 * approvals >= 67 * totalAgents; with
    three evaluations that is unanimity (two approvals of three are not
    enough). *)
Theorem consensus_needs_67_percent (evs : list Evaluation) :
  evs <> [] ->
  let c := Coordinator.calculateConsensus Coordinator.new evs in
  (consensusAchieved c = true <-> (67 * totalAgents c <= 100 * approvals c)%Z)
  /\ (totalAgents c = 3%Z -> (consensusAchieved c = true <-> approvals c = 3%Z)).
Proof.
  intros Hne c.
  assert (Hfirst : consensusAchieved c = true <-> (67 * totalAgents c <= 100 * approvals c)%Z).
  { subst c. unfold Coordinator.calculateConsensus.
    cbn [consensusAchieved totalAgents approvals consensusThreshold Coordinator.new].
    set (a := Coordinator.len (List.filter Coordinator.isApproved evs)).
    set (n := Coordinator.len evs).
    assert (Hn : (0 < n)%Z).
    { subst n. destruct evs; [contradiction|]. unfold Coordinator.len. simpl. lia. }
    rewrite jsdiv_finite by (apply inject_Z_nonzero; lia).
    simpl. rewrite Qle_bool_iff.
    assert (Hq : (0 < inject_Z n)%Q) by (unfold Qlt; simpl; lia).
    split; intros H.
    - apply (Qmult_le_r _ _ (inject_Z n)) in H; [|assumption].
      assert (Heq : (inject_Z a / inject_Z n * inject_Z n == inject_Z a)%Q).
      { field. intros Hz. apply (inject_Z_nonzero n); [lia|exact Hz]. }
      rewrite Heq in H. unfold Qle in H. simpl in H. lia.
    - apply Qle_shift_div_l; [assumption|]. unfold Qle. simpl. lia. }
  split; [exact Hfirst|].
  intros H3. rewrite Hfirst, H3.
  pose proof (len_filter_le Coordinator.isApproved evs) as Hle.
  subst c. unfold Coordinator.calculateConsensus in *. cbn [approvals totalAgents] in *.
  lia.
Qed.

Lemma consensus_needs_67_percent_witness :
  let c := Coordinator.calculateConsensus Coordinator.new
             [Samples.approve Samples.validator; Samples.approve Samples.consensusAgent;
              Samples.approve Samples.security] in
  consensusAchieved c = true <-> approvals c = 3%Z.
Proof.
  apply (proj2 (consensus_needs_67_percent
                  [Samples.approve Samples.validator; Samples.approve Samples.consensusAgent;
                   Samples.approve Samples.security] ltac:(discriminate))).
  reflexivity.
Defined.

(** ** Coherence of a session record *)

Lemma existsb_filter {A : Type} (f : A -> bool) (l : list A) :
  existsb f l = (0 <? Coordinator.len (List.filter f l))%Z.
Proof.
  induction l as [|x l IH]; simpl; [reflexivity|].
  destruct (f x); simpl; [|exact IH].
  unfold Coordinator.len. simpl. symmetry. apply Z.ltb_lt. lia.
Qed.

Lemma len_filter_split {A : Type} (f : A -> bool) (l : list A) :
  (Coordinator.len (List.filter f l)
   + Coordinator.len (List.filter (fun x => negb (f x)) l) = Coordinator.len l)%Z.
Proof.
  unfold Coordinator.len. induction l as [|x l IH]; simpl; [reflexivity|].
  destruct (f x); simpl; lia.
Qed.

(** X4: in every completed session the [byzantineDetected] flag is set
    exactly when the fault record counts at least one Byzantine agent, which
    is exactly when the record lists agent ids; the participating agents are
    the consensus's total, and they split into the flagged and the
    non-Byzantine evaluations. *)
Theorem session_flags_agree (this : MultiAgentCoordinator) (identityData : IdentityData)
    (evaluate : IdentityAgent -> IdentityData -> settled Evaluation) (clock : Clock)
    (s : SessionRecord) :
  snd (Coordinator.coordinateIdentityDecision this identityData evaluate clock) = Completed s ->
  let record := byzantineFaultHandling (session_finalDecision s) in
  byzantineDetected s = (0 <? byzantineAgentsDetected record)%Z
  /\ (byzantineDetected s = true <-> byzantineAgentIds record <> None)
  /\ participatingAgents s = totalAgents (consensus s)
  /\ participatingAgents s
     = (byzantineAgentsDetected record
        + Coordinator.len (honestOf (agentEvaluations s)))%Z.
Proof.
  intros Hs record.
  destruct (completed_session _ _ _ _ _ Hs) as (_ & Hc & Hf & Hp & Hb & _).
  subst record. rewrite Hf, Hb, Hp, Hc.
  pose proof (len_filter_split isByzantine (agentEvaluations s)) as Hsplit.
  rewrite existsb_filter. unfold Coordinator.handleByzantineFaults, honestOf.
  destruct (0 <? Coordinator.len (List.filter isByzantine (agentEvaluations s)))%Z eqn:E;
    cbn [byzantineFaultHandling byzantineAgentsDetected byzantineAgentIds
         Coordinator.calculateConsensus totalAgents].
  - rewrite E. repeat split; try discriminate; try reflexivity. lia.
  - repeat split; try discriminate; try congruence.
    apply Z.ltb_ge in E. pose proof (len_nonneg (List.filter isByzantine (agentEvaluations s))).
    lia.
Qed.

Lemma session_flags_agree_witness :
  exists s,
    snd (Coordinator.coordinateIdentityDecision Samples.attacked Samples.vehicle
           Samples.honest Samples.noon) = Completed s
    /\ byzantineDetected s = true
    /\ participatingAgents s = (1 + 2)%Z.
Proof.
  eexists. split; [reflexivity|].
  destruct (session_flags_agree Samples.attacked Samples.vehicle Samples.honest Samples.noon
              _ eq_refl) as (Hb & _ & _ & Hp).
  rewrite Hb, Hp. split; reflexivity.
Defined.

(** ** Reading the histories *)

Lemma slice_neg_positive {A : Type} (limit : Z) (l : list A) :
  (0 < limit)%Z -> rev (slice_neg limit l) = firstn (Z.to_nat limit) (rev l).
Proof.
  intros Hpos. unfold slice_neg.
  destruct (Z.ltb_spec (- limit) 0) as [_|H]; [|lia].
  rewrite firstn_rev. f_equal. f_equal. lia.
Qed.

Lemma slice_neg_zero {A : Type} (l : list A) : slice_neg 0 l = l.
Proof. unfold slice_neg. simpl. destruct (length l); reflexivity. Qed.

Lemma slice_neg_negative {A : Type} (limit : Z) (l : list A) :
  (limit < 0)%Z -> slice_neg limit l = skipn (Z.to_nat (- limit)) l.
Proof.
  intros Hneg. unfold slice_neg.
  destruct (Z.ltb_spec (- limit) 0) as [H|_]; [lia|].
  destruct (Z.min_spec (- limit) (Z.of_nat (length l))) as [[_ ->]|[Hle ->]]; [reflexivity|].
  rewrite Nat2Z.id. rewrite !skipn_all2; [reflexivity|lia|lia].
Qed.

(** X5: [getCoordinationHistory(limit)], [getDecisionHistory(limit)] and
    [getRecentMessages(limit)] return, for a positive limit, the [limit] most
    recent entries, newest first (all of them when there are fewer); for limit
    0 they return the whole history, newest first, since [slice(-0)] is the
    whole array; for a negative limit they drop the -limit oldest entries. *)
Theorem history_queries (coordinator : MultiAgentCoordinator)
    (engine : ExplainableDecisionEngine) (mqtt : MQTTSimulator) (limit : Z) :
  ((0 < limit)%Z ->
     Coordinator.getCoordinationHistory coordinator limit
     = firstn (Z.to_nat limit) (rev (coordinationHistory coordinator))
     /\ Engine.getDecisionHistory engine limit
        = firstn (Z.to_nat limit) (rev (decisionHistory engine))
     /\ MQTT.getRecentMessages mqtt limit
        = firstn (Z.to_nat limit) (rev (messageQueue mqtt)))
  /\ (limit = 0%Z ->
        Coordinator.getCoordinationHistory coordinator limit
        = rev (coordinationHistory coordinator)
        /\ Engine.getDecisionHistory engine limit = rev (decisionHistory engine)
        /\ MQTT.getRecentMessages mqtt limit = rev (messageQueue mqtt))
  /\ ((limit < 0)%Z ->
        Coordinator.getCoordinationHistory coordinator limit
        = rev (skipn (Z.to_nat (- limit)) (coordinationHistory coordinator))
        /\ Engine.getDecisionHistory engine limit
           = rev (skipn (Z.to_nat (- limit)) (decisionHistory engine))
        /\ MQTT.getRecentMessages mqtt limit
           = rev (skipn (Z.to_nat (- limit)) (messageQueue mqtt))).
Proof.
  unfold Coordinator.getCoordinationHistory, Engine.getDecisionHistory,
    MQTT.getRecentMessages.
  split; [|split]; intros H.
  - rewrite !slice_neg_positive by assumption. repeat split; reflexivity.
  - subst limit. rewrite !slice_neg_zero. repeat split; reflexivity.
  - rewrite !slice_neg_negative by assumption. repeat split; reflexivity.
Qed.

Lemma history_queries_witness :
  let coordinator := Coordinator.run (Samples.decisions 5) Coordinator.new in
  List.map coordinationId (Coordinator.getCoordinationHistory coordinator 2)
  = ["coord-4"; "coord-3"]
  /\ List.map coordinationId (Coordinator.getCoordinationHistory coordinator 0)
     = ["coord-4"; "coord-3"; "coord-2"; "coord-1"; "coord-0"]
  /\ List.map coordinationId (Coordinator.getCoordinationHistory coordinator (-2))
     = ["coord-4"; "coord-3"; "coord-2"].
Proof.
  pose proof (history_queries (Coordinator.run (Samples.decisions 5) Coordinator.new)
                Engine.new MQTT.new) as H.
  split; [|split].
  - destruct (proj1 (H 2%Z) ltac:(reflexivity)) as [-> _]. vm_compute. reflexivity.
  - destruct (proj1 (proj2 (H 0%Z)) eq_refl) as [-> _]. vm_compute. reflexivity.
  - destruct (proj2 (proj2 (H (-2)%Z)) ltac:(reflexivity)) as [-> _]. vm_compute. reflexivity.
Defined.

(** ** The explanation routes *)

Lemma pushTrim_last {A : Type} (n : nat) (l : list A) (x : A) :
  (0 < n)%nat -> last (pushTrim n l x) = Some x.
Proof.
  intros Hn. unfold pushTrim, slice_last.
  destruct (_ <? _)%Z; [|apply last_snoc].
  rewrite length_app. simpl. rewrite skipn_app.
  replace (length l + 1 - n - length l)%nat with 0%nat by lia.
  simpl. apply last_snoc.
Qed.

Lemma recent_fifty_is_all (coordinator : MultiAgentCoordinator) :
  (length (coordinationHistory coordinator) <= 50)%nat ->
  Coordinator.getCoordinationHistory coordinator 50 = rev (coordinationHistory coordinator).
Proof.
  intros H. unfold Coordinator.getCoordinationHistory.
  rewrite slice_neg_positive by lia. apply firstn_all2. rewrite length_rev. simpl. lia.
Qed.

Lemma target_iff_approved (this : ExplainableDecisionEngine) (s : SessionRecord) :
  target (Engine.generateMLFeatures this s) = 1%Z
  <-> finalDecision (session_finalDecision s) = "APPROVED".
Proof.
  unfold Engine.generateMLFeatures, Engine.decisionOf. cbn [target].
  destruct (String.eqb_spec (finalDecision (session_finalDecision s)) "") as [E|E].
  - simpl. rewrite E. split; discriminate.
  - simpl. destruct (String.eqb_spec (finalDecision (session_finalDecision s)) "APPROVED");
      split; intros H; try reflexivity; try discriminate; congruence.
Qed.





(** ** Attack simulation *)

Lemma alter_restore (l : list IdentityAgent) (i : nat) :
  (forall a, l !! i = Some a -> agent_isByzantine a = false) ->
  alter (Coordinator.setByzantine false) i (alter (Coordinator.setByzantine true) i l) = l.
Proof.
  revert i. induction l as [|x l IH]; intros i H; [reflexivity|].
  destruct i as [|i]; simpl.
  - f_equal. specialize (H x eq_refl). destruct x; simpl in *. subst. reflexivity.
  - f_equal. apply IH. intros a Ha. apply H. exact Ha.
Qed.

Lemma random_index_in_range (draw : Q) (n : Z) :
  (0 <= draw < 1)%Q -> (0 < n)%Z ->
  (0 <= Qfloor (draw * inject_Z n) < n)%Z.
Proof.
  intros [H0 H1] Hn.
  assert (Hq : (0 < inject_Z n)%Q) by (unfold Qlt; simpl; lia).
  split.
  - change 0%Z with (Qfloor 0). apply Qfloor_resp_le.
    apply Qmult_le_0_compat; [assumption|apply Qlt_le_weak; assumption].
  - pose proof (Qfloor_le (draw * inject_Z n)) as Hfl.
    assert (Hlt : (draw * inject_Z n < inject_Z n)%Q).
    { rewrite <- (Qmult_1_l (inject_Z n)) at 2. apply Qmult_lt_r; assumption. }
    assert (H : (inject_Z (Qfloor (draw * inject_Z n)) < inject_Z n)%Q).
    { eapply Qle_lt_trans; eassumption. }
    rewrite <- Zlt_Qlt in H. exact H.
Qed.

(** X8: for a draw in [0, 1) on a non-empty roster, the attack simulation
    picks an index inside the roster, flags exactly that agent Byzantine and
    leaves every other agent, the roster's length, the threshold and the
    session history as they were; when the timer fires the agent's flag is
    cleared, and if the agent was not flagged before the attack the
    coordinator is back to what it was. *)
Theorem attack_flags_one_agent (this : MultiAgentCoordinator) (draw : Q) :
  (0 <= draw < 1)%Q -> agents this <> [] ->
  let attacked := fst (Coordinator.simulateByzantineAttack this draw) in
  let index := snd (Coordinator.simulateByzantineAttack this draw) in
  (index < length (agents this))%nat
  /\ length (agents attacked) = length (agents this)
  /\ agents attacked !! index = Coordinator.setByzantine true <$> agents this !! index
  /\ (forall j, j <> index -> agents attacked !! j = agents this !! j)
  /\ coordinationHistory attacked = coordinationHistory this
  /\ (agent_isByzantine <$> agents (Coordinator.restoreAgent attacked index) !! index)
     = Some false
  /\ ((agent_isByzantine <$> agents this !! index) = Some false ->
      Coordinator.restoreAgent attacked index = this).
Proof.
  intros Hdraw Hne attacked index. subst attacked index.
  unfold Coordinator.simulateByzantineAttack. cbn [fst snd agents coordinationHistory].
  set (i := Z.to_nat (Qfloor (draw * inject_Z (Coordinator.len (agents this))))).
  assert (Hi : (i < length (agents this))%nat).
  { subst i. pose proof (random_index_in_range draw (Coordinator.len (agents this)) Hdraw) as H.
    unfold Coordinator.len in *. destruct (agents this); [contradiction|].
    simpl length in *. lia. }
  destruct (lookup_lt_is_Some_2 (agents this) i Hi) as [a Ha].
  split; [exact Hi|]. split; [apply length_alter|].
  split; [apply list_lookup_alter_eq|].
  split; [intros j Hj; apply list_lookup_alter_ne; congruence|].
  split; [reflexivity|]. split.
  - unfold Coordinator.restoreAgent. cbn [agents].
    rewrite !list_lookup_alter_eq, Ha. reflexivity.
  - intros Hwas. unfold Coordinator.restoreAgent. cbn [agents consensusThreshold coordinationHistory].
    rewrite alter_restore.
    + destruct this; reflexivity.
    + intros b Hb. rewrite Hb in Hwas. simpl in Hwas. congruence.
Qed.

Lemma attack_flags_one_agent_witness :
  let attacked := fst (Coordinator.simulateByzantineAttack Coordinator.new 0.9) in
  snd (Coordinator.simulateByzantineAttack Coordinator.new 0.9) = 2%nat
  /\ List.map agent_isByzantine (agents attacked) = [false; false; true]
  /\ Coordinator.restoreAgent attacked 2 = Coordinator.new.
Proof.
  split; [reflexivity|]. split; [reflexivity|].
  apply (attack_flags_one_agent Coordinator.new 0.9
           ltac:(vm_compute; split; [discriminate|reflexivity]) ltac:(discriminate)).
  reflexivity.
Defined.

(** ** Confidence and anomaly ranges *)

Lemma Qsum_weighted_bounds (lo hi : Q) (l : list Evaluation) :
  (forall e, In e l -> (lo <= confidence e <= hi)%Q) ->
  (lo * Qsum (List.map (fun e => spec_weight (specialization e)) l)
   <= Qsum (List.map (fun e => confidence e * spec_weight (specialization e)) l))%Q
  /\ (Qsum (List.map (fun e => confidence e * spec_weight (specialization e)) l)
      <= hi * Qsum (List.map (fun e => spec_weight (specialization e)) l))%Q.
Proof.
  induction l as [|e l IH]; intros H; simpl.
  - split; lra.
  - destruct IH as [IHlo IHhi]; [intros x Hx; apply H; right; exact Hx|].
    destruct (H e (or_introl eq_refl)) as [Hlo Hhi].
    pose proof (spec_weight_pos (specialization e)) as Hw.
    set (w := spec_weight (specialization e)) in *.
    set (c := confidence e) in *.
    assert (H1 : (lo * w <= c * w)%Q) by (apply Qmult_le_compat_r; lra).
    assert (H2 : (c * w <= hi * w)%Q) by (apply Qmult_le_compat_r; lra).
    split; lra.
Qed.



(** X10: the anomaly score of every session lies between 0 and 1, and it is
    0 exactly when none of the four triggers fires. *)
Theorem anomaly_range (this : ExplainableDecisionEngine) (s : SessionRecord) :
  (0 <= Engine.calculateAnomalyScore this s <= 1)%Q
  /\ ((Engine.calculateAnomalyScore this s == 0)%Q
      <-> triggers s = {| slow := false; lowRatio := false; byzantine := false;
                          lowConfidence := false |}).
Proof.
  rewrite anomaly_is_spec. destruct (triggers s) as [a b c d].
  destruct a, b, c, d; (split; [split; vm_compute; discriminate|]);
    split; intros H; try reflexivity; try discriminate H;
    exfalso; vm_compute in H; discriminate H.
Qed.

(** ** Risk distribution *)

Lemma countRisk_total (c : RiskCounts) (decision : Explanation) :
  riskTotal (Routes.countRisk c decision) = (riskTotal c + 1)%Z.
Proof.
  unfold Routes.countRisk, riskTotal.
  destruct (0 <? _)%Z; [simpl; lia|].
  destruct (0 <? _)%Z; [simpl; lia|].
  destruct (Qlt_bool _ _); simpl; lia.
Qed.

Lemma js_lt_weaken (x : jsnum) (a b : Q) :
  (a <= b)%Q -> js_lt x a = true -> js_lt x b = true.
Proof.
  intros Hab. destruct x as [q| | |]; simpl; try (intros; assumption).
  rewrite !negb_true_iff. intros H.
  destruct (Qle_bool b q) eqn:E; [|reflexivity].
  apply Qle_bool_iff in E. assert (Hle : Qle_bool a q = true).
  { apply Qle_bool_iff. lra. }
  congruence.
Qed.

(** X11: [calculateRiskDistribution] counts every decision in exactly one
    of its four buckets.  An explanation made by the engine falls in HIGH when
    a Byzantine evaluation was detected, otherwise in MEDIUM when the consensus
    ratio is below 0.8, otherwise in LOW when the mean confidence is below 0.5,
    otherwise in NONE: the processing time never decides the bucket, not even
    when it adds the LOW-severity latency risk factor. *)
Theorem risk_distribution (toFixed1 : jsnum -> string) (this : ExplainableDecisionEngine)
    (decisions : list Explanation) (s : SessionRecord) (now : string) :
  (let counts := Routes.calculateRiskDistribution decisions in
   HIGH counts + MEDIUM counts + LOW counts + NONE counts = Coordinator.len decisions)%Z
  /\ (forall explanation,
        snd (Engine.explainCoordination toFixed1 this (Completed s) now) = inl explanation ->
        Routes.calculateRiskDistribution [explanation]
        = if byzantineDetected s
          then {| HIGH := 1; MEDIUM := 0; LOW := 0; NONE := 0 |}
          else if js_lt (consensusRatio (consensus s)) 0.8
          then {| HIGH := 0; MEDIUM := 1; LOW := 0; NONE := 0 |}
          else if js_lt (averageConfidence (consensus s)) 0.5
          then {| HIGH := 0; MEDIUM := 0; LOW := 1; NONE := 0 |}
          else {| HIGH := 0; MEDIUM := 0; LOW := 0; NONE := 1 |}).
Proof.
  split.
  - unfold Routes.calculateRiskDistribution.
    assert (H : forall c, riskTotal (fold_left Routes.countRisk decisions c)
                          = (riskTotal c + Coordinator.len decisions)%Z).
    { induction decisions as [|d ds IH]; intros c; simpl.
      - unfold Coordinator.len. simpl. lia.
      - rewrite IH, countRisk_total. unfold Coordinator.len. simpl length. lia. }
    specialize (H {| HIGH := 0; MEDIUM := 0; LOW := 0; NONE := 0 |}).
    unfold riskTotal in H. simpl in H. exact H.
  - intros explanation He. simpl in He. injection He as <-.
    unfold Routes.calculateRiskDistribution, Routes.countRisk. cbn [fold_left riskFactors anomalyScore].
    unfold Engine.identifyRiskFactors, Engine.calculateAnomalyScore.
    destruct (byzantineDetected s).
    { destruct (js_lt (consensusRatio (consensus s)) 0.8), (5000 <? processingTime s)%Z;
        reflexivity. }
    destruct (js_lt (consensusRatio (consensus s)) 0.8) eqn:E8.
    { destruct (5000 <? processingTime s)%Z; reflexivity. }
    assert (E7 : js_lt (consensusRatio (consensus s)) 0.7 = false).
    { destruct (js_lt (consensusRatio (consensus s)) 0.7) eqn:E7; [|reflexivity].
      apply (js_lt_weaken _ 0.7 0.8) in E7; [congruence|vm_compute; discriminate]. }
    rewrite E7.
    destruct (5000 <? processingTime s)%Z, (3000 <? processingTime s)%Z,
      (js_lt (averageConfidence (consensus s)) 0.5); reflexivity.
Qed.

Lemma risk_distribution_witness :
  exists explanation,
    snd (Engine.explainCoordination Samples.noDigits Engine.new
           (Completed Samples.contested) "2025-01-01T00:00:02.000Z") = inl explanation
    /\ Routes.calculateRiskDistribution [explanation]
       = {| HIGH := 1; MEDIUM := 0; LOW := 0; NONE := 0 |}.
Proof.
  eexists. split; [reflexivity|].
  apply (proj2 (risk_distribution Samples.noDigits Engine.new [] Samples.contested
                  "2025-01-01T00:00:02.000Z") _ eq_refl).
Defined.

(** ** Dataset export *)

Lemma Forall_skipn {A : Type} (P : A -> Prop) (n : nat) (l : list A) :
  Forall P l -> Forall P (skipn n l).
Proof.
  revert l. induction n as [|n IH]; intros l H; [exact H|].
  destruct l as [|x l]; [constructor|]. simpl. apply IH. inversion H; assumption.
Qed.

Lemma Forall_pushTrim {A : Type} (P : A -> Prop) (n : nat) (l : list A) (x : A) :
  Forall P l -> P x -> Forall P (pushTrim n l x).
Proof.
  intros Hl Hx. unfold pushTrim, slice_last.
  assert (H : Forall P (l ++ [x])) by (apply Forall_app; split; [assumption|repeat constructor; assumption]).
  destruct (_ <? _)%Z; [apply Forall_skipn|]; exact H.
Qed.

Lemma engine_run_binary (toFixed1 : jsnum -> string)
    (requests : list (CoordinationSession * string)) (this : ExplainableDecisionEngine) :
  Forall binaryTarget (decisionHistory this) ->
  Forall binaryTarget (decisionHistory (Engine.run toFixed1 requests this)).
Proof.
  revert this. induction requests as [|[r now] requests IH]; intros this H; simpl; [assumption|].
  apply IH. rewrite explain_history. destruct r as [s|f]; simpl; [|assumption].
  apply Forall_pushTrim; [assumption|].
  unfold binaryTarget, Engine.generateMLFeatures. cbn [mlFeatures target].
  destruct (strict_eq_string _ _); [right|left]; reflexivity.
Qed.

Lemma target_counts (rows : list DatasetRow) :
  Forall (fun d => row_target d = 0%Z \/ row_target d = 1%Z) rows ->
  let distribution := Engine.calculateTargetDistribution rows in
  (approved distribution + rejected distribution = total distribution)%Z.
Proof.
  unfold Engine.calculateTargetDistribution, Coordinator.len. cbn [approved rejected total].
  induction 1 as [|d rows Hd _ IH]; simpl; [reflexivity|].
  destruct Hd as [-> | ->]; simpl; simpl in IH; lia.
Qed.

(** X12: for an engine reached from the constructor by any run of
    explanations, an export counts every row as approved or rejected (approved
    + rejected = total = total_samples, because every target is 0 or 1), holds
    at most 100 rows and, for a positive limit, at most [limit] rows; the
    feature names are listed exactly when there is at least one row. *)
Theorem export_counts_every_row (toFixed1 : jsnum -> string)
    (requests : list (CoordinationSession * string)) (limit : Z) (now : string) :
  let engine := Engine.run toFixed1 requests Engine.new in
  let out := Engine.exportMLDataset engine limit now in
  let meta := dataset_metadata out in
  (approved (target_distribution meta) + rejected (target_distribution meta)
   = total (target_distribution meta))%Z
  /\ total (target_distribution meta) = total_samples meta
  /\ total_samples meta = Coordinator.len (dataset out)
  /\ (total_samples meta <= 100)%Z
  /\ ((0 < limit)%Z -> (total_samples meta <= limit)%Z)
  /\ (feature_names meta = [] <-> dataset out = []).
Proof.
  intros engine out meta. subst meta out. unfold Engine.exportMLDataset.
  cbn [dataset_metadata dataset target_distribution total_samples feature_names].
  set (rows := List.map _ (slice_neg limit (decisionHistory engine))).
  assert (Hbin : Forall binaryTarget (decisionHistory engine)).
  { subst engine. apply engine_run_binary. constructor. }
  assert (Hlen : (length (decisionHistory engine) <= 100)%nat).
  { subst engine. apply engine_run_history_bound. simpl. lia. }
  assert (Hrows : Coordinator.len rows
                  = Coordinator.len (slice_neg limit (decisionHistory engine))).
  { subst rows. unfold Coordinator.len. rewrite length_map. reflexivity. }
  split; [|split; [reflexivity|split; [reflexivity|split; [|split]]]].
  - apply target_counts. subst rows. apply Forall_map.
    unfold slice_neg. apply Forall_skipn. exact Hbin.
  - rewrite Hrows. unfold slice_neg, Coordinator.len. rewrite length_skipn. lia.
  - intros Hpos. rewrite Hrows. unfold slice_neg, Coordinator.len. rewrite length_skipn.
    destruct (Z.ltb_spec (- limit) 0); lia.
  - destruct rows; split; intros H; try reflexivity; discriminate.
Qed.

Lemma export_counts_every_row_witness :
  let out := Engine.exportMLDataset
               (Engine.run Samples.noDigits (Samples.explanations 3) Engine.new) 2
               "2025-01-01T00:00:03.000Z" in
  (total_samples (dataset_metadata out) <= 2)%Z
  /\ approved (target_distribution (dataset_metadata out)) = 2%Z.
Proof.
  split.
  - apply (export_counts_every_row Samples.noDigits (Samples.explanations 3) 2
             "2025-01-01T00:00:03.000Z"). reflexivity.
  - vm_compute. reflexivity.
Defined.

(** ** VIN check digit *)

Lemma get_nth_error (s : string) (i : nat) :
  String.get i s = nth_error (list_ascii_of_string s) i.
Proof.
  revert i. induction s as [|c s IH]; intros i; destruct i; simpl; auto.
Qed.

Lemma length_list_ascii (s : string) : length (list_ascii_of_string s) = String.length s.
Proof. induction s; simpl; auto. Qed.

Lemma regex_chars (vin : string) :
  VINAuthenticator.vinRegex vin = true ->
  String.length vin = 17%nat
  /\ forall i c, String.get i vin = Some c -> VINAuthenticator.inClass c = true.
Proof.
  unfold VINAuthenticator.vinRegex. intros H. apply andb_true_iff in H as [Hlen Hall].
  apply Nat.eqb_eq in Hlen. split; [exact Hlen|].
  intros i c Hget. rewrite get_nth_error in Hget. apply nth_error_In in Hget.
  rewrite forallb_forall in Hall. apply Hall, Hget.
Qed.

Lemma inClass_value (c : ascii) :
  VINAuthenticator.inClass c = true ->
  exists v, VINAuthenticator.charValue (Some c) = Some v /\ (0 <= v <= 9)%Z.
Proof.
  unfold VINAuthenticator.inClass. intros H. apply existsb_exists in H.
  destruct H as (x & Hin & Heq). apply Ascii.eqb_eq in Heq. subst x.
  simpl in Hin.
  repeat (destruct Hin as [<-|Hin]; [eexists; split; [cbv; reflexivity|lia]|]).
  contradiction.
Qed.

Lemma weightedSum_dot (vin : string) (ws : list Z) (i : nat) (s : Z) :
  (forall k, (k < length ws)%nat ->
             exists c, String.get (i + k) vin = Some c /\ VINAuthenticator.inClass c = true) ->
  VINAuthenticator.weightedSum vin ws i (Some s) = Some (s + dot vin ws i)%Z.
Proof.
  revert i s. induction ws as [|w ws IH]; intros i s H; simpl.
  - f_equal. lia.
  - destruct (H 0%nat ltac:(simpl; lia)) as (c & Hc & Hin).
    rewrite Nat.add_0_r in Hc. unfold valueAt. rewrite Hc.
    destruct (inClass_value c Hin) as (v & Hv & _). rewrite Hv. simpl.
    rewrite IH.
    + f_equal. lia.
    + intros k Hk. destruct (H (S k) ltac:(simpl; lia)) as (c' & Hc' & Hin').
      exists c'. split; [|exact Hin']. rewrite <- Hc'. f_equal. lia.
Qed.

Lemma dot_nonneg (vin : string) (ws : list Z) (i : nat) :
  Forall (fun w => 0 <= w)%Z ws ->
  (forall k, (k < length ws)%nat ->
             exists c, String.get (i + k) vin = Some c /\ VINAuthenticator.inClass c = true) ->
  (0 <= dot vin ws i)%Z.
Proof.
  revert i. induction ws as [|w ws IH]; intros i Hw H; simpl; [lia|].
  inversion Hw as [|? ? Hw0 Hws]; subst.
  destruct (H 0%nat ltac:(simpl; lia)) as (c & Hc & Hin).
  rewrite Nat.add_0_r in Hc. unfold valueAt at 1. rewrite Hc.
  destruct (inClass_value c Hin) as (v & Hv & Hrange). rewrite Hv. simpl.
  assert (0 <= dot vin ws (S i))%Z.
  { apply IH; [assumption|]. intros k Hk.
    destruct (H (S k) ltac:(simpl; lia)) as (c' & Hc' & Hin').
    exists c'. split; [|exact Hin']. rewrite <- Hc'. f_equal. lia. }
  nia.
Qed.

Lemma dot_ext (vin vin' : string) (ws : list Z) (i : nat) :
  (forall k w, nth_error ws k = Some w -> w <> 0%Z ->
               String.get (i + k) vin = String.get (i + k) vin') ->
  dot vin ws i = dot vin' ws i.
Proof.
  revert i. induction ws as [|w ws IH]; intros i H; simpl; [reflexivity|].
  rewrite (IH (S i)).
  - destruct (Z.eq_dec w 0) as [->|Hw]; [lia|].
    pose proof (H 0%nat w eq_refl Hw) as H0. rewrite Nat.add_0_r in H0.
    unfold valueAt. rewrite H0. reflexivity.
  - intros k w' Hk Hw'. replace (S i + k)%nat with (i + S k)%nat by lia.
    apply (H (S k) w'); assumption.
Qed.

Lemma regex_positions (vin : string) :
  VINAuthenticator.vinRegex vin = true ->
  forall k, (k < length VINAuthenticator.weights)%nat ->
            exists c, String.get (0 + k) vin = Some c /\ VINAuthenticator.inClass c = true.
Proof.
  intros Hre k Hk. destruct (regex_chars vin Hre) as [Hlen Hall].
  simpl in Hk. simpl.
  destruct (String.get k vin) as [c|] eqn:E.
  - exists c. split; [reflexivity|]. apply (Hall k c E).
  - exfalso. rewrite get_nth_error in E. apply nth_error_None in E.
    rewrite length_list_ascii in E. lia.
Qed.

Lemma checkDigit_of_dot (vin : string) :
  VINAuthenticator.vinRegex vin = true ->
  VINAuthenticator.calculateCheckDigit vin
  = (let remainder := dot vin VINAuthenticator.weights 0 mod 11 in
     if (remainder =? 10)%Z then "X" else show remainder)
  /\ (0 <= dot vin VINAuthenticator.weights 0)%Z.
Proof.
  intros Hre. unfold VINAuthenticator.calculateCheckDigit.
  rewrite (weightedSum_dot vin VINAuthenticator.weights 0 0 (regex_positions vin Hre)).
  split; [reflexivity|].
  apply dot_nonneg; [|apply regex_positions; assumption].
  unfold VINAuthenticator.weights. repeat constructor; lia.
Qed.

Lemma checkDigit_char (vin : string) :
  VINAuthenticator.vinRegex vin = true ->
  exists c, VINAuthenticator.calculateCheckDigit vin = String c EmptyString
            /\ In c (list_ascii_of_string "0123456789X").
Proof.
  intros Hre. destruct (checkDigit_of_dot vin Hre) as [-> Hnn]. cbv zeta.
  pose proof (Z.mod_pos_bound (dot vin VINAuthenticator.weights 0) 11 ltac:(lia)) as Hr.
  set (r := (dot vin VINAuthenticator.weights 0 mod 11)%Z) in *.
  assert (Hcases : (r = 0 \/ r = 1 \/ r = 2 \/ r = 3 \/ r = 4 \/ r = 5 \/ r = 6 \/ r = 7
                    \/ r = 8 \/ r = 9 \/ r = 10)%Z) by lia.
  clearbody r.
  repeat (destruct Hcases as [->|Hcases];
          [eexists; split; [reflexivity|simpl; tauto]|]).
  subst r. eexists; split; [reflexivity|simpl; tauto].
Qed.

Lemma checkDigit_independent (vin vin' : string) :
  VINAuthenticator.vinRegex vin = true ->
  VINAuthenticator.vinRegex vin' = true ->
  (forall i, i <> 8%nat -> String.get i vin' = String.get i vin) ->
  VINAuthenticator.calculateCheckDigit vin' = VINAuthenticator.calculateCheckDigit vin.
Proof.
  intros Hre Hre' Hsame.
  destruct (checkDigit_of_dot vin Hre) as [-> _].
  destruct (checkDigit_of_dot vin' Hre') as [-> _].
  rewrite (dot_ext vin' vin); [reflexivity|].
  intros k w Hk Hw. simpl. apply Hsame. intros ->. simpl in Hk. injection Hk as <-.
  contradiction.
Qed.

(** X13: for every VIN that passes the format check (17 characters of
    [A-HJ-NPR-Z0-9]) the computed check digit is a single character, a digit
    or X (never NaN), and it does not depend on the ninth character, whose
    weight is 0: two well-formed VINs that differ only there have the same
    check digit. *)
Theorem check_digit_well_formed (vin : string) :
  VINAuthenticator.vinRegex vin = true ->
  (exists c, VINAuthenticator.calculateCheckDigit vin = String c EmptyString
             /\ In c (list_ascii_of_string "0123456789X"))
  /\ (forall vin',
        VINAuthenticator.vinRegex vin' = true ->
        (forall i, i <> 8%nat -> String.get i vin' = String.get i vin) ->
        VINAuthenticator.calculateCheckDigit vin' = VINAuthenticator.calculateCheckDigit vin).
Proof.
  intros Hre. split; [apply checkDigit_char, Hre|].
  intros vin' Hre' Hsame. apply checkDigit_independent; assumption.
Qed.

Lemma check_digit_well_formed_witness :
  VINAuthenticator.calculateCheckDigit "1HGCM826X3A004352"
  = VINAuthenticator.calculateCheckDigit Samples.hondaVin.
Proof.
  apply (proj2 (check_digit_well_formed Samples.hondaVin eq_refl) "1HGCM826X3A004352" eq_refl).
  intros i Hi.
  do 17 (destruct i as [|i]; [first [reflexivity | contradiction]|]).
  reflexivity.
Defined.

Lemma checkDigit_inClass (c : ascii) :
  In c (list_ascii_of_string "0123456789X") -> VINAuthenticator.inClass c = true.
Proof.
  simpl. intros H. repeat (destruct H as [<-|H]; [reflexivity|]). contradiction.
Qed.

(** X14: [validateVIN] accepts a VIN exactly when it passes the format check
    and its ninth character is the computed check digit; and every VIN that
    passes the format check becomes acceptable by writing the computed check
    digit at the ninth position (the other characters are kept). *)
Theorem check_digit_repairs (vin : string) :
  ((exists manufacturer year region,
      VINAuthenticator.validateVIN vin = VinValid manufacturer year region)
   <-> VINAuthenticator.vinRegex vin = true
       /\ VINAuthenticator.charAt vin 8 = VINAuthenticator.calculateCheckDigit vin)
  /\ (VINAuthenticator.vinRegex vin = true ->
      (exists manufacturer year region,
         VINAuthenticator.validateVIN (withCheckDigit vin)
         = VinValid manufacturer year region)
      /\ (forall i, i <> 8%nat -> String.get i (withCheckDigit vin) = String.get i vin)).
Proof.
  split.
  - unfold VINAuthenticator.validateVIN.
    destruct (VINAuthenticator.vinRegex vin); simpl.
    + destruct (String.eqb_spec (VINAuthenticator.calculateCheckDigit vin)
                                (VINAuthenticator.charAt vin 8)) as [E|E]; simpl.
      * split; [intros _; split; [reflexivity|congruence]|intros _; eauto].
      * split; [intros (m & y & r & H); discriminate|intros [_ H]; congruence].
    + split; [intros (m & y & r & H); discriminate|intros [H _]; discriminate].
  - intros Hre.
    destruct (checkDigit_char vin Hre) as (c & Hc & Hin).
    apply checkDigit_inClass in Hin.
    assert (Hshape : exists c0 c1 c2 c3 c4 c5 c6 c7 c8 c9 c10 c11 c12 c13 c14 c15 c16,
               vin = String c0 (String c1 (String c2 (String c3 (String c4 (String c5
                     (String c6 (String c7 (String c8 (String c9 (String c10 (String c11
                     (String c12 (String c13 (String c14 (String c15 (String c16
                     EmptyString))))))))))))))))).
    { destruct (regex_chars vin Hre) as [Hlen _].
      do 17 (destruct vin as [|? vin]; [discriminate Hlen|]).
      destruct vin; [|discriminate Hlen]. repeat eexists. }
    destruct Hshape as (c0 & c1 & c2 & c3 & c4 & c5 & c6 & c7 & c8 & c9 & c10 & c11 & c12
                        & c13 & c14 & c15 & c16 & Hvin).
    assert (Hfixed : withCheckDigit vin
                     = String c0 (String c1 (String c2 (String c3 (String c4 (String c5
                       (String c6 (String c7 (String c (String c9 (String c10 (String c11
                       (String c12 (String c13 (String c14 (String c15 (String c16
                       EmptyString))))))))))))))))).
    { unfold withCheckDigit. rewrite Hc. rewrite Hvin. reflexivity. }
    assert (Hsame : forall i, i <> 8%nat -> String.get i (withCheckDigit vin) = String.get i vin).
    { intros i Hi. rewrite Hfixed, Hvin.
      do 17 (destruct i as [|i]; [first [reflexivity | contradiction]|]). reflexivity. }
    assert (Hre' : VINAuthenticator.vinRegex (withCheckDigit vin) = true).
    { rewrite Hfixed. rewrite Hvin in Hre. unfold VINAuthenticator.vinRegex in *.
      cbn [String.length Nat.eqb andb list_ascii_of_string forallb] in *.
      repeat match type of Hre with
             | (_ && _)%bool = true => apply andb_true_iff in Hre; destruct Hre as [? Hre]
             end.
      repeat (apply andb_true_iff; split); assumption. }
    split; [|exact Hsame].
    unfold VINAuthenticator.validateVIN. rewrite Hre'. cbn [negb].
    rewrite (checkDigit_independent vin (withCheckDigit vin) Hre Hre' Hsame), Hc.
    rewrite Hfixed. cbn [VINAuthenticator.charAt String.get].
    rewrite String.eqb_refl. cbn [negb]. eauto.
Qed.

Lemma check_digit_repairs_witness :
  (exists manufacturer year region,
     VINAuthenticator.validateVIN (withCheckDigit "1HGCM826X3A004352")
     = VinValid manufacturer year region)
  /\ withCheckDigit "1HGCM826X3A004352" = Samples.hondaVin.
Proof.
  split; [|reflexivity].
  apply (proj2 (check_digit_repairs "1HGCM826X3A004352") eq_refl).
Defined.

(** ** Reading windows of the twins *)

Lemma pushTrim_length_min {A : Type} (n : nat) (l : list A) (x : A) :
  (0 < n)%nat -> (length l <= n)%nat ->
  length (pushTrim n l x) = Nat.min (length l + 1) n.
Proof.
  intros Hn Hl. rewrite pushTrim_fifo by assumption.
  destruct (Nat.ltb_spec (length l) n); rewrite length_app; cbn [length].
  - lia.
  - destruct l; cbn [length tl] in *; lia.
Qed.

Lemma vehicle_tick_window (this : VehicleDigitalTwin) (r : VehicleDraws) :
  let after := Vehicle.updateTelemetryData this r in
  telemetryData after
  = pushTrim 20 (telemetryData this)
      {| point_timestamp := lastUpdate after; data := currentState after |}.
Proof. reflexivity. Qed.

Lemma pet_tick_window (this : PetDigitalTwin) (r : PetTick) :
  let after := Pet.updateVitalData this r in
  vitalData after
  = pushTrim 15 (vitalData this) (pet_lastUpdate after, pet_currentState after).
Proof. reflexivity. Qed.

Lemma iot_tick_window (this : IoTDeviceDigitalTwin) (r : IoTTick) :
  let after := IoT.updateStatusData this r in
  statusData after
  = pushTrim 12 (statusData this) (iot_lastUpdate after, iot_currentState after).
Proof. reflexivity. Qed.

Lemma vehicle_run_window (ticks : list VehicleDraws) (this : VehicleDigitalTwin) :
  (length (telemetryData this) <= 20)%nat ->
  length (telemetryData (Vehicle.run ticks this))
  = Nat.min (length (telemetryData this) + length ticks) 20.
Proof.
  revert this. induction ticks as [|r ticks IH]; intros this H; cbn [Vehicle.run fold_left length].
  - lia.
  - unfold Vehicle.run in IH. rewrite IH; rewrite vehicle_tick_window;
      rewrite pushTrim_length_min by lia; lia.
Qed.

Lemma pet_run_window (ticks : list PetTick) (this : PetDigitalTwin) :
  (length (vitalData this) <= 15)%nat ->
  length (vitalData (Pet.run ticks this))
  = Nat.min (length (vitalData this) + length ticks) 15.
Proof.
  revert this. induction ticks as [|r ticks IH]; intros this H; cbn [Pet.run fold_left length].
  - lia.
  - unfold Pet.run in IH. rewrite IH; rewrite pet_tick_window;
      rewrite pushTrim_length_min by lia; lia.
Qed.

Lemma iot_run_window (ticks : list IoTTick) (this : IoTDeviceDigitalTwin) :
  (length (statusData this) <= 12)%nat ->
  length (statusData (IoT.run ticks this))
  = Nat.min (length (statusData this) + length ticks) 12.
Proof.
  revert this. induction ticks as [|r ticks IH]; intros this H; cbn [IoT.run fold_left length].
  - lia.
  - unfold IoT.run in IH. rewrite IH; rewrite iot_tick_window;
      rewrite pushTrim_length_min by lia; lia.
Qed.

(** X15: after any number of ticks on a newly constructed twin, the reading
    window holds min(ticks, capacity) readings, with capacity 20 for a vehicle,
    15 for a pet and 12 for an IoT device; every tick appends its reading as
    the newest entry, which is the twin's current state stamped with its last
    update, and on a full window drops exactly the oldest reading. *)
Theorem reading_windows :
  (forall vin metadata r0 ticks,
     length (telemetryData (Vehicle.run ticks (Vehicle.new vin metadata r0)))
     = Nat.min (length ticks) 20)
  /\ (forall petId metadata r0 ticks,
        length (vitalData (Pet.run ticks (Pet.new petId metadata r0)))
        = Nat.min (length ticks) 15)
  /\ (forall deviceId metadata r0 ticks,
        length (statusData (IoT.run ticks (IoT.new deviceId metadata r0)))
        = Nat.min (length ticks) 12)
  /\ (forall this r,
        let after := Vehicle.updateTelemetryData this r in
        last (telemetryData after)
        = Some {| point_timestamp := lastUpdate after; data := currentState after |}
        /\ (length (telemetryData this) = 20%nat ->
            telemetryData after
            = tl (telemetryData this)
              ++ [{| point_timestamp := lastUpdate after; data := currentState after |}]))
  /\ (forall this r,
        let after := Pet.updateVitalData this r in
        last (vitalData after) = Some (pet_lastUpdate after, pet_currentState after)
        /\ (length (vitalData this) = 15%nat ->
            vitalData after
            = tl (vitalData this) ++ [(pet_lastUpdate after, pet_currentState after)]))
  /\ (forall this r,
        let after := IoT.updateStatusData this r in
        last (statusData after) = Some (iot_lastUpdate after, iot_currentState after)
        /\ (length (statusData this) = 12%nat ->
            statusData after
            = tl (statusData this) ++ [(iot_lastUpdate after, iot_currentState after)])).
Proof.
  split; [|split; [|split; [|split; [|split]]]].
  - intros. rewrite vehicle_run_window; cbn [Vehicle.new telemetryData length]; lia.
  - intros. rewrite pet_run_window; cbn [Pet.new vitalData length]; lia.
  - intros. rewrite iot_run_window; cbn [IoT.new statusData length]; lia.
  - intros this r after. subst after. rewrite vehicle_tick_window. split.
    + apply pushTrim_last. lia.
    + intros H. rewrite pushTrim_fifo by lia. rewrite H. reflexivity.
  - intros this r after. subst after. rewrite pet_tick_window. split.
    + apply pushTrim_last. lia.
    + intros H. rewrite pushTrim_fifo by lia. rewrite H. reflexivity.
  - intros this r after. subst after. rewrite iot_tick_window. split.
    + apply pushTrim_last. lia.
    + intros H. rewrite pushTrim_fifo by lia. rewrite H. reflexivity.
Qed.

Lemma reading_windows_witness :
  length (telemetryData (Vehicle.run (repeat Samples.vehicleDraws 25)
                           (Vehicle.new Samples.hondaVin ∅ Samples.vehicleDraws))) = 20%nat.
Proof.
  rewrite (proj1 reading_windows). reflexivity.
Defined.

(** ** Ranges of the simulated readings *)

Lemma clamp_range (lo hi x : Q) :
  (lo <= hi)%Q -> (lo <= Qmax lo (Qmin hi x) <= hi)%Q.
Proof.
  intros H.
  destruct (Q.max_spec lo (Qmin hi x)) as [[Hm Em]|[Hm Em]]; rewrite Em;
    destruct (Q.min_spec hi x) as [[Hn En]|[Hn En]];
    try rewrite En in Hm; try rewrite En; lra.
Qed.

Lemma floor_nonneg (x : Q) : (0 <= Qmax 0 x)%Q.
Proof. apply Q.le_max_l. Qed.

Lemma tick_health (this : VehicleDigitalTwin) (r : VehicleDraws) :
  healthScore (Vehicle.updateTelemetryData this r)
  = Vehicle.healthOfReading (currentState (Vehicle.updateTelemetryData this r)).
Proof.
  unfold Vehicle.updateTelemetryData. rewrite updateHealthScore_reading. reflexivity.
Qed.

Lemma tick_codes (this : VehicleDigitalTwin) (r : VehicleDraws) :
  (length (diagnosticCodes (currentState (Vehicle.updateTelemetryData this r))) <= 1)%nat.
Proof.
  cbn. unfold Vehicle.generateDiagnosticCodes.
  destruct (Qlt_bool _ _); [simpl; lia|]. destruct (nth_error _ _); simpl; lia.
Qed.

Lemma vehicle_tick_ranges_health (this : VehicleDigitalTwin) (r : VehicleDraws) :
  (50 <= healthScore (Vehicle.updateTelemetryData this r) <= 100)%Z.
Proof.
  rewrite tick_health. pose proof (tick_codes this r) as Hcodes.
  set (reading := currentState (Vehicle.updateTelemetryData this r)) in *.
  unfold Vehicle.healthOfReading, Coordinator.len.
  destruct (Qlt_bool 100 (engineTemp reading)), (Qlt_bool 90 (engineTemp reading)),
    (Qlt_bool (oilPressure reading) 25), (Qlt_bool (batteryVoltage reading) 12.0); lia.
Qed.

(** X16: whatever the previous state and the random draws, the reading of a
    vehicle telemetry tick has an engine temperature in [50, 120], an oil
    pressure in [20, 60], a battery voltage in [11.8, 14.2], a fuel level of at
    least 0 and at most one diagnostic code, and the health score recomputed
    from it is between 50 and 100. *)
Theorem vehicle_tick_ranges (this : VehicleDigitalTwin) (r : VehicleDraws) :
  let after := Vehicle.updateTelemetryData this r in
  let reading := currentState after in
  (50 <= engineTemp reading <= 120)%Q
  /\ (20 <= oilPressure reading <= 60)%Q
  /\ (11.8 <= batteryVoltage reading <= 14.2)%Q
  /\ (0 <= fuelLevel reading)%Q
  /\ (length (diagnosticCodes reading) <= 1)%nat
  /\ (50 <= healthScore after <= 100)%Z.
Proof.
  intros after reading.
  split; [apply clamp_range; lra|].
  split; [apply clamp_range; lra|].
  split; [apply clamp_range; lra|].
  split; [apply floor_nonneg|]. split; [apply tick_codes|].
  apply vehicle_tick_ranges_health.
Qed.

(** ** The alert counter of a vehicle twin *)

Lemma tick_alertCount (this : VehicleDigitalTwin) (r : VehicleDraws) :
  alertCount (Vehicle.updateTelemetryData this r)
  = if (healthScore (Vehicle.updateTelemetryData this r) <? 80)%Z
       && (alertCount this =? 0)%Z
    then (alertCount this + 1)%Z else alertCount this.
Proof. reflexivity. Qed.

Lemma tick_alertInvariant (this : VehicleDigitalTwin) (r : VehicleDraws) :
  (alertCount this = 0 \/ alertCount this = 1)%Z ->
  alertInvariant (Vehicle.updateTelemetryData this r).
Proof.
  intros Hac. unfold alertInvariant. rewrite tick_alertCount.
  pose proof (vehicle_tick_ranges_health this r) as Hh.
  set (h := healthScore (Vehicle.updateTelemetryData this r)) in *. clearbody h.
  destruct (Z.ltb_spec h 80); destruct Hac as [-> | ->]; simpl; lia.
Qed.


(** ** Levels that reach zero *)

Lemma level_step (old draw dflt k : Q) :
  (0 <= draw < 1)%Q -> (0 < k)%Q -> (k <= dflt)%Q ->
  let new := Qmax 0 (Vehicle.orDefault old dflt - draw * k) in
  ((old == 0)%Q -> (dflt - k < new <= dflt)%Q)
  /\ ((0 < old)%Q -> (0 <= new <= old)%Q).
Proof.
  intros [Hd0 Hd1] Hk Hdflt new. subst new. unfold Vehicle.orDefault.
  assert (Hdk : (0 <= draw * k < k)%Q).
  { split; [apply Qmult_le_0_compat; lra|].
    rewrite <- (Qmult_1_l k) at 2. apply Qmult_lt_r; assumption. }
  destruct (Qeq_bool old 0) eqn:E.
  - apply Qeq_bool_iff in E. split; [intros _|intros H; lra].
    destruct (Q.max_spec 0 (dflt - draw * k)) as [[Hm ->]|[Hm ->]]; lra.
  - split; [intros H; apply Qeq_bool_iff in H; congruence|intros Hpos].
    destruct (Q.max_spec 0 (old - draw * k)) as [[Hm ->]|[Hm ->]]; lra.
Qed.



(** ** Pet and IoT readings *)


Lemma iot_health_range (this : IoTDeviceDigitalTwin) :
  (0 <= iot_healthScore (IoT.updateHealthScore this) <= 100)%Z
  /\ (iot_status (iot_currentState this) = "offline" ->
      (iot_healthScore (IoT.updateHealthScore this) <= 50)%Z)
  /\ (iot_status (iot_currentState this) = "online" ->
      (40 <= iot_healthScore (IoT.updateHealthScore this))%Z).
Proof.
  unfold IoT.updateHealthScore. cbn [iot_healthScore].
  destruct (String.eqb_spec (iot_status (iot_currentState this)) "offline") as [E|E];
    [|destruct (String.eqb_spec (iot_status (iot_currentState this)) "warning") as [E'|E']];
    destruct (Qlt_bool 80 (cpuUsage _)), (Qlt_bool 80 (memoryUsage _)),
      (Qlt_bool 60 (temperature _)), (Qlt_bool (iot_batteryLevel _) 20);
    repeat split; intros; try lia; congruence.
Qed.

Lemma iot_run_uptime (ticks : list IoTTick) (this : IoTDeviceDigitalTwin) :
  uptime (iot_currentState (IoT.run ticks this))
  = (uptime (iot_currentState this) + 8 * Z.of_nat (length ticks))%Z.
Proof.
  revert this. induction ticks as [|r ticks IH]; intros this; cbn [IoT.run fold_left length].
  - lia.
  - unfold IoT.run in IH. rewrite IH.
    change (uptime (iot_currentState (IoT.updateStatusData this r)))
      with (IoT.simulateUptime this).
    unfold IoT.simulateUptime. lia.
Qed.

(** X20: whatever the previous state and the draws, the reading of an IoT
    status tick has a CPU usage in [5, 95], a memory usage in [10, 90], a
    temperature in [20, 70], a network latency in [5, 200] and a signal
    strength in [-90, -20]; for a draw in [0, 1) its status is online, warning
    or offline; the uptime grows by exactly 8 per tick; the health score is
    between 0 and 100, at most 50 when the status is offline and at least 40
    when it is online. *)
Theorem iot_tick_ranges (this : IoTDeviceDigitalTwin) (r : IoTTick) :
  let after := IoT.updateStatusData this r in
  let reading := iot_currentState after in
  (5 <= cpuUsage reading <= 95)%Q
  /\ (10 <= memoryUsage reading <= 90)%Q
  /\ (20 <= temperature reading <= 70)%Q
  /\ (5 <= networkLatency reading <= 200)%Q
  /\ (-90 <= signalStrength reading <= -20)%Q
  /\ ((0 <= tickStatus r < 1)%Q ->
      In (iot_status reading) ["online"; "warning"; "offline"])
  /\ (forall ticks,
        uptime (iot_currentState (IoT.run ticks this))
        = (uptime (iot_currentState this) + 8 * Z.of_nat (length ticks))%Z)
  /\ (0 <= iot_healthScore after <= 100)%Z
  /\ (iot_status reading = "offline" -> (iot_healthScore after <= 50)%Z)
  /\ (iot_status reading = "online" -> (40 <= iot_healthScore after)%Z).
Proof.
  intros after reading.
  split; [apply clamp_range; lra|]. split; [apply clamp_range; lra|].
  split; [apply clamp_range; lra|]. split; [apply clamp_range; lra|].
  split; [apply clamp_range; lra|].
  split.
  { intros Hdraw.
    change (iot_status reading) with (IoT.simulateStatus r). unfold IoT.simulateStatus.
    pose proof (random_index_in_range (tickStatus r) (Coordinator.len IoT.statuses) Hdraw
                  ltac:(reflexivity)) as Hi.
    set (i := Qfloor _) in *. change (Coordinator.len IoT.statuses) with 5%Z in Hi.
    assert (Hcases : (i = 0 \/ i = 1 \/ i = 2 \/ i = 3 \/ i = 4)%Z) by lia.
    clearbody i. destruct Hcases as [->|[->|[->|[->| ->]]]]; simpl; tauto. }
  split; [intros ticks; apply iot_run_uptime|].
  subst reading after. unfold IoT.updateStatusData. cbv zeta.
  match goal with
  | |- context [IoT.updateHealthScore ?t] =>
      pose proof (iot_health_range t) as (H1 & H2 & H3)
  end.
  split; [exact H1|]. split; [exact H2|exact H3].
Qed.

Lemma iot_tick_ranges_witness :
  In (iot_status (iot_currentState
                    (IoT.updateStatusData
                       (IoT.new "DEV-1" ∅ Samples.iotDraws)
                       {| tickStatus := 0.9; tickCpu := 0.5; tickMemory := 0.5;
                          tickTemperature := 0.5; tickLatency := 0.5;
                          tickIoTBattery := 0.5; tickSignal := 0.5;
                          tickIoTTime := "2025-01-01T00:00:16.000Z" |})))
     ["online"; "warning"; "offline"].
Proof.
  apply (iot_tick_ranges (IoT.new "DEV-1" ∅ Samples.iotDraws)).
  vm_compute. split; [discriminate|reflexivity].
Defined.

(** ** Vehicle reports *)

(** X21: the predicted next service is a whole multiple of 10000 that lies
    at least 10000 and less than 20000 beyond the current mileage (exactly
    10000 beyond it when the mileage is itself a multiple of 10000). *)
Theorem next_service_distance (this : VehicleDigitalTwin) :
  let m := mileage (currentState this) in
  (exists k, Vehicle.nextServiceKm this = 10000 * k)%Z
  /\ (m + 10000 <= inject_Z (Vehicle.nextServiceKm this))%Q
  /\ (inject_Z (Vehicle.nextServiceKm this) < m + 20000)%Q.
Proof.
  intros m. unfold Vehicle.nextServiceKm. fold m.
  pose proof (Qle_ceiling (m / 10000)) as Hle.
  pose proof (Qceiling_lt (m / 10000)) as Hlt.
  set (c := Qceiling (m / 10000)) in *.
  rewrite inject_Z_plus, inject_Z_mult.
  unfold Z.sub in Hlt. rewrite inject_Z_plus in Hlt.
  change (inject_Z (- (1))) with (-1)%Q in Hlt.
  change (inject_Z 10000) with 10000%Q.
  assert (Hm : (m == m / 10000 * 10000)%Q) by (field).
  split; [exists (c + 1)%Z; lia|]. split; lra.
Qed.

(** X22: on a twin whose score has been recomputed, an engine above 100
    raises the critical overheating alert and always comes with a predicted
    cooling-system failure.  When overheating is the only finding (oil
    pressure at least 25, battery at least 12.0, no diagnostic code) the score
    is exactly 80: the twin shows the critical alert, but because both
    thresholds are strict (score < 80) it gets no maintenance recommendation
    and its alert counter is not raised.  Two active alerts always bring the
    maintenance recommendation. *)
Theorem overheating_alone_scores_80 (this : VehicleDigitalTwin) (now : string) :
  let twin := Vehicle.updateHealthScore this in
  let reading := currentState this in
  let overheating := {| alertType := "critical";
                        alertMessage := "Engine overheating detected";
                        alertTimestamp := now |} in
  (Qlt_bool 100 (engineTemp reading) = true ->
     In overheating (Vehicle.generateActiveAlerts twin now)
     /\ In {| component := "Cooling System"; probability := 0.60;
              timeframe := "4 months" |} (Vehicle.predictFailures twin))
  /\ (Qlt_bool 100 (engineTemp reading) = true ->
      Qlt_bool (oilPressure reading) 25 = false ->
      Qlt_bool (batteryVoltage reading) 12.0 = false ->
      diagnosticCodes reading = [] ->
      healthScore twin = 80%Z
      /\ Vehicle.generateActiveAlerts twin now = [overheating]
      /\ ~ In "Schedule maintenance inspection" (Vehicle.generateRecommendations twin)
      /\ alertCount twin = alertCount this)
  /\ (length (Vehicle.generateActiveAlerts twin now) = 2%nat ->
      In "Schedule maintenance inspection" (Vehicle.generateRecommendations twin)).
Proof.
  intros twin reading overheating.
  assert (Hstate : currentState twin = reading) by reflexivity.
  assert (Hscore : healthScore twin = Vehicle.healthOfReading reading)
    by apply updateHealthScore_reading.
  split; [|split].
  - intros Hhot. unfold Vehicle.generateActiveAlerts, Vehicle.predictFailures.
    rewrite Hstate, Hhot.
    assert (H95 : Qlt_bool 95 (engineTemp reading) = true).
    { apply Qlt_bool_iff. apply Qlt_bool_iff in Hhot. lra. }
    rewrite H95. split.
    + destruct (Qlt_bool (oilPressure reading) 25); simpl; tauto.
    + destruct (Qlt_bool (batteryVoltage reading) 12.2); simpl; tauto.
  - intros Hhot Hoil Hbat Hcodes.
    assert (H80 : healthScore twin = 80%Z).
    { rewrite Hscore. unfold Vehicle.healthOfReading. rewrite Hhot, Hoil, Hbat, Hcodes.
      reflexivity. }
    split; [exact H80|]. split.
    { unfold Vehicle.generateActiveAlerts. rewrite Hstate, Hhot, Hoil. reflexivity. }
    split.
    { unfold Vehicle.generateRecommendations. rewrite H80, Hstate. simpl.
      destruct (Qlt_bool (fuelLevel reading) 20); simpl; intuition discriminate. }
    assert (Hac : alertCount twin
                  = if (healthScore twin <? 80)%Z && (alertCount this =? 0)%Z
                    then (alertCount this + 1)%Z else alertCount this) by reflexivity.
    rewrite Hac, H80. reflexivity.
  - unfold Vehicle.generateActiveAlerts, Vehicle.generateRecommendations.
    rewrite Hstate, Hscore. unfold Vehicle.healthOfReading.
    pose proof (len_nonneg (diagnosticCodes reading)) as Hlen.
    destruct (Qlt_bool 100 (engineTemp reading)), (Qlt_bool (oilPressure reading) 25);
      simpl; intros H; try discriminate H.
    assert (Hlt : (Z.max 0 (100 - 20 - 15
                            - (if Qlt_bool (batteryVoltage reading) 12.0 then 10 else 0)
                            - 5 * Coordinator.len (diagnosticCodes reading)) <? 80)%Z = true).
    { apply Z.ltb_lt. destruct (Qlt_bool (batteryVoltage reading) 12.0); lia. }
    rewrite Hlt. destruct (Qlt_bool (fuelLevel reading) 20); simpl; tauto.
Qed.

Lemma overheating_alone_scores_80_witness :
  healthScore (Vehicle.updateHealthScore Samples.hotTwin) = 80%Z
  /\ ~ In "Schedule maintenance inspection"
         (Vehicle.generateRecommendations (Vehicle.updateHealthScore Samples.hotTwin)).
Proof.
  destruct (proj1 (proj2 (overheating_alone_scores_80 Samples.hotTwin "now"))
              eq_refl eq_refl eq_refl eq_refl) as (H80 & _ & Hrec & _).
  split; assumption.
Defined.

(** ** Telemetry statistics *)

Lemma fold_left_Qplus (l : list Q) (a : Q) : (fold_left Qplus l a == a + Qsum l)%Q.
Proof.
  revert a. induction l as [|x l IH]; intros a; simpl; [ring|]. rewrite IH. ring.
Qed.

Lemma Qsum_bounds (lo hi : Q) (l : list Q) :
  Forall (fun x => lo <= x <= hi)%Q l ->
  (lo * inject_Z (Coordinator.len l) <= Qsum l <= hi * inject_Z (Coordinator.len l))%Q.
Proof.
  unfold Coordinator.len. induction 1 as [|x l Hx _ IH]; simpl Qsum.
  - change (inject_Z (Z.of_nat (length (@nil Q)))) with 0%Q. lra.
  - replace (Z.of_nat (length (x :: l))) with (Z.of_nat (length l) + 1)%Z
      by (simpl length; lia).
    rewrite inject_Z_plus. change (inject_Z 1) with 1%Q. split; lra.
Qed.

Lemma average_bounds (lo hi : Q) (l : list Q) :
  l <> [] -> Forall (fun x => lo <= x <= hi)%Q l ->
  (lo <= fold_left Qplus l 0 / inject_Z (Coordinator.len l) <= hi)%Q.
Proof.
  intros Hne Hall. rewrite fold_left_Qplus, Qplus_0_l.
  pose proof (Qsum_bounds lo hi l Hall) as [Hlo Hhi].
  assert (Hpos : (0 < inject_Z (Coordinator.len l))%Q).
  { destruct l; [contradiction|]. unfold Coordinator.len, Qlt. simpl. lia. }
  split; [apply Qle_shift_div_l|apply Qle_shift_div_r]; assumption.
Qed.

Lemma run_points_in_range (ticks : list VehicleDraws) (this : VehicleDigitalTwin) :
  Forall pointInRange (telemetryData this) ->
  Forall pointInRange (telemetryData (Vehicle.run ticks this)).
Proof.
  revert this. induction ticks as [|r ticks IH]; intros this H; [exact H|].
  cbn [Vehicle.run fold_left]. apply IH. rewrite vehicle_tick_window.
  apply Forall_pushTrim; [exact H|].
  unfold pointInRange. cbn [data].
  split; apply clamp_range; lra.
Qed.

(** X23: the telemetry statistics of a vehicle twin are the empty object
    exactly while no tick has run; after at least one tick they count
    min(ticks, 20) data points, and the average engine temperature lies in
    [50, 120] and the average oil pressure in [20, 60]. *)
Theorem telemetry_statistics (vin : string) (metadata : Metadata) (r0 : VehicleDraws)
    (ticks : list VehicleDraws) :
  match Vehicle.calculateTelemetryStats (Vehicle.run ticks (Vehicle.new vin metadata r0)) with
  | None => ticks = []
  | Some stats =>
      ticks <> []
      /\ totalDataPoints stats = Z.of_nat (Nat.min (length ticks) 20)
      /\ (50 <= avgEngineTemp stats <= 120)%Q
      /\ (20 <= avgOilPressure stats <= 60)%Q
  end.
Proof.
  set (twin := Vehicle.run ticks (Vehicle.new vin metadata r0)).
  assert (Hlen : length (telemetryData twin) = Nat.min (length ticks) 20).
  { subst twin. rewrite vehicle_run_window; cbn [Vehicle.new telemetryData length]; lia. }
  assert (Hrange : Forall pointInRange (telemetryData twin)).
  { subst twin. apply run_points_in_range. constructor. }
  unfold Vehicle.calculateTelemetryStats.
  destruct (Z.eqb_spec (Coordinator.len (telemetryData twin)) 0) as [E|E].
  - unfold Coordinator.len in E. destruct ticks; [reflexivity|]. simpl length in Hlen. lia.
  - assert (Hne : telemetryData twin <> []).
    { intros H. apply E. rewrite H. reflexivity. }
    split; [intros ->; apply Hne; reflexivity|].
    cbn [totalDataPoints avgEngineTemp avgOilPressure].
    split; [unfold Coordinator.len; rewrite Hlen; reflexivity|].
    split; apply average_bounds.
    + intros H. apply Hne. destruct (telemetryData twin); [reflexivity|discriminate H].
    + apply List.Forall_map. eapply List.Forall_impl; [|exact Hrange].
      intros p [Hp _]. exact Hp.
    + intros H. apply Hne. destruct (telemetryData twin); [reflexivity|discriminate H].
    + apply List.Forall_map. eapply List.Forall_impl; [|exact Hrange].
      intros p [_ Hp]. exact Hp.
Qed.

(** ** MQTT simulator *)

Lemma createClient_counters (this : MQTTSimulator) (clientId clientType now : string) :
  messageQueue this = [] -> countersAgree this ->
  countersAgree (MQTT.createClient this clientId clientType now)
  /\ messageQueue (MQTT.createClient this clientId clientType now) = [].
Proof.
  intros Hq Hinv. split; [|exact Hq].
  intros id client. unfold MQTT.createClient, publishedBy. cbn [clients messageQueue].
  rewrite Hq. intros Hlook. destruct (decide (clientId = id)) as [->|Hne].
  - rewrite lookup_insert_eq in Hlook. injection Hlook as <-. reflexivity.
  - rewrite lookup_insert_ne in Hlook by assumption.
    rewrite (Hinv id client Hlook). unfold publishedBy. rewrite Hq. reflexivity.
Qed.

Lemma subscribe_counters (this : MQTTSimulator) (clientId topic now : string) :
  countersAgree this -> countersAgree (MQTT.subscribe this clientId topic now).
Proof.
  intros Hinv. unfold MQTT.subscribe.
  destruct (clients this !! clientId) as [c|] eqn:E; [|exact Hinv].
  intros id client. unfold publishedBy. cbn [clients messageQueue].
  intros Hlook. destruct (decide (clientId = id)) as [->|Hne].
  - rewrite lookup_insert_eq in Hlook. injection Hlook as <-. cbn [publishedMessages].
    apply (Hinv id c E).
  - rewrite lookup_insert_ne in Hlook by assumption. apply (Hinv id client Hlook).
Qed.

Lemma publish_counters (this : MQTTSimulator) (clientId topic : string) (message : Metadata)
    (nowMs : Z) (now : string) :
  countersAgree this -> countersAgree (MQTT.publish this clientId topic message nowMs now).
Proof.
  intros Hinv. unfold MQTT.publish.
  destruct (clients this !! clientId) as [c|] eqn:E; [|exact Hinv].
  intros id client. unfold publishedBy. cbn [clients messageQueue].
  rewrite List.filter_app. cbn [List.filter message_clientId].
  unfold Coordinator.len. rewrite length_app.
  intros Hlook. destruct (decide (clientId = id)) as [->|Hne].
  - rewrite lookup_insert_eq in Hlook. injection Hlook as <-. cbn [publishedMessages].
    rewrite String.eqb_refl. rewrite (Hinv id c E). unfold publishedBy, Coordinator.len.
    simpl length. lia.
  - rewrite lookup_insert_ne in Hlook by assumption.
    destruct (String.eqb_spec clientId id) as [Heq|_]; [contradiction|].
    rewrite (Hinv id client Hlook). unfold publishedBy, Coordinator.len. simpl length. lia.
Qed.

Lemma demo_counters (now : string) :
  countersAgree (Manager.initializeMQTTDemo MQTT.new now)
  /\ messageQueue (Manager.initializeMQTTDemo MQTT.new now) = [].
Proof.
  unfold Manager.initializeMQTTDemo.
  assert (H0 : countersAgree MQTT.new /\ messageQueue MQTT.new = []).
  { split; [|reflexivity]. intros id client H. unfold MQTT.new in H. simpl in H.
    rewrite lookup_empty in H. discriminate. }
  destruct H0 as [H0 Q0].
  destruct (createClient_counters _ "vehicle-gateway-001" "vehicle-gateway" now Q0 H0)
    as [H1 Q1].
  destruct (createClient_counters _ "pet-collar-hub" "pet-hub" now Q1 H1) as [H2 Q2].
  destruct (createClient_counters _ "iot-device-manager" "iot-manager" now Q2 H2)
    as [H3 Q3].
  destruct (createClient_counters _ "cloud-analytics" "analytics" now Q3 H3) as [H4 Q4].
  split.
  - repeat apply subscribe_counters. exact H4.
  - assert (Hs : forall m c t, messageQueue (MQTT.subscribe m c t now) = messageQueue m).
    { intros m c t. unfold MQTT.subscribe. destruct (clients m !! c); reflexivity. }
    rewrite !Hs. exact Q4.
Qed.

Lemma run_counters (ops : list MQTT.Operation) (this : MQTTSimulator) :
  countersAgree this -> countersAgree (MQTT.run ops this).
Proof.
  revert this. induction ops as [|op ops IH]; intros this H; [exact H|].
  cbn [MQTT.run fold_left]. apply IH.
  destruct op; [apply publish_counters|apply subscribe_counters]; exact H.
Qed.

(** X24: starting from the simulator of a new twin manager, after any run
    of publish and subscribe calls every client's [publishedMessages] counter
    equals the number of its messages in the queue.  A publish by a client
    that does not exist changes nothing; a publish by an existing client adds
    exactly one message, with QoS 1, at the end of the queue, which is never
    trimmed. *)
Theorem mqtt_counters (now : string) (ops : list MQTT.Operation) :
  let this := MQTT.run ops (mqttSimulator (Manager.new now)) in
  countersAgree this
  /\ (forall clientId topic message nowMs stamp,
        clients this !! clientId = None ->
        MQTT.publish this clientId topic message nowMs stamp = this)
  /\ (forall clientId topic message nowMs stamp,
        clients this !! clientId <> None ->
        messageQueue (MQTT.publish this clientId topic message nowMs stamp)
        = messageQueue this
          ++ [{| messageId := "msg-" +:+ show nowMs; message_clientId := clientId;
                 topic := topic; payload := message; message_timestamp := stamp;
                 qos := 1 |}]).
Proof.
  intros this. split; [|split].
  - subst this. apply run_counters. apply demo_counters.
  - intros clientId topic message nowMs stamp H. unfold MQTT.publish. rewrite H. reflexivity.
  - intros clientId topic message nowMs stamp H. unfold MQTT.publish.
    destruct (clients this !! clientId); [reflexivity|contradiction].
Qed.

Lemma mqtt_counters_witness :
  length (messageQueue (MQTT.publish (mqttSimulator (Manager.new "2025-01-01T00:00:00.000Z"))
                          "pet-collar-hub" "pet/vitals/PET456" ∅ 5
                          "2025-01-01T00:00:01.000Z")) = 1%nat.
Proof.
  rewrite (proj2 (proj2 (mqtt_counters "2025-01-01T00:00:00.000Z" []))).
  - reflexivity.
  - vm_compute. discriminate.
Defined.

Lemma publish_demoInvariant (this : MQTTSimulator) (clientId topic : string)
    (message : Metadata) (nowMs : Z) (now : string) :
  demoInvariant this ->
  clients this !! clientId <> None ->
  In topic ["vehicle/telemetry/VIN123"; "pet/vitals/PET456"; "iot/status/DEV789"] ->
  demoInvariant (MQTT.publish this clientId topic message nowMs now)
  /\ length (messageQueue (MQTT.publish this clientId topic message nowMs now))
     = S (length (messageQueue this)).
Proof.
  intros (Ht & Hc & Hq) Hclient Htopic. unfold MQTT.publish.
  destruct (clients this !! clientId) as [c|] eqn:E; [|contradiction].
  split.
  - split; [exact Ht|]. split.
    + intros c' Hc'. cbn [clients]. destruct (decide (clientId = c')) as [->|Hne].
      * rewrite lookup_insert_eq. discriminate.
      * rewrite lookup_insert_ne by assumption. apply Hc, Hc'.
    + cbn [messageQueue]. apply Forall_app. split; [exact Hq|].
      constructor; [exact Htopic|constructor].
  - cbn [messageQueue]. rewrite length_app. simpl. lia.
Qed.

Lemma traffic_demoInvariant (this : DigitalTwinManager) (nowMs : Z) (now : string) :
  demoInvariant (mqttSimulator this) ->
  demoInvariant (mqttSimulator (fst (Manager.simulateMQTTTraffic this nowMs now)))
  /\ length (messageQueue (mqttSimulator (fst (Manager.simulateMQTTTraffic this nowMs now))))
     = (3 + length (messageQueue (mqttSimulator this)))%nat
  /\ vehicleTwins (fst (Manager.simulateMQTTTraffic this nowMs now)) = vehicleTwins this.
Proof.
  intros H0. unfold Manager.simulateMQTTTraffic, Manager.demoTraffic.
  cbn [fst snd mqttSimulator vehicleTwins fold_left].
  destruct (publish_demoInvariant (mqttSimulator this) "vehicle-gateway-001"
              "vehicle/telemetry/VIN123" (<["speed" := "65"]> (<["rpm" := "2500"]> ∅))
              nowMs now H0) as [H1 L1].
  { apply (proj1 (proj2 H0)). simpl. tauto. }
  { simpl. tauto. }
  destruct (publish_demoInvariant _ "pet-collar-hub" "pet/vitals/PET456"
              (<["heartRate" := "95"]> (<["activity" := "75"]> ∅)) nowMs now H1)
    as [H2 L2].
  { apply (proj1 (proj2 H1)). simpl. tauto. }
  { simpl. tauto. }
  destruct (publish_demoInvariant _ "iot-device-manager" "iot/status/DEV789"
              (<["status" := "online"]> (<["cpu" := "45"]> ∅)) nowMs now H2)
    as [H3 L3].
  { apply (proj1 (proj2 H2)). simpl. tauto. }
  { simpl. tauto. }
  split; [exact H3|]. split; [|reflexivity]. rewrite L3, L2, L1. reflexivity.
Qed.

Lemma new_demoInvariant (now : string) : demoInvariant (mqttSimulator (Manager.new now)).
Proof.
  split; [vm_compute; reflexivity|]. split.
  - intros c Hc. simpl in Hc.
    destruct Hc as [<-|[<-|[<-|[]]]]; vm_compute; discriminate.
  - change (mqttSimulator (Manager.new now))
      with (Manager.initializeMQTTDemo MQTT.new now).
    rewrite (proj2 (demo_counters now)). constructor.
Qed.

(** X25: subscriptions are matched by exact topic name, so the wildcard
    subscriptions of the constructor never match a published topic: after any
    number of rounds of demo traffic on a new manager the queue holds three
    messages per round, yet every entry of [getTopicStats] (one per subscribed
    topic, all five ending in [+]) reports 0 messages and no last message. *)
Theorem wildcard_topics_count_nothing (now : string) (rounds : list (Z * string)) :
  let mqtt := mqttSimulator (traffic rounds (Manager.new now)) in
  length (messageQueue mqtt) = (3 * length rounds)%nat
  /\ (forall topic stat,
        MQTT.getTopicStats mqtt !! topic = Some stat ->
        In topic ["vehicle/telemetry/+"; "pet/vitals/+"; "iot/status/+";
                  "pet/commands/+"; "vehicle/commands/+"]
        /\ messageCount stat = 0%Z
        /\ lastMessage stat = None
        /\ subscriberCount stat = 1%Z).
Proof.
  intros mqtt.
  assert (H : forall this,
             demoInvariant (mqttSimulator this) ->
             demoInvariant (mqttSimulator (traffic rounds this))
             /\ length (messageQueue (mqttSimulator (traffic rounds this)))
                = (3 * length rounds + length (messageQueue (mqttSimulator this)))%nat).
  { induction rounds as [|[ms stamp] rounds IH]; intros this Hinv.
    - split; [exact Hinv|reflexivity].
    - cbn [traffic fold_left fst snd].
      destruct (traffic_demoInvariant this ms stamp Hinv) as (H1 & L1 & _).
      destruct (IH _ H1) as [H2 L2]. split; [exact H2|].
      unfold traffic in L2. rewrite L2, L1. simpl length. lia. }
  destruct (H (Manager.new now) (new_demoInvariant now)) as [(Ht & _ & Hq) Hlen].
  fold mqtt in Ht, Hq, Hlen.
  split.
  { rewrite Hlen.
    change (mqttSimulator (Manager.new now))
      with (Manager.initializeMQTTDemo MQTT.new now).
    rewrite (proj2 (demo_counters now)). simpl length. lia. }
  intros topic stat Hstat. unfold MQTT.getTopicStats in Hstat.
  rewrite map_lookup_imap in Hstat.
  destruct (topics mqtt !! topic) as [subscribers|] eqn:E; [|discriminate].
  simpl in Hstat. injection Hstat as <-.
  rewrite Ht in E.
  assert (Hkey : In topic ["vehicle/telemetry/+"; "pet/vitals/+"; "iot/status/+";
                           "pet/commands/+"; "vehicle/commands/+"]
                 /\ length subscribers = 1%nat).
  { repeat (apply lookup_insert_Some in E;
            destruct E as [[<- <-]|[_ E]]; [split; [simpl; tauto|reflexivity]|]).
    rewrite lookup_empty in E. discriminate. }
  destruct Hkey as [Hkey Hsubs]. split; [exact Hkey|].
  assert (Hnone : List.filter (fun msg => String.eqb (message_topic msg) topic)
                              (messageQueue mqtt) = []).
  { apply filter_none. apply forallb_forall. intros msg Hmsg.
    rewrite List.Forall_forall in Hq. specialize (Hq msg Hmsg).
    apply negb_true_iff. apply String.eqb_neq. intros Heq. rewrite Heq in Hq.
    simpl in Hq, Hkey.
    destruct Hkey as [<-|[<-|[<-|[<-|[<-|[]]]]]];
      destruct Hq as [Hq|[Hq|[Hq|[]]]]; discriminate Hq. }
  unfold MQTT.topicStat. cbn [messageCount lastMessage subscriberCount].
  rewrite Hnone. unfold Coordinator.len. rewrite Hsubs. repeat split; reflexivity.
Qed.

(** ** The twin registry *)

Lemma create_keeps_manager (state : DigitalTwinManager * MultiAgentCoordinator)
    (call : Manager.Creation) :
  fst (Manager.create state call) = fst state.
Proof.
  destruct call as [vin metadata w r|petId metadata w r|deviceId metadata w r];
    unfold Manager.create.
  - rewrite createDigitalTwin_rejects. destruct (VINAuthenticator.validateVIN vin); reflexivity.
  - rewrite createPetTwin_rejects. reflexivity.
  - rewrite createIoTTwin_rejects. reflexivity.
Qed.

(** X26: no sequence of twin-creation calls ever changes the twin manager:
    whatever the agents answer, after any run of createDigitalTwin,
    createPetTwin and createIoTTwin calls the three twin maps and the MQTT
    simulator are what they were, so a manager that starts empty stays empty
    (getTotalTwinsCount is 0 and every lookup finds nothing). *)
Theorem creation_never_stores (now : string) (coordinator : MultiAgentCoordinator)
    (manager : DigitalTwinManager) (calls : list Manager.Creation) :
  fst (Manager.run calls (manager, coordinator)) = manager
  /\ (let registry := fst (Manager.run calls (Manager.new now, coordinator)) in
      Manager.getTotalTwinsCount registry = 0%Z
      /\ (forall subject,
            Manager.getDigitalTwin registry subject = None
            /\ Manager.getPetTwin registry subject = None
            /\ Manager.getIoTTwin registry subject = None)
      /\ messageQueue (mqttSimulator registry) = []).
Proof.
  assert (H : forall state, fst (Manager.run calls state) = fst state).
  { induction calls as [|call calls IH]; intros state; [reflexivity|].
    cbn [Manager.run fold_left]. unfold Manager.run in IH. rewrite IH.
    apply create_keeps_manager. }
  split; [apply (H (manager, coordinator))|].
  cbv zeta. rewrite (H (Manager.new now, coordinator)). cbn [fst].
  split; [reflexivity|]. split.
  - intros subject. unfold Manager.getDigitalTwin, Manager.getPetTwin, Manager.getIoTTwin.
    cbn [Manager.new vehicleTwins petTwins iotTwins]. rewrite !lookup_empty. auto.
  - change (mqttSimulator (Manager.new now))
      with (Manager.initializeMQTTDemo MQTT.new now).
    apply (proj2 (demo_counters now)).
Qed.

